(** * Spine Studio: the response sanitizer of the three command-line tools

    Shallow embedding of [bin/spine_analyze.py] (Detect), [bin/spine_refine.py]
    (Refine) and [bin/spine_update_anims.py] (Regenerate animations).

    The three scripts decode JSON with [json.loads] and then work on plain
    Python objects: dicts, lists, strings, numbers, booleans and [None].  The
    embedding keeps that shape: a [value] is a decoded JSON document, Python
    [float]s are the kernel's binary64 numbers, Python [int]s are [Z], a dict
    is an association list in insertion order, and an exception raised inside
    the [try] block is the left injection of a sum. *)

From Stdlib Require Import ZArith List String Ascii Bool Lia Floats.
Import ListNotations.

Set Warnings "-inexact-float,-register-all".

Local Open Scope string_scope.
Local Open Scope Z_scope.

(** ** Python objects *)

Module Py.

(** What [json.loads] builds.  [VDict] lists the items in insertion order;
    [json.loads] never yields two items with one key. *)
Inductive value : Type :=
| VNone
| VBool (b : bool)
| VInt (z : Z)
| VFloat (f : float)
| VStr (s : string)
| VList (l : list value)
| VDict (d : list (string * value)).

(** The exceptions the sanitizing code can raise, by class.  [External] is an
    exception of a collaborator (imaging library, model client, network). *)
Inductive exn : Type :=
| KeyError (k : string)
| TypeError
| AttributeError
| ValueError
| OverflowError
| External (msg : string).

(** A computation that returns an [A] or raises. *)
Definition M (A : Type) : Type := (exn + A)%type.

Definition ret {A} (a : A) : M A := inr a.
Definition raise {A} (e : exn) : M A := inl e.
Definition bind {A B} (c : M A) (k : A -> M B) : M B :=
  match c with
  | inl e => inl e
  | inr a => k a
  end.

Declare Scope py_scope.
Delimit Scope py_scope with py.
Notation "x <- c ;; k" := (bind c (fun x => k))
  (at level 61, c at next level, right associativity) : py_scope.
Notation "' p <- c ;; k" := (bind c (fun x => let p := x in k))
  (at level 61, p pattern, c at next level, right associativity) : py_scope.
Local Open Scope py_scope.

(** [for x in l: ...] where each round yields a new object or raises. *)
Fixpoint mapM {A B} (f : A -> M B) (l : list A) : M (list B) :=
  match l with
  | [] => ret []
  | a :: r => b <- f a ;; bs <- mapM f r ;; ret (b :: bs)
  end.

(** [for x in l: ...] threading an accumulator. *)
Fixpoint foldM {A S} (f : S -> A -> M S) (s : S) (l : list A) : M S :=
  match l with
  | [] => ret s
  | a :: r => s' <- f s a ;; foldM f s' r
  end.

(** *** Dicts *)

Fixpoint dict_get (k : string) (d : list (string * value)) : option value :=
  match d with
  | [] => None
  | (k', v) :: r => if String.eqb k k' then Some v else dict_get k r
  end.

(** [d[k] = v]: an existing key keeps its place, a new key goes last. *)
Fixpoint dict_set (k : string) (v : value) (d : list (string * value))
  : list (string * value) :=
  match d with
  | [] => [(k, v)]
  | (k', v') :: r =>
      if String.eqb k k' then (k, v) :: r else (k', v') :: dict_set k v r
  end.

Definition dict_mem (k : string) (d : list (string * value)) : bool :=
  match dict_get k d with Some _ => true | None => false end.

(** *** Numbers *)

(** [float(n)] for an [int]: the nearest binary64 number, ties to even;
    [OverflowError] when [n] is too large. *)
Definition float_of_int (z : Z) : M float :=
  let f := SF2Prim (binary_normalize prec emax z 0 false) in
  if is_infinity f then raise OverflowError else ret f.

Definition int_of_bool (b : bool) : Z := if b then 1 else 0.

(** Python compares an [int] with a [float] by value, without rounding the
    [int].  [None] when the float is a NaN. *)
Definition int_compare_float (z : Z) (f : float) : option comparison :=
  match Prim2SF f with
  | S754_zero _ => Some (z ?= 0)
  | S754_infinity false => Some Lt
  | S754_infinity true => Some Gt
  | S754_nan => None
  | S754_finite s m e =>
      let v := cond_Zopp s (Zpos m) in
      if 0 <=? e then Some (z ?= v * 2 ^ e) else Some (z * 2 ^ (- e) ?= v)
  end.

(** [a == b] on decoded JSON scalars: numbers (with [bool]) compare by value
    across types, strings with strings, [None] with [None]. *)
Definition py_eq (a b : value) : bool :=
  match a, b with
  | VNone, VNone => true
  | VStr s, VStr t => String.eqb s t
  | VBool x, VBool y => Bool.eqb x y
  | VBool x, VInt z | VInt z, VBool x => Z.eqb (int_of_bool x) z
  | VInt x, VInt y => Z.eqb x y
  | VFloat x, VFloat y => PrimFloat.eqb x y
  | VBool x, VFloat f | VFloat f, VBool x =>
      match int_compare_float (int_of_bool x) f with
      | Some Eq => true
      | _ => false
      end
  | VInt z, VFloat f | VFloat f, VInt z =>
      match int_compare_float z f with
      | Some Eq => true
      | _ => false
      end
  | _, _ => false
  end.

(** [bool(v)] *)
Definition truthy (v : value) : bool :=
  match v with
  | VNone => false
  | VBool b => b
  | VInt z => negb (Z.eqb z 0)
  | VFloat f => negb (PrimFloat.eqb f 0)
  | VStr s => negb (String.eqb s "")
  | VList l => match l with [] => false | _ => true end
  | VDict d => match d with [] => false | _ => true end
  end.

(** [hash(v)] raises [TypeError] on lists and dicts. *)
Definition hashable (v : value) : bool :=
  match v with
  | VList _ | VDict _ => false
  | _ => true
  end.

(** [a is b or a == b], the test a set or a dict applies to a key and a list
    or a dict to an item, after the hashes agree.  Among decoded scalars only
    a NaN differs from itself, and [json.loads] decodes every [NaN] to one
    object, the constant of its module: two decoded NaNs are the same
    object. *)
Definition same_or_eq (a b : value) : bool :=
  match a, b with
  | VFloat x, VFloat y => (is_nan x && is_nan y) || PrimFloat.eqb x y
  | _, _ => py_eq a b
  end.

(** *** Containers *)

(** ['k' in v] *)
Definition py_in (k : string) (v : value) : M bool :=
  match v with
  | VDict d => ret (dict_mem k d)
  | VList l => ret (existsb (py_eq (VStr k)) l)
  | VStr s => ret (match String.index 0 k s with Some _ => true | None => false end)
  | _ => raise TypeError
  end.

(** [v['k']] *)
Definition py_getitem (v : value) (k : string) : M value :=
  match v with
  | VDict d => match dict_get k d with Some x => ret x | None => raise (KeyError k) end
  | _ => raise TypeError
  end.

(** [v.get('k', dflt)] *)
Definition py_get (v : value) (k : string) (dflt : value) : M value :=
  match v with
  | VDict d => match dict_get k d with Some x => ret x | None => ret dflt end
  | _ => raise AttributeError
  end.

(** [iter(v)]: the objects a [for] loop over [v] visits. *)
Definition py_iter (v : value) : M (list value) :=
  match v with
  | VList l => ret l
  | VDict d => ret (map (fun kv => VStr (fst kv)) d)
  | VStr s => ret (map (fun c => VStr (String c "")) (list_ascii_of_string s))
  | _ => raise TypeError
  end.

(** [v.items()] *)
Definition py_items (v : value) : M (list (string * value)) :=
  match v with
  | VDict d => ret d
  | _ => raise AttributeError
  end.

(** [x in s] for a set [s] given by its elements. *)
Definition set_mem (x : value) (s : list value) : M bool :=
  if hashable x then ret (existsb (same_or_eq x) s) else raise TypeError.

(** [{f(a) for a in ...}] from the computed elements. *)
Definition set_of (l : list value) : M (list value) :=
  if forallb hashable l then ret l else raise TypeError.

(** *** Floats *)

Local Open Scope float_scope.

(** [min(a, b)] and [max(a, b)]: the first argument stays unless the second
    is strictly smaller (larger), so a NaN second argument is dropped. *)
Definition py_min (a b : float) : float := if b <? a then b else a.
Definition py_max (a b : float) : float := if a <? b then b else a.

(** [abs(v)] *)
Definition py_abs (v : value) : M value :=
  match v with
  | VBool b => ret (VInt (int_of_bool b))
  | VInt z => ret (VInt (Z.abs z))
  | VFloat f => ret (VFloat (abs f))
  | _ => raise TypeError
  end.

(** [v > c] for a float literal [c]. *)
Definition py_gt_float (v : value) (c : float) : M bool :=
  match v with
  | VBool b =>
      ret (match int_compare_float (int_of_bool b) c with Some Gt => true | _ => false end)
  | VInt z =>
      ret (match int_compare_float z c with Some Gt => true | _ => false end)
  | VFloat f => ret (c <? f)
  | _ => raise TypeError
  end.

(** [v / c] for a non-zero float literal [c]. *)
Definition py_div_float (v : value) (c : float) : M float :=
  match v with
  | VBool b => f <- float_of_int (int_of_bool b) ;; ret (f / c)
  | VInt z => f <- float_of_int z ;; ret (f / c)
  | VFloat f => ret (f / c)
  | _ => raise TypeError
  end.

(** [x - v] for a float [x]. *)
Definition py_float_sub (x : float) (v : value) : M float :=
  match v with
  | VBool b => f <- float_of_int (int_of_bool b) ;; ret (x - f)
  | VInt z => f <- float_of_int z ;; ret (x - f)
  | VFloat f => ret (x - f)
  | _ => raise TypeError
  end.

(** [round(x, 6)] on a float: CPython rounds the exact binary value to six
    decimals, ties to even, and returns the float nearest to that decimal;
    infinities, NaNs and zeros round to themselves. *)
Definition round_half_even (num den : Z) : Z :=
  let q := (num / den)%Z in
  let r := (num mod den)%Z in
  match (2 * r ?= den)%Z with
  | Lt => q
  | Gt => (q + 1)%Z
  | Eq => if Z.even q then q else (q + 1)%Z
  end.

(** The float nearest to [n / d] (ties to even) for [0 <= n], [0 < d],
    signed by [s]: a quotient of at least 56 bits whose last bit is sticky. *)
Definition nearest_float (s : bool) (n d : Z) : float :=
  let k := Z.max 0 (Z.log2 d + 56 - Z.log2 n) in
  let q := (n * 2 ^ k / d)%Z in
  let sticky := (if (n * 2 ^ k) mod d =? 0 then 0 else 1)%Z in
  SF2Prim (binary_normalize prec emax (cond_Zopp s (2 * q + sticky)) (- (k + 1)) s).

Definition py_round6 (x : float) : float :=
  match Prim2SF x with
  | S754_finite s m e =>
      let n := round_half_even (Zpos m * 10 ^ 6 * 2 ^ Z.max e 0) (2 ^ Z.max (- e) 0) in
      nearest_float s n (10 ^ 6)
  | _ => x
  end.

(** [s.replace(' ', '_')] *)
Fixpoint replace_spaces (s : string) : string :=
  match s with
  | EmptyString => EmptyString
  | String c r =>
      String (if Ascii.eqb c " "%char then "_"%char else c) (replace_spaces r)
  end.

(** [[x for x in l if p(x)]] where the test may raise. *)
Fixpoint filterM {A} (p : A -> M bool) (l : list A) : M (list A) :=
  match l with
  | [] => ret []
  | a :: r => b <- p a ;; bs <- filterM p r ;; ret (if b then a :: bs else bs)
  end.

(** [v['k'] = x], giving the updated object. *)
Definition py_setitem (v : value) (k : string) (x : value) : M value :=
  match v with
  | VDict d => ret (VDict (dict_set k x d))
  | _ => raise TypeError
  end.

(** [for x in v: body(x)] where the body updates [x] in place: a list ends
    up holding the updated objects; any other iterable hands the body fresh
    objects (its keys or characters) and stays as it was. *)
Definition for_each (body : value -> M value) (v : value) : M value :=
  match v with
  | VList l => l' <- mapM body l ;; ret (VList l')
  | _ => xs <- py_iter v ;; _ <- mapM body xs ;; ret v
  end.

(** *** Text *)

(** [c.isspace()] for a character below U+0100: the ones [str.strip()]
    removes. *)
Definition py_isspace (c : ascii) : bool :=
  let n := N_of_ascii c in
  ((9 <=? n) && (n <=? 13) || (28 <=? n) && (n <=? 32) || (n =? 133) || (n =? 160))%N.

Fixpoint lstrip (s : string) : string :=
  match s with
  | EmptyString => EmptyString
  | String c r => if py_isspace c then lstrip r else s
  end.

Fixpoint rstrip (s : string) : string :=
  match s with
  | EmptyString => EmptyString
  | String c r =>
      let r' := rstrip r in
      if py_isspace c && String.eqb r' "" then EmptyString else String c r'
  end.

(** [s.strip()] *)
Definition py_strip (s : string) : string := rstrip (lstrip s).

(** *** Arithmetic with an [int] operand *)

(** [int(x)] for a float: truncation toward zero. *)
Definition py_int (x : float) : M Z :=
  match Prim2SF x with
  | S754_zero _ => ret 0%Z
  | S754_infinity _ => raise OverflowError
  | S754_nan => raise ValueError
  | S754_finite s m e =>
      ret (cond_Zopp s (if (0 <=? e)%Z then Zpos m * 2 ^ e else Zpos m / 2 ^ (- e))%Z)
  end.

Fixpoint repeat_string (s : string) (n : nat) : string :=
  match n with
  | O => EmptyString
  | S k => (s ++ repeat_string s k)%string
  end.

(** [v * n] for an [int] [n]: numbers multiply, strings and lists repeat. *)
Definition py_mul_int (v : value) (n : Z) : M value :=
  match v with
  | VBool b => ret (VInt (int_of_bool b * n))
  | VInt z => ret (VInt (z * n))
  | VFloat f => fn <- float_of_int n ;; ret (VFloat (f * fn))
  | VStr s => ret (VStr (repeat_string s (Z.to_nat n)))
  | VList l => ret (VList (List.concat (List.repeat l (Z.to_nat n))))
  | _ => raise TypeError
  end.

(** [v - n] and [v + n] for an [int] [n]. *)
Definition py_sub_int (v : value) (n : Z) : M value :=
  match v with
  | VBool b => ret (VInt (int_of_bool b - n))
  | VInt z => ret (VInt (z - n))
  | VFloat f => fn <- float_of_int n ;; ret (VFloat (f - fn))
  | _ => raise TypeError
  end.

Definition py_add_int (v : value) (n : Z) : M value :=
  match v with
  | VBool b => ret (VInt (int_of_bool b + n))
  | VInt z => ret (VInt (z + n))
  | VFloat f => fn <- float_of_int n ;; ret (VFloat (f + fn))
  | _ => raise TypeError
  end.

(** How a list or a dict compares an item of its own with an item of the
    other: scalars as [same_or_eq], lists item by item, dicts key by key
    whatever the order. *)
Fixpoint item_equal (a b : value) {struct a} : bool :=
  match a, b with
  | VList l1, VList l2 =>
      (fix items (l1 l2 : list value) {struct l1} : bool :=
         match l1, l2 with
         | [], [] => true
         | x :: r1, y :: r2 => item_equal x y && items r1 r2
         | _, _ => false
         end) l1 l2
  | VDict d1, VDict d2 =>
      Nat.eqb (List.length d1) (List.length d2) &&
      (fix entries (d : list (string * value)) {struct d} : bool :=
         match d with
         | [] => true
         | (k, x) :: r =>
             match dict_get k d2 with
             | Some y => item_equal x y
             | None => false
             end && entries r
         end) d1
  | VList _, _ | VDict _, _ | _, VList _ | _, VDict _ => false
  | _, _ => same_or_eq a b
  end.

(** [a == b] on decoded JSON documents: two floats by value, so that a NaN
    differs from itself; lists and dicts through their items. *)
Definition py_equal (a b : value) : bool :=
  match a, b with
  | VFloat x, VFloat y => PrimFloat.eqb x y
  | _, _ => item_equal a b
  end.

(** [for x in l: body(x)] for a body run for its effects. *)
Fixpoint forM_ {A} (body : A -> M unit) (l : list A) : M unit :=
  match l with
  | [] => ret tt
  | a :: r => _ <- body a ;; forM_ body r
  end.

(** A call made for its effect: it returns or raises. *)
Definition attempt (outcome : option exn) : M unit :=
  match outcome with
  | Some e => raise e
  | None => ret tt
  end.

(** ["\n".join(lines)] *)
Definition join_lines (lines : list string) : string :=
  String.concat (String (ascii_of_nat 10) EmptyString) lines.

End Py.

Import Py.
Local Open Scope py_scope.

(** ** What the scripts take from their surroundings *)

(** Library behaviour the embedding leaves open: every theorem holds for any
    choice of these. *)
Class Runtime : Type := {
  (** [s.lower()] *)
  str_lower : string -> string;
  (** [float(s)] for a [str]; [None] is [ValueError] *)
  float_of_str : string -> option float;
  (** [str(e)] for a caught exception *)
  str_of_exn : exn -> string;
  (** the C library's [pow(x, 2.0)] on a finite positive [x] *)
  libm_pow2 : float -> float
}.

(** [json.loads(text)] *)
Inductive loads : Type :=
| JSONDecodeError (msg : string)
| Loaded (v : value).

(** One invocation, as far as the sanitizer can tell: the credential
    [get_api_key()] finds, whether the image file exists, and what the
    collaborators between the argument checks and [json.loads(result_text)]
    produce: an exception (imports, image decoding, overlay drawing, the
    model call) or the response text given to [json.loads]. *)
Record world : Type := {
  api_key : option string;
  image_exists : bool;
  response : exn + loads
}.

(** The file system and the environment, as [get_api_key] uses them. *)
Record host : Type := {
  (** [os.path.exists(p)] *)
  os_path_exists : string -> bool;
  (** [with open(p, 'r') as f: f.read()]: the text, or the exception *)
  open_read : string -> exn + string;
  (** [os.environ.get(k)] *)
  environ_get : string -> option string;
  (** [Path(__file__).resolve().parent.parent / 'vault' / 'gemini_key.txt'] *)
  script_vault : exn + string;
  (** [p.exists()] for a [Path] *)
  path_exists : string -> exn + bool;
  (** [p.read_text()] *)
  path_read_text : string -> exn + string
}.

(** [os.environ.get('GOOGLE_API_KEY') or os.environ.get('GEMINI_API_KEY')],
    the last line of the three [get_api_key]. *)
Definition environ_key (h : host) : option string :=
  match environ_get h "GOOGLE_API_KEY" with
  | Some s => if String.eqb s "" then environ_get h "GEMINI_API_KEY" else Some s
  | None => environ_get h "GEMINI_API_KEY"
  end.

(** The loop over [vault_paths] of spine_analyze.py and spine_update_anims.py
    (lines 17-23): the value the loop returns, if it returns. *)
Fixpoint read_vaults (h : host) (paths : list string) : option string :=
  match paths with
  | [] => None
  | vault_path :: rest =>
      if os_path_exists h vault_path then
        match open_read h vault_path with
        | inr text => Some (py_strip text)
        | inl _ => read_vaults h rest
        end
      else read_vaults h rest
  end.

Definition error_result (message : string) : value :=
  VDict [("status", VStr "error"); ("message", VStr message)].

(** The two [except] clauses closing each operation's [try] block. *)
Definition parse_error (msg : string) : value :=
  error_result ("Failed to parse AI response as JSON: " ++ msg).

Definition has_key (k : option string) : bool :=
  match k with
  | Some s => negb (String.eqb s "")
  | None => false
  end.

(** [result.get("status") == "error"] and the exit status of [main], shared
    by the three scripts: [sys.exit(1)] or the interpreter's normal exit. *)
Definition status_is_error (result : value) : bool :=
  match py_get result "status" VNone with
  | inr s => py_eq s (VStr "error")
  | inl _ => false
  end.

Definition exit_code (result : value) : Z :=
  if status_is_error result then 1 else 0.

Section Sanitizer.

Context {RT : Runtime}.

Local Open Scope float_scope.

(** [float(v)] *)
Definition py_float (v : value) : M float :=
  match v with
  | VBool b => float_of_int (int_of_bool b)
  | VInt z => float_of_int z
  | VFloat f => ret f
  | VStr s => match float_of_str s with Some f => ret f | None => raise ValueError end
  | _ => raise TypeError
  end.

(** [x ** 2] on a float, after CPython's [float_pow]: NaN, infinities, zero
    and one are answered before the C library is called; the library gets
    the absolute value, and an infinite result is [OverflowError]. *)
Definition py_pow2 (x : float) : M float :=
  if is_nan x then ret x
  else if is_infinity x then ret infinity
  else if x =? 0 then ret 0
  else
    let a := abs x in
    if a =? 1 then ret 1
    else
      let r := libm_pow2 a in
      if is_infinity r then raise OverflowError else ret r.

(** [math.sqrt(x)]: [ValueError] when the result is a NaN the argument was
    not. *)
Definition math_sqrt (x : float) : M float :=
  let r := sqrt x in
  if is_nan r && negb (is_nan x) then raise ValueError else ret r.

(** [max(0.0, min(1.0, f))] *)
Definition clamp_unit (f : float) : float := py_max 0.0 (py_min 1.0 f).

(** [max(-0.1, min(0.1, f))] *)
Definition clamp_translate (f : float) : float := py_max (-0.1) (py_min 0.1 f).

(** ['k' not in data or not data['k']] *)
Definition absent_or_empty (data : value) (k : string) : M bool :=
  present <- py_in k data ;;
  if present then v <- py_getitem data k ;; ret (negb (truthy v))
  else ret true.

(** The pixel test of both animation loops (spine_analyze.py 169-176,
    spine_update_anims.py 199-204): the pair [(tx, ty)] after the [if]. *)
Definition pixel_heuristic (tx ty : value) : M (value * value) :=
  ax <- py_abs tx ;;
  bx <- py_gt_float ax 1.0 ;;
  pixels <- (if bx then ret true else ay <- py_abs ty ;; py_gt_float ay 1.0) ;;
  if pixels then
    tx' <- py_div_float tx 500.0 ;;
    ty' <- py_div_float ty 500.0 ;;
    ret (VFloat tx', VFloat ty')
  else ret (tx, ty).

(** The body both scripts run on one transform (spine_analyze.py 166-178,
    spine_update_anims.py 196-206), giving the updated transform. *)
Definition sanitize_transform (transform : value) : M value :=
  tx <- py_get transform "translateX" (VInt 0) ;;
  ty <- py_get transform "translateY" (VInt 0) ;;
  ' (tx, ty) <- pixel_heuristic tx ty ;;
  fx <- py_float tx ;;
  t1 <- py_setitem transform "translateX" (VFloat (clamp_translate fx)) ;;
  fy <- py_float ty ;;
  py_setitem t1 "translateY" (VFloat (clamp_translate fy)).

End Sanitizer.

(** ** The collaborators of a whole run *)

(** What [ImageFont.truetype(fp, size)] does inside the [try] of the font
    loop: a font, the [IOError]/[OSError] the loop skips, or another
    exception. *)
Inductive font_outcome : Type :=
| FontLoaded
| FontMissing
| FontError (e : exn).

(** The collaborators of one invocation: the imports, the imaging library,
    the model client and the formatting of the prompt.  A call that is made
    for its effect answers with the exception it raises, if any. *)
Record studio : Type := {
  (** the [from ... import ...] lines opening the [try] block *)
  imports : option exn;
  (** [Image.open(p)] of Detect *)
  image_open_plain : string -> option exn;
  (** [Image.open(p).convert('RGBA')], [img.size], [img.copy()] and
      [ImageDraw.Draw(annotated)]: the size [(w, h)] *)
  image_open : string -> M (Z * Z);
  truetype : string -> Z -> font_outcome;
  (** [ImageFont.load_default()] *)
  load_default : option exn;
  (** [draw.ellipse(bbox, fill=color, ...)] *)
  draw_ellipse : list value -> Z * Z * Z -> option exn;
  (** [draw.text((x, y), label, ...)] *)
  draw_text : value * value -> value -> option exn;
  (** [draw.line([(fx, fy), (tx, ty)], ...)] *)
  draw_line : (value * value) * (value * value) -> option exn;
  (** [genai.Client(api_key=api_key)] *)
  make_client : string -> option exn;
  (** [types.GenerateContentConfig(...)], [client.models.generate_content(...)]
      and [response.text], for the prompt of each tool; the prompts of Refine
      and Regenerate are fixed texts around the anchor and bone lists *)
  generate_analysis : M (option string);
  generate_refinement : string -> M (option string);
  generate_animations : string -> string -> M (option string);
  (** [json.loads(text)] *)
  json_loads : string -> loads;
  (** [format(v, '')], that is [str(v)] *)
  str_of_value : value -> string;
  (** [format(f, '.4f')] for a float *)
  fixed4 : float -> string
}.

Section Overlay.

Context {RT : Runtime}.

Local Open Scope float_scope.

(** [response.text.strip()] *)
Definition response_text (answer : M (option string)) : M string :=
  text <- answer ;;
  match text with
  | Some t => ret (py_strip t)
  | None => raise AttributeError
  end.

(** [max(lo, int(min(w, h) * factor))]: the circle radius and the font size
    of both overlays. *)
Definition marker_size (lo : Z) (factor : float) (w h : Z) : M Z :=
  side <- float_of_int (Z.min w h) ;;
  n <- py_int (side * factor) ;;
  ret (Z.max lo n).

Definition font_paths : list string :=
  ["/usr/share/fonts/truetype/dejavu/DejaVuSans-Bold.ttf";
   "/usr/share/fonts/TTF/DejaVuSans-Bold.ttf";
   "/usr/share/fonts/dejavu/DejaVuSans-Bold.ttf"].

(** The font loop and its fallback. *)
Fixpoint load_font (s : studio) (paths : list string) (font_size : Z) : M unit :=
  match paths with
  | [] => attempt (load_default s)
  | fp :: rest =>
      match truetype s fp font_size with
      | FontLoaded => ret tt
      | FontMissing => load_font s rest font_size
      | FontError e => raise e
      end
  end.

(** [colors.get(anchor_type, colors['joint'])] *)
Definition marker_color (anchor_type : value) : M (Z * Z * Z) :=
  if hashable anchor_type then
    ret (if py_eq anchor_type (VStr "root") then (34, 197, 94)
         else if py_eq anchor_type (VStr "tip") then (251, 146, 60)
         else (99, 102, 241))%Z
  else raise TypeError.

(** One round of the marker loop (spine_refine.py 74-92,
    spine_update_anims.py 78-94). *)
Definition draw_anchor (s : studio) (w h circle_radius font_size : Z)
  (anchor : value) : M unit :=
  x <- py_getitem anchor "x" ;;
  ax <- py_mul_int x w ;;
  y <- py_getitem anchor "y" ;;
  ay <- py_mul_int y h ;;
  anchor_type <- py_get anchor "type" (VStr "joint") ;;
  color <- marker_color anchor_type ;;
  x0 <- py_sub_int ax circle_radius ;;
  y0 <- py_sub_int ay circle_radius ;;
  x1 <- py_add_int ax circle_radius ;;
  y1 <- py_add_int ay circle_radius ;;
  _ <- attempt (draw_ellipse s [x0; y0; x1; y1] color) ;;
  fallback <- py_get anchor "id" (VStr "?") ;;
  label <- py_get anchor "label" fallback ;;
  t1 <- py_sub_int ay circle_radius ;;
  t2 <- py_sub_int t1 font_size ;;
  ty <- py_sub_int t2 2 ;;
  attempt (draw_text s (ax, ty) label).

(** [f"{v:.4f}"] *)
Definition format_fixed4 (s : studio) (v : value) : M string :=
  match v with
  | VBool b => f <- float_of_int (int_of_bool b) ;; ret (fixed4 s f)
  | VInt z => f <- float_of_int z ;; ret (fixed4 s f)
  | VFloat f => ret (fixed4 s f)
  | VStr _ => raise ValueError
  | _ => raise TypeError
  end.

(** [a.get('label', a['id'])]: the method is looked up before its
    arguments are evaluated. *)
Definition label_or_id (a : value) : M value :=
  match a with
  | VDict _ => id <- py_getitem a "id" ;; py_get a "label" id
  | _ => raise AttributeError
  end.

Definition quote : string := String (ascii_of_nat 34) EmptyString.

(** Lines 41-72 of spine_refine.py and 47-76 of spine_update_anims.py: the
    image, the marker sizes and the font. *)
Definition prepare_overlay (s : studio) (image_path : string) : M (Z * Z * Z * Z) :=
  ' (w, h) <- image_open s image_path ;;
  circle_radius <- marker_size 6 0.015 w h ;;
  font_size <- marker_size 10 0.02 w h ;;
  _ <- load_font s font_paths font_size ;;
  ret (w, h, circle_radius, font_size).

End Overlay.

(** ** bin/spine_analyze.py: Detect *)

Module spine_analyze.
Section Detect.

Context {RT : Runtime}.

Local Open Scope float_scope.

(** Lines 13-16. *)
Definition vault_paths : list string :=
  ["/var/www/evo/vault/gemini_key.txt";
   "/root/.openclaw/workspace/vault/gemini_key.txt"].

(** Lines 11-24: [get_api_key()] *)
Definition get_api_key (h : host) : option string :=
  match read_vaults h vault_paths with
  | Some key => Some key
  | None => environ_key h
  end.

(** Lines 143-149: one round of the anchor loop. *)
Definition sanitize_anchor (anchor : value) : M value :=
  x <- py_get anchor "x" (VFloat 0.5) ;;
  fx <- py_float x ;;
  a1 <- py_setitem anchor "x" (VFloat (clamp_unit fx)) ;;
  y <- py_get a1 "y" (VFloat 0.5) ;;
  fy <- py_float y ;;
  a2 <- py_setitem a1 "y" (VFloat (clamp_unit fy)) ;;
  has_type <- py_in "type" a2 ;;
  a3 <- (if has_type then ret a2 else py_setitem a2 "type" (VStr "joint")) ;;
  has_id <- py_in "id" a3 ;;
  if has_id then ret a3
  else
    label <- py_get a3 "label" (VStr "anchor") ;;
    match label with
    | VStr s => py_setitem a3 "id" (VStr (replace_spaces (str_lower s)))
    | _ => raise AttributeError
    end.

(** Line 152: [{a['id'] for a in data['anchors']}] *)
Definition anchor_id_set (anchors : list value) : M (list value) :=
  ids <- mapM (fun a => py_getitem a "id") anchors ;;
  set_of ids.

(** Line 155: the test a bone must pass. *)
Definition bone_is_valid (anchor_ids : list value) (bone : value) : M bool :=
  from <- py_get bone "from" VNone ;;
  from_ok <- set_mem from anchor_ids ;;
  if from_ok then
    to <- py_get bone "to" VNone ;;
    set_mem to anchor_ids
  else ret false.

(** Lines 165-178: one keyframe; every transform of its mapping is updated
    in place, whatever anchor id it is keyed by. *)
Definition sanitize_keyframe (kf : value) : M value :=
  mapping <- py_get kf "anchors" (VDict []) ;;
  items <- py_items mapping ;;
  items' <- mapM (fun it => t <- sanitize_transform (snd it) ;; ret (fst it, t)) items ;;
  match kf with
  | VDict d =>
      if dict_mem "anchors" d then ret (VDict (dict_set "anchors" (VDict items') d))
      else ret kf
  | _ => ret kf
  end.

(** Lines 164-178: one animation. *)
Definition sanitize_animation (anim : value) : M value :=
  keyframes <- py_get anim "keyframes" (VList []) ;;
  keyframes' <- for_each sanitize_keyframe keyframes ;;
  match anim with
  | VDict d =>
      if dict_mem "keyframes" d then ret (VDict (dict_set "keyframes" keyframes' d))
      else ret anim
  | _ => ret anim
  end.

(** Lines 142-149: the anchor loop, giving [data] with its anchors updated. *)
Definition validate_anchors (data : value) : M value :=
  anchors <- py_getitem data "anchors" ;;
  anchors' <- for_each sanitize_anchor anchors ;;
  py_setitem data "anchors" anchors'.

(** Lines 151-156: the bones that refer to sanitized anchors. *)
Definition validate_bones (data : value) : M (list value) :=
  anchors <- py_getitem data "anchors" ;;
  sanitized <- py_iter anchors ;;
  anchor_ids <- anchor_id_set sanitized ;;
  bones <- py_getitem data "bones" ;;
  bone_list <- py_iter bones ;;
  filterM (bone_is_valid anchor_ids) bone_list.

(** Lines 134-187: from the decoded response to the returned dict. *)
Definition validate (data : value) : M value :=
  no_anchors <- absent_or_empty data "anchors" ;;
  if no_anchors then ret (error_result "AI did not detect any anchor points") else
  no_bones <- absent_or_empty data "bones" ;;
  if no_bones then ret (error_result "AI did not detect any bones") else
  no_anims <- absent_or_empty data "animations" ;;
  if no_anims then ret (error_result "AI did not generate any animations") else
  data1 <- validate_anchors data ;;
  valid_bones <- validate_bones data1 ;;
  data2 <- py_setitem data1 "bones" (VList valid_bones) ;;
  if negb (truthy (VList valid_bones)) then
    ret (error_result "No valid bones after validation")
  else
  (* Validate and clamp animation translateX/Y to normalized range *)
  animations <- py_get data2 "animations" (VList []) ;;
  animations' <- for_each sanitize_animation animations ;;
  data3 <- py_setitem data2 "animations" animations' ;;
  image_type <- py_get data3 "image_type" (VStr "unknown") ;;
  description <- py_get data3 "description" (VStr "") ;;
  anchors_out <- py_getitem data3 "anchors" ;;
  bones_out <- py_getitem data3 "bones" ;;
  animations_out <- py_getitem data3 "animations" ;;
  ret (VDict [("status", VStr "success");
              ("image_type", image_type);
              ("description", description);
              ("anchors", anchors_out);
              ("bones", bones_out);
              ("animations", animations_out)]).

(** [analyze_image(image_path, model)]; the model name only reaches the
    collaborators, whose outcome is [response w]. *)
Definition analyze_image (w : world) (image_path : string) : value :=
  if negb (has_key (api_key w)) then error_result "No Gemini API key found"
  else if negb (image_exists w) then error_result ("Image not found: " ++ image_path)
  else
    match response w with
    | inl e => error_result (str_of_exn e)
    | inr (JSONDecodeError msg) => parse_error msg
    | inr (Loaded data) =>
        match validate data with
        | inr result => result
        | inl e => error_result (str_of_exn e)
        end
    end.

(** Lines 41-132: from the key to the decoded response. *)
Definition consult (s : studio) (api_key image_path : string) : M loads :=
  _ <- attempt (make_client s api_key) ;;
  _ <- attempt (image_open_plain s image_path) ;;
  result_text <- response_text (generate_analysis s) ;;
  ret (json_loads s result_text).

(** Lines 29-192: the whole [try] block of [analyze_image], with its two
    handlers in [analyze_image_full]. *)
Definition analyze_image_run (h : host) (s : studio) (image_path : string)
  : M value :=
  _ <- attempt (imports s) ;;
  match get_api_key h with
  | None => ret (error_result "No Gemini API key found")
  | Some api_key =>
      if String.eqb api_key "" then ret (error_result "No Gemini API key found")
      else if negb (os_path_exists h image_path) then
        ret (error_result ("Image not found: " ++ image_path))
      else
        answer <- consult s api_key image_path ;;
        match answer with
        | JSONDecodeError msg => ret (parse_error msg)
        | Loaded data => validate data
        end
  end.

Definition analyze_image_full (h : host) (s : studio) (image_path : string)
  : value :=
  match analyze_image_run h s image_path with
  | inr result => result
  | inl e => error_result (str_of_exn e)
  end.

(** [main()]: the document printed on standard output and the exit status. *)
Definition main (w : world) (image : string) : value * Z :=
  let result := analyze_image w image in
  (result, exit_code result).

End Detect.
End spine_analyze.

(** ** bin/spine_refine.py: Refine *)

Module spine_refine.
Section Refine.

Context {RT : Runtime}.

Local Open Scope float_scope.

(** Lines 12-20: [get_api_key()].  The path of line 14 is computed outside
    the [try], so its exception leaves the function. *)
Definition get_api_key (h : host) : M (option string) :=
  vault_path <- script_vault h ;;
  match (present <- path_exists h vault_path ;;
         if present then text <- path_read_text h vault_path ;; ret (Some (py_strip text))
         else ret None) with
  | inr (Some key) => ret (Some key)
  | _ => ret (environ_key h)
  end.

(** Line 150: [{a['id']: a for a in corrected_anchors}], newest item first,
    so that a lookup meets the item that overwrote the others: a key
    overwrites the keys it is [same_or_eq] to. *)
Definition build_corrected_map (corrected_anchors : list value)
  : M (list (value * value)) :=
  foldM (fun m a =>
           k <- py_getitem a "id" ;;
           if hashable k then ret ((k, a) :: m) else raise TypeError)
        [] corrected_anchors.

Fixpoint map_lookup (k : value) (m : list (value * value)) : option value :=
  match m with
  | [] => None
  | (k', a) :: r => if same_or_eq k k' then Some a else map_lookup k r
  end.

(** Line 158: [corrected_map.get(aid)] *)
Definition corrected_map_get (m : list (value * value)) (aid : value)
  : M (option value) :=
  if hashable aid then ret (map_lookup aid m) else raise TypeError.

(** Lines 160-161: one corrected coordinate. *)
Definition new_coordinate (corrected orig : value) (axis : string) : M float :=
  o <- py_getitem orig axis ;;
  c <- py_get corrected axis o ;;
  f <- py_float c ;;
  ret (clamp_unit f).

(** Line 162: [math.sqrt((new_x - orig['x']) ** 2 + (new_y - orig['y']) ** 2)] *)
Definition displacement (new_x new_y : float) (orig : value) : M float :=
  ox <- py_getitem orig "x" ;;
  dx <- py_float_sub new_x ox ;;
  dx2 <- py_pow2 dx ;;
  oy <- py_getitem orig "y" ;;
  dy <- py_float_sub new_y oy ;;
  dy2 <- py_pow2 dy ;;
  math_sqrt (dx2 + dy2).

(** The three variables the loop of lines 156-179 updates. *)
Record merge_state : Type := {
  total_movement : float;
  corrected_count : Z;
  result_anchors : list value
}.

Definition merge_init : merge_state :=
  {| total_movement := 0.0; corrected_count := 0; result_anchors := [] |}.

(** What one round of the loop computes before it touches the variables:
    the anchor it appends, the distance it adds to [total_movement] (none
    in the [else] branch) and whether it increments [corrected_count]. *)
Record round : Type := {
  appended : value;
  moved : option float;
  counted : bool
}.

(** Lines 160-171: the branch taken when the model returned the anchor. *)
Definition merge_corrected (aid orig corrected : value) : M round :=
  new_x <- new_coordinate corrected orig "x" ;;
  new_y <- new_coordinate corrected orig "y" ;;
  dist <- displacement new_x new_y orig ;;
  flag <- py_get corrected "corrected" (VBool false) ;;
  flag_out <- py_get corrected "corrected" (VBool (0.005 <? dist)) ;;
  ret {| appended :=
           VDict [("id", aid); ("x", VFloat new_x); ("y", VFloat new_y);
                  ("corrected", flag_out)];
         moved := Some dist;
         counted := truthy flag || (0.005 <? dist) |}.

(** Lines 173-179: the anchor was not returned by the model. *)
Definition merge_kept (aid orig : value) : M round :=
  ox <- py_getitem orig "x" ;;
  oy <- py_getitem orig "y" ;;
  ret {| appended :=
           VDict [("id", aid); ("x", ox); ("y", oy); ("corrected", VBool false)];
         moved := None;
         counted := false |}.

(** Lines 157-179: one round on one original anchor. *)
Definition round_of (corrected_map : list (value * value)) (orig : value)
  : M round :=
  aid <- py_getitem orig "id" ;;
  corrected <- corrected_map_get corrected_map aid ;;
  match corrected with
  | Some c => if truthy c then merge_corrected aid orig c else merge_kept aid orig
  | None => merge_kept aid orig
  end.

(** [total_movement += dist], [corrected_count += 1] and
    [result_anchors.append(...)]. *)
Definition record_round (st : merge_state) (r : round) : merge_state :=
  {| total_movement :=
       match moved r with
       | Some dist => total_movement st + dist
       | None => total_movement st
       end;
     corrected_count :=
       if counted r then (corrected_count st + 1)%Z else corrected_count st;
     result_anchors := result_anchors st ++ [appended r] |}.

(** Lines 156-179: the loop body as a step on the three variables. *)
Definition merge_step (corrected_map : list (value * value))
  (st : merge_state) (orig : value) : M merge_state :=
  r <- round_of corrected_map orig ;;
  ret (record_round st r).

(** Lines 145-186: from the decoded response to the returned dict. *)
Definition merge (anchors data : value) : M value :=
  no_anchors <- absent_or_empty data "anchors" ;;
  if no_anchors then ret (error_result "AI did not return anchor corrections") else
  corrected_anchors <- py_getitem data "anchors" ;;
  corrected_list <- py_iter corrected_anchors ;;
  corrected_map <- build_corrected_map corrected_list ;;
  originals <- py_iter anchors ;;
  st <- foldM (merge_step corrected_map) merge_init originals ;;
  ret (VDict [("status", VStr "success");
              ("anchors", VList (result_anchors st));
              ("corrected_count", VInt (corrected_count st));
              ("total_movement", VFloat (py_round6 (total_movement st)))]).

(** [refine_anchors(image_path, anchors_json, model)] *)
Definition refine_anchors (w : world) (image_path : string) (anchors_json : loads)
  : value :=
  if negb (has_key (api_key w)) then error_result "No Gemini API key found"
  else if negb (image_exists w) then error_result ("Image not found: " ++ image_path)
  else
    match anchors_json with
    | JSONDecodeError msg => parse_error msg
    | Loaded anchors =>
        if negb (truthy anchors) then error_result "No anchors provided"
        else
          match response w with
          | inl e => error_result (str_of_exn e)
          | inr (JSONDecodeError msg) => parse_error msg
          | inr (Loaded data) =>
              match merge anchors data with
              | inr result => result
              | inl e => error_result (str_of_exn e)
              end
          end
    end.

(** Lines 97-100: one line of [anchor_list_str]. *)
Definition anchor_line (s : studio) (a : value) : M string :=
  label <- label_or_id a ;;
  id <- py_getitem a "id" ;;
  x <- py_getitem a "x" ;;
  fx <- format_fixed4 s x ;;
  y <- py_getitem a "y" ;;
  fy <- format_fixed4 s y ;;
  ret ("  - " ++ quote ++ str_of_value s label ++ quote
       ++ " (id=" ++ str_of_value s id ++ "): currently at x=" ++ fx
       ++ ", y=" ++ fy).

(** Lines 41-143: from the decoded anchors to the decoded response. *)
Definition consult (s : studio) (api_key image_path : string) (anchors : value)
  : M loads :=
  ' (w, h, circle_radius, font_size) <- prepare_overlay s image_path ;;
  markers <- py_iter anchors ;;
  _ <- forM_ (draw_anchor s w h circle_radius font_size) markers ;;
  _ <- attempt (make_client s api_key) ;;
  listed <- py_iter anchors ;;
  lines <- mapM (anchor_line s) listed ;;
  result_text <- response_text (generate_refinement s (join_lines lines)) ;;
  ret (json_loads s result_text).

(** Lines 25-191: the whole [try] block of [refine_anchors], with its two
    handlers in [refine_anchors_full]. *)
Definition refine_anchors_run (h : host) (s : studio) (image_path : string)
  (anchors_json : string) : M value :=
  _ <- attempt (imports s) ;;
  found <- get_api_key h ;;
  match found with
  | None => ret (error_result "No Gemini API key found")
  | Some api_key =>
      if String.eqb api_key "" then ret (error_result "No Gemini API key found")
      else if negb (os_path_exists h image_path) then
        ret (error_result ("Image not found: " ++ image_path))
      else
        match json_loads s anchors_json with
        | JSONDecodeError msg => ret (parse_error msg)
        | Loaded anchors =>
            if negb (truthy anchors) then ret (error_result "No anchors provided")
            else
              answer <- consult s api_key image_path anchors ;;
              match answer with
              | JSONDecodeError msg => ret (parse_error msg)
              | Loaded data => merge anchors data
              end
        end
  end.

Definition refine_anchors_full (h : host) (s : studio) (image_path : string)
  (anchors_json : string) : value :=
  match refine_anchors_run h s image_path anchors_json with
  | inr result => result
  | inl e => error_result (str_of_exn e)
  end.

(** [main()]: the document printed on standard output and the exit status. *)
Definition main (w : world) (image : string) (anchors : loads) : value * Z :=
  let result := refine_anchors w image anchors in
  (result, exit_code result).

End Refine.
End spine_refine.

(** ** bin/spine_update_anims.py: Regenerate animations *)

Module spine_update_anims.
Section Regenerate.

Context {RT : Runtime}.

(** Lines 13-16. *)
Definition vault_paths : list string :=
  ["/var/www/evo/vault/gemini_key.txt";
   "/root/.openclaw/workspace/vault/gemini_key.txt"].

(** Lines 11-24: [get_api_key()] *)
Definition get_api_key (h : host) : option string :=
  match read_vaults h vault_paths with
  | Some key => Some key
  | None => environ_key h
  end.

(** Lines 193-207: one item of a keyframe's mapping, given the mapping
    [valid_anchors] built so far. *)
Definition keep_valid (anchor_ids : list value)
  (valid_anchors : list (string * value)) (item : string * value)
  : M (list (string * value)) :=
  known <- set_mem (VStr (fst item)) anchor_ids ;;
  if negb known then ret valid_anchors
  else
    transform <- sanitize_transform (snd item) ;;
    ret (dict_set (fst item) transform valid_anchors).

(** Lines 190-208: one keyframe, whose mapping is replaced. *)
Definition sanitize_keyframe (anchor_ids : list value) (kf : value) : M value :=
  mapping <- py_get kf "anchors" (VDict []) ;;
  items <- py_items mapping ;;
  valid_anchors <- foldM (keep_valid anchor_ids) [] items ;;
  py_setitem kf "anchors" (VDict valid_anchors).

(** Lines 189-208: one animation. *)
Definition sanitize_animation (anchor_ids : list value) (anim : value) : M value :=
  keyframes <- py_get anim "keyframes" (VList []) ;;
  keyframes' <- for_each (sanitize_keyframe anchor_ids) keyframes ;;
  match anim with
  | VDict d =>
      if dict_mem "keyframes" d then ret (VDict (dict_set "keyframes" keyframes' d))
      else ret anim
  | _ => ret anim
  end.

(** Lines 184-213: from the decoded response to the returned dict. *)
Definition validate (anchors data : value) : M value :=
  no_anims <- absent_or_empty data "animations" ;;
  if no_anims then ret (error_result "AI did not generate any animations") else
  originals <- py_iter anchors ;;
  ids <- mapM (fun a => py_getitem a "id") originals ;;
  anchor_ids <- set_of ids ;;
  animations <- py_getitem data "animations" ;;
  animations' <- for_each (sanitize_animation anchor_ids) animations ;;
  ret (VDict [("status", VStr "success"); ("animations", animations')]).

(** [update_animations(image_path, anchors_json, bones_json, model)] *)
Definition update_animations (w : world) (image_path : string)
  (anchors_json bones_json : loads) : value :=
  if negb (has_key (api_key w)) then error_result "No Gemini API key found"
  else if negb (image_exists w) then error_result ("Image not found: " ++ image_path)
  else
    match anchors_json with
    | JSONDecodeError msg => parse_error msg
    | Loaded anchors =>
        match bones_json with
        | JSONDecodeError msg => parse_error msg
        | Loaded bones =>
            if negb (truthy anchors) then error_result "No anchors provided"
            else
              match response w with
              | inl e => error_result (str_of_exn e)
              | inr (JSONDecodeError msg) => parse_error msg
              | inr (Loaded data) =>
                  match validate anchors data with
                  | inr result => result
                  | inl e => error_result (str_of_exn e)
                  end
              end
        end
    end.

(** Lines 98-99: [next((a for a in anchors if a['id'] == bone.get(key)), None)] *)
Fixpoint find_anchor (bone : value) (key : string) (anchors : list value)
  : M (option value) :=
  match anchors with
  | [] => ret None
  | a :: rest =>
      id <- py_getitem a "id" ;;
      ref <- py_get bone key VNone ;;
      if py_equal id ref then ret (Some a) else find_anchor bone key rest
  end.

(** Lines 97-103: one round of the bone loop. *)
Definition draw_bone (s : studio) (w h : Z) (anchors : list value) (bone : value)
  : M unit :=
  from_anchor <- find_anchor bone "from" anchors ;;
  to_anchor <- find_anchor bone "to" anchors ;;
  match from_anchor, to_anchor with
  | Some a, Some b =>
      if truthy a && truthy b then
        ax <- py_getitem a "x" ;; fx <- py_mul_int ax w ;;
        ay <- py_getitem a "y" ;; fy <- py_mul_int ay h ;;
        bx <- py_getitem b "x" ;; tx <- py_mul_int bx w ;;
        by_ <- py_getitem b "y" ;; ty <- py_mul_int by_ h ;;
        attempt (draw_line s ((fx, fy), (tx, ty)))
      else ret tt
  | _, _ => ret tt
  end.

(** Lines 107-110: one line of [anchor_list_str]. *)
Definition anchor_line (s : studio) (a : value) : M string :=
  label <- label_or_id a ;;
  id <- py_getitem a "id" ;;
  anchor_type <- py_get a "type" (VStr "joint") ;;
  x <- py_getitem a "x" ;;
  fx <- format_fixed4 s x ;;
  y <- py_getitem a "y" ;;
  fy <- format_fixed4 s y ;;
  ret ("  - " ++ quote ++ str_of_value s label ++ quote
       ++ " (id=" ++ str_of_value s id ++ ", type=" ++ str_of_value s anchor_type
       ++ "): x=" ++ fx ++ ", y=" ++ fy).

(** Lines 112-115: one line of [bone_list_str]. *)
Definition bone_line (s : studio) (b : value) : M string :=
  id <- py_getitem b "id" ;;
  from <- py_getitem b "from" ;;
  to <- py_getitem b "to" ;;
  ret ("  - " ++ quote ++ str_of_value s id ++ quote
       ++ ": from=" ++ str_of_value s from ++ " to=" ++ str_of_value s to).

(** Lines 47-182: from the decoded anchors and bones to the decoded
    response. *)
Definition consult (s : studio) (api_key image_path : string)
  (anchors bones : value) : M loads :=
  ' (w, h, circle_radius, font_size) <- prepare_overlay s image_path ;;
  markers <- py_iter anchors ;;
  _ <- forM_ (draw_anchor s w h circle_radius font_size) markers ;;
  bone_list <- py_iter bones ;;
  _ <- forM_ (fun bone => searched <- py_iter anchors ;;
                          draw_bone s w h searched bone) bone_list ;;
  _ <- attempt (make_client s api_key) ;;
  listed <- py_iter anchors ;;
  lines <- mapM (anchor_line s) listed ;;
  listed_bones <- py_iter bones ;;
  bone_lines <- mapM (bone_line s) listed_bones ;;
  result_text <- response_text
                   (generate_animations s (join_lines lines) (join_lines bone_lines)) ;;
  ret (json_loads s result_text).

(** Lines 29-218: the whole [try] block of [update_animations], with its
    two handlers in [update_animations_full]. *)
Definition update_animations_run (h : host) (s : studio) (image_path : string)
  (anchors_json bones_json : string) : M value :=
  _ <- attempt (imports s) ;;
  match get_api_key h with
  | None => ret (error_result "No Gemini API key found")
  | Some api_key =>
      if String.eqb api_key "" then ret (error_result "No Gemini API key found")
      else if negb (os_path_exists h image_path) then
        ret (error_result ("Image not found: " ++ image_path))
      else
        match json_loads s anchors_json with
        | JSONDecodeError msg => ret (parse_error msg)
        | Loaded anchors =>
            match json_loads s bones_json with
            | JSONDecodeError msg => ret (parse_error msg)
            | Loaded bones =>
                if negb (truthy anchors) then ret (error_result "No anchors provided")
                else
                  answer <- consult s api_key image_path anchors bones ;;
                  match answer with
                  | JSONDecodeError msg => ret (parse_error msg)
                  | Loaded data => validate anchors data
                  end
            end
        end
  end.

Definition update_animations_full (h : host) (s : studio) (image_path : string)
  (anchors_json bones_json : string) : value :=
  match update_animations_run h s image_path anchors_json bones_json with
  | inr result => result
  | inl e => error_result (str_of_exn e)
  end.

(** [main()]: the document printed on standard output and the exit status. *)
Definition main (w : world) (image : string) (anchors bones : loads) : value * Z :=
  let result := update_animations w image anchors bones in
  (result, exit_code result).

End Regenerate.
End spine_update_anims.

(** ** A runtime for the worked examples

    ASCII lower-casing, a [float()] that accepts no string, a bare exception
    name as its text, and squaring as a correctly rounded product. *)

Definition ascii_lower (c : ascii) : ascii :=
  let n := nat_of_ascii c in
  if (andb (Nat.leb 65 n) (Nat.leb n 90)) then ascii_of_nat (n + 32) else c.

Fixpoint lower_ascii_string (s : string) : string :=
  match s with
  | EmptyString => EmptyString
  | String c r => String (ascii_lower c) (lower_ascii_string r)
  end.

Definition exn_text (e : exn) : string :=
  match e with
  | KeyError k => "'" ++ k ++ "'"
  | TypeError => "TypeError"
  | AttributeError => "AttributeError"
  | ValueError => "ValueError"
  | OverflowError => "OverflowError"
  | External msg => msg
  end.

Definition example_runtime : Runtime :=
  {| str_lower := lower_ascii_string;
     float_of_str := fun _ => None;
     str_of_exn := exn_text;
     libm_pow2 := fun x => (x * x)%float |}.

(** An invocation with a credential and an existing image whose model
    response decodes to [data]. *)
Definition responding (data : value) : world :=
  {| api_key := Some "key"; image_exists := true; response := inr (Loaded data) |}.

(** ** Reading a result *)

Definition is_success (result : value) : Prop :=
  py_getitem result "status" = inr (VStr "success").

Definition in_range (lo hi f : float) : Prop :=
  (lo <=? f)%float = true /\ (f <=? hi)%float = true.

(** * The terms of the statements *)

(** ** Transforms *)

(** A transform whose two translations are floats inside [-0.1, 0.1]. *)
Definition translate_clamped (t : value) : Prop :=
  exists fx fy,
    py_getitem t "translateX" = inr (VFloat fx) /\
    py_getitem t "translateY" = inr (VFloat fy) /\
    in_range (-0.1) 0.1 fx /\ in_range (-0.1) 0.1 fy.

(** [t] sits in a keyframe of an animation of [result]. *)
Definition transform_of (result t : value) : Prop :=
  exists anims anim kfs kf items k,
    py_getitem result "animations" = inr (VList anims) /\ In anim anims /\
    py_getitem anim "keyframes" = inr (VList kfs) /\ In kf kfs /\
    py_getitem kf "anchors" = inr (VDict items) /\ In (k, t) items.

(** ** Detect: anchors and bones *)

(** The value [anchor.get(axis, 0.5)] reads from a decoded anchor. *)
Definition coordinate_or_center (d : list (string * value)) (axis : string) : value :=
  match dict_get axis d with
  | Some v => v
  | None => VFloat 0.5
  end.

(** The ids of a list of anchors, in order: [a['id'] for a in anchors]. *)
Definition anchor_ids_of (anchors : list value) : list value :=
  flat_map (fun a => match py_getitem a "id" with
                     | inr id => [id]
                     | inl _ => []
                     end) anchors.

(** [bone.get(field)] names one of the anchors: it is the id of one of
    them, as a set compares its elements. *)
Definition refers_to (anchors : list value) (bone : value) (field : string) : bool :=
  match py_get bone field VNone with
  | inr ref => existsb (same_or_eq ref) (anchor_ids_of anchors)
  | inl _ => false
  end.

(** Both ends of the bone name one of the anchors. *)
Definition bone_resolves (anchors : list value) (bone : value) : bool :=
  refers_to anchors bone "from" && refers_to anchors bone "to".

(** ** Regenerate: keyframes *)

(** The mapping a keyframe had before the loop: [kf.get('anchors', {})]. *)
Definition mapping_of (kf : value) : list (string * value) :=
  match py_get kf "anchors" (VDict []) with
  | inr (VDict items) => items
  | _ => []
  end.

(** ** Refine: corrections and rounds *)

Section RefineTerms.

Import spine_refine.
Context {RT : Runtime}.
Local Open Scope float_scope.

(** The distances a list of rounds adds to [total_movement], in order. *)
Definition movements (rounds : list round) : list float :=
  flat_map (fun r => match moved r with
                     | Some dist => [dist]
                     | None => []
                     end) rounds.

(** [id] is the id of the decoded anchor [c], as a dict key compares. *)
Definition has_id (aid c : value) : bool :=
  match py_getitem c "id" with
  | inr cid => same_or_eq aid cid
  | inl _ => false
  end.

(** [{a['id']: a for a in corrections}.get(aid)]: the last anchor of the
    response with that id. *)
Definition lookup_correction (corrections : list value) (aid : value)
  : option value :=
  fold_left (fun found c => if has_id aid c then Some c else found)
            corrections None.

(** The correction the response holds for an original anchor. *)
Definition correction_for (corrections : list value) (orig : value)
  : option value :=
  match py_getitem orig "id" with
  | inr aid => lookup_correction corrections aid
  | inl _ => None
  end.

(** How the loop reads the response: through the last correction with
    the anchor's id, which is never an empty dict. *)
Definition reads (cmap : list (value * value)) (corrections : list value) : Prop :=
  (forall aid, hashable aid = true ->
     corrected_map_get cmap aid = inr (lookup_correction corrections aid)) /\
  (forall aid c, lookup_correction corrections aid = Some c -> truthy c = true).

(** The model's own flag, [corrected.get('corrected', False)], as a truth
    value. *)
Definition model_flag (c : value) : bool :=
  match py_get c "corrected" (VBool false) with
  | inr flag => truthy flag
  | inl _ => false
  end.

End RefineTerms.

(** ** The merge of Refine *)

(** [n] millionths is the decimal with six digits nearest to the magnitude
    [m * 2 ^ e]: at most half a millionth away, and even when exactly half
    a millionth away. *)
Definition nearest_millionths (m : positive) (e n : Z) : Prop :=
  let num := Zpos m * 10 ^ 6 * 2 ^ Z.max e 0 in
  let den := 2 ^ Z.max (- e) 0 in
  Z.abs (2 * num - 2 * n * den) <= den /\
  (Z.abs (2 * num - 2 * n * den) = den -> Z.even n = true).

(** [r] is [x] rounded to six decimals: the float nearest to the decimal
    with six digits nearest to [x]; a zero, an infinity and a NaN are their
    own rounding. *)
Definition rounded_to_six (x r : float) : Prop :=
  match Prim2SF x with
  | S754_finite s m e =>
      exists n, nearest_millionths m e n /\ r = nearest_float s n (10 ^ 6)
  | _ => r = x
  end.

Section MergeTerms.

Context {RT : Runtime}.
Local Open Scope float_scope.

(** A Python number as a float. *)
Definition number (v : value) : M float :=
  match v with
  | VBool b => float_of_int (int_of_bool b)
  | VInt z => float_of_int z
  | VFloat f => ret f
  | _ => raise TypeError
  end.

(** Where an anchor sits: its [x] and its [y], as floats. *)
Definition position (a : value) : M (float * float) :=
  x <- py_getitem a "x" ;;
  y <- py_getitem a "y" ;;
  fx <- number x ;;
  fy <- number y ;;
  ret (fx, fy).

(** The Euclidean distance from the point [p] to the point [q] in Python's
    floats: the square root of the sum of the squares of the two
    differences. *)
Definition euclidean (p q : float * float) : M float :=
  dx2 <- py_pow2 (fst q - fst p) ;;
  dy2 <- py_pow2 (snd q - snd p) ;;
  math_sqrt (dx2 + dy2).

(** How far the output anchor [out] lies from the input anchor [orig]. *)
Definition displacement_of (orig out : value) : M float :=
  p <- position orig ;;
  q <- position out ;;
  euclidean p q.

(** The displacements of the input anchors that have a correction, each
    measured from the input anchor to its output anchor, in the order of
    the input. *)
Definition displacements (corrections : list value)
  (pairs : list (value * value)) : list float :=
  flat_map (fun pair =>
              match correction_for corrections (fst pair) with
              | Some _ => match displacement_of (fst pair) (snd pair) with
                          | inr dist => [dist]
                          | inl _ => []
                          end
              | None => []
              end) pairs.

(** The output anchor of an original anchor: the same id; the original
    coordinates with [corrected = False] when the response has no correction
    for it, and a position at a distance from the original otherwise. *)
Definition merged (corrections : list value) (orig out : value) : Prop :=
  exists aid,
    py_getitem orig "id" = inr aid /\
    py_getitem out "id" = inr aid /\
    (correction_for corrections orig = None ->
     exists ox oy,
       py_getitem orig "x" = inr ox /\
       py_getitem orig "y" = inr oy /\
       out = VDict [("id", aid); ("x", ox); ("y", oy); ("corrected", VBool false)]) /\
    (correction_for corrections orig <> None ->
     exists dist, displacement_of orig out = inr dist).

(** What the merge promises about a result of Refine. *)
Definition merge_outcome (w : world) (anchors_json : loads) (result : value)
  : Prop :=
  exists data originals corrections outs total,
    anchors_json = Loaded (VList originals) /\
    response w = inr (Loaded data) /\
    py_getitem data "anchors" = inr (VList corrections) /\
    py_getitem result "anchors" = inr (VList outs) /\
    Forall2 (merged corrections) originals outs /\
    py_getitem result "total_movement" = inr (VFloat total) /\
    rounded_to_six
      (fold_left add (displacements corrections (combine originals outs)) 0)
      total.

End MergeTerms.

(** ** Running Refine on its own output *)

(** The anchor [a'] sits where the anchor [a] sits. *)
Definition same_position (a a' : value) : Prop :=
  py_getitem a' "x" = py_getitem a "x" /\
  py_getitem a' "y" = py_getitem a "y".




(** ** Anchor coordinates *)

(** Both coordinates of the anchor are floats inside [0, 1]. *)
Definition in_unit_square (a : value) : Prop :=
  exists fx fy,
    py_getitem a "x" = inr (VFloat fx) /\
    py_getitem a "y" = inr (VFloat fy) /\
    in_range 0 1 fx /\ in_range 0 1 fy.

(** What Refine promises about the coordinates of its output anchors: those
    with a correction in the response lie in the unit square, the others
    sit where the input anchor sits, as given. *)
Definition corrected_in_unit_square (w : world) (anchors_json : loads)
  (result : value) : Prop :=
  exists data originals corrections outs,
    anchors_json = Loaded (VList originals) /\
    response w = inr (Loaded data) /\
    py_getitem data "anchors" = inr (VList corrections) /\
    py_getitem result "anchors" = inr (VList outs) /\
    Forall2 (fun orig out =>
               (correction_for corrections orig <> None -> in_unit_square out) /\
               (correction_for corrections orig = None -> same_position orig out))
            originals outs.

(** ** Missing coordinates *)

Section DefaultTerms.

Context {RT : Runtime}.

(** [axis] is one of the two coordinate keys. *)
Definition is_axis (axis : string) : Prop := axis = "x" \/ axis = "y".

(** Detect: an anchor of the response without a coordinate gets [0.5]. *)
Definition centered_when_missing (a a' : value) : Prop :=
  forall axis,
    is_axis axis -> py_in axis a = inr false ->
    py_getitem a' axis = inr (VFloat 0.5).

(** Refine: a correction without a coordinate leaves the anchor at the
    original's coordinate, clamped. *)
Definition original_when_missing (corrections : list value) (orig out : value)
  : Prop :=
  forall c axis,
    correction_for corrections orig = Some c ->
    is_axis axis -> py_in axis c = inr false ->
    exists o f,
      py_getitem orig axis = inr o /\ py_float o = inr f /\
      py_getitem out axis = inr (VFloat (clamp_unit f)).

Definition detect_defaults (w : world) (result : value) : Prop :=
  exists data anchors anchors',
    response w = inr (Loaded data) /\
    py_getitem data "anchors" = inr (VList anchors) /\
    py_getitem result "anchors" = inr (VList anchors') /\
    Forall2 centered_when_missing anchors anchors'.

Definition refine_defaults (w : world) (anchors_json : loads) (result : value)
  : Prop :=
  exists data originals corrections outs,
    anchors_json = Loaded (VList originals) /\
    response w = inr (Loaded data) /\
    py_getitem data "anchors" = inr (VList corrections) /\
    py_getitem result "anchors" = inr (VList outs) /\
    Forall2 (original_when_missing corrections) originals outs.

End DefaultTerms.

(** ** Bones *)



(** ** Keyframe entries of unknown anchors *)






(** ** The pixel heuristic *)

Section PixelTerms.

Local Open Scope float_scope.

(** [abs(v) > 1.0], false when [abs] does not apply. *)
Definition exceeds_one (v : value) : bool :=
  match (a <- py_abs v ;; py_gt_float a 1.0) with
  | inr b => b
  | inl _ => false
  end.

(** What the heuristic did to a pair: both components divided by 500, or
    both left as they were. *)
Definition both_or_neither (tx ty tx' ty' : value) : Prop :=
  if exceeds_one tx || exceeds_one ty
  then exists fx fy,
         py_div_float tx 500.0 = inr fx /\ py_div_float ty 500.0 = inr fy /\
         tx' = VFloat fx /\ ty' = VFloat fy
  else tx' = tx /\ ty' = ty.

End PixelTerms.

(** ** Results and exit codes *)

Definition is_error (result : value) : Prop :=
  py_getitem result "status" = inr (VStr "error").

(** The exit status of [main] tells the status of the document it printed:
    non-zero exactly for ["error"], zero exactly for ["success"]. *)
Definition exit_matches_status (out : value * Z) : Prop :=
  (snd out <> 0%Z <-> is_error (fst out)) /\
  (snd out = 0%Z <-> is_success (fst out)).

(** A result is one of the two documents the operations build. *)
Definition well_formed_result (result : value) : Prop :=
  (exists m, result = error_result m) \/ is_success result.

(** * Worked examples

    A response of the model with an anchor outside the image, an anchor
    without coordinates or id, a bone to an anchor that does not exist, a
    translation in pixels and a keyframe entry for an unknown anchor; then
    the inputs of the scenarios the statements are evaluated on. *)

Definition example_anchors : value :=
  VList [VDict [("id", VStr "hip"); ("label", VStr "Hip"); ("x", VFloat 0.5);
                ("y", VFloat 0.6); ("type", VStr "root")];
         VDict [("id", VStr "head"); ("label", VStr "Head"); ("x", VFloat 0.5);
                ("y", VFloat (-0.2)); ("type", VStr "tip")];
         VDict [("label", VStr "Left Hand")]].

Definition example_bones : value :=
  VList [VDict [("id", VStr "spine"); ("from", VStr "hip"); ("to", VStr "head");
                ("parent", VNone)];
         VDict [("id", VStr "ghost"); ("from", VStr "hip"); ("to", VStr "tail");
                ("parent", VStr "spine")]].

Definition example_animations : value :=
  VList [VDict [("name", VStr "Sway"); ("description", VStr "Idle sway");
                ("duration", VFloat 1.0); ("loop", VBool true);
                ("keyframes",
                 VList [VDict [("time", VFloat 0.0);
                               ("anchors",
                                VDict [("head",
                                        VDict [("rotation", VInt 15);
                                               ("translateX", VInt 120);
                                               ("translateY", VFloat 0.05);
                                               ("scale", VFloat 1.0)]);
                                       ("tail",
                                        VDict [("rotation", VInt 0);
                                               ("translateX", VFloat 0.01);
                                               ("translateY", VFloat (-0.02));
                                               ("scale", VFloat 1.0)])])]])]].

Definition example_analysis : value :=
  VDict [("image_type", VStr "character"); ("description", VStr "A figure");
         ("anchors", example_anchors); ("bones", example_bones);
         ("animations", example_animations)].

(** The head transform of the worked example, as Detect returns it. *)
Definition example_head_transform : value :=
  VDict [("rotation", VInt 15); ("translateX", VFloat 0.1);
         ("translateY", VFloat 0.0001); ("scale", VFloat 1.0)].

(** Input anchors [[{id: "a", x: 0.10, y: 0.10}]] and a response that moves
    [a] to [x = 0.12] with its own flag false. *)
Definition scenario_anchors : value :=
  VList [VDict [("id", VStr "a"); ("x", VFloat 0.10); ("y", VFloat 0.10)]].

(** The same with a second input anchor, about which the response says
    nothing. *)
Definition scenario_two_anchors : value :=
  VList [VDict [("id", VStr "a"); ("x", VFloat 0.10); ("y", VFloat 0.10)];
         VDict [("id", VStr "b"); ("x", VFloat 0.4); ("y", VFloat 0.7)]].

Definition scenario_response : value :=
  VDict [("anchors",
          VList [VDict [("id", VStr "a"); ("x", VFloat 0.12); ("y", VFloat 0.10);
                        ("corrected", VBool false)]])].




(** An input anchor outside the image that the response does not mention. *)
Definition off_image_anchors : value :=
  VList [VDict [("id", VStr "a"); ("x", VFloat 0.10); ("y", VFloat 0.10)];
         VDict [("id", VStr "b"); ("x", VFloat 1.5); ("y", VFloat 0.7)]].

Definition off_image_anchor_out : value :=
  VDict [("id", VStr "b"); ("x", VFloat 1.5); ("y", VFloat 0.7);
         ("corrected", VBool false)].



(** An input anchor at (0.2, 0.3) and a response that names it without
    coordinates. *)
Definition bare_anchors : value :=
  VList [VDict [("id", VStr "a"); ("x", VFloat 0.2); ("y", VFloat 0.3)]].

Definition bare_response : value :=
  VDict [("anchors", VList [VDict [("id", VStr "a"); ("corrected", VBool false)]])].


(** A response whose anchor and bone are named by a NaN, and input anchors
    and a correction named by a NaN: the one object [json.loads] decodes
    every [NaN] to. *)
Definition nan_analysis : value :=
  VDict [("anchors",
          VList [VDict [("id", VFloat nan); ("x", VFloat 0.5); ("y", VFloat 0.5)]]);
         ("bones",
          VList [VDict [("id", VStr "loop"); ("from", VFloat nan);
                        ("to", VFloat nan)]]);
         ("animations", example_animations)].

Definition nan_anchors : value :=
  VList [VDict [("id", VFloat nan); ("x", VFloat 0.10); ("y", VFloat 0.10)]].

Definition nan_response : value :=
  VDict [("anchors",
          VList [VDict [("id", VFloat nan); ("x", VFloat 0.12); ("y", VFloat 0.10);
                        ("corrected", VBool true)]])].

(** The anchors supplied to Regenerate in the worked example, and the
    response: the animations of [example_analysis], whose keyframe names
    the unknown anchor ["tail"]. *)
Definition supplied_anchors : value :=
  VList [VDict [("id", VStr "hip"); ("label", VStr "Hip"); ("x", VFloat 0.5);
                ("y", VFloat 0.6); ("type", VStr "root")];
         VDict [("id", VStr "head"); ("label", VStr "Head"); ("x", VFloat 0.5);
                ("y", VFloat 0.1); ("type", VStr "tip")]].

Definition example_regeneration : value :=
  VDict [("animations", example_animations)].

(** The keys of the mapping of the first keyframe of the first animation. *)
Definition first_keyframe_keys (result : value) : M (list string) :=
  anims <- py_getitem result "animations" ;;
  match anims with
  | VList (anim :: _) =>
      kfs <- py_getitem anim "keyframes" ;;
      match kfs with
      | VList (kf :: _) =>
          mapping <- py_getitem kf "anchors" ;;
          items <- py_items mapping ;;
          ret (map fst items)
      | _ => raise TypeError
      end
  | _ => raise TypeError
  end.

(** A response with anchors and bones but no animations, and the empty
    JSON object. *)
Definition analysis_without_animations : value :=
  VDict [("anchors", example_anchors); ("bones", example_bones)].

(** * The terms of the further properties *)

(** ** Detect: what the anchor loop does to every anchor *)

(** The anchors of the response and those of the result, related one by one
    in the order of the response. *)
Definition detect_anchor_loop (P : value -> value -> Prop) (w : world)
  (result : value) : Prop :=
  exists data anchors anchors',
    response w = inr (Loaded data) /\
    py_getitem data "anchors" = inr (VList anchors) /\
    py_getitem result "anchors" = inr (VList anchors') /\
    Forall2 P anchors anchors'.

(** The anchor carries the four keys the front end reads. *)
Definition anchor_complete (a : value) : Prop :=
  forall k, In k ["x"; "y"; "type"; "id"] -> py_in k a = inr true.

(** Every key of [a] outside [ks] holds the same value in [a']. *)
Definition keeps_but (ks : list string) (a a' : value) : Prop :=
  forall k v, ~ In k ks -> py_getitem a k = inr v -> py_getitem a' k = inr v.

(** [a'] has no key beyond those of [a] and the listed ones. *)
Definition adds_only (ks : list string) (a a' : value) : Prop :=
  forall k, py_in k a' = inr true -> In k ks \/ py_in k a = inr true.

(** The string has no space character. *)
Definition no_space (s : string) : Prop :=
  ~ In " "%char (list_ascii_of_string s).

Section DefaultTermsOfAnchors.

Context {RT : Runtime}.

(** Lines 146-149: an anchor without a type is a joint; an anchor without
    an id is named after its label, lower-cased, spaces replaced. *)
Definition defaults_filled (a a' : value) : Prop :=
  (py_in "type" a = inr false -> py_getitem a' "type" = inr (VStr "joint")) /\
  (py_in "id" a = inr false ->
   exists label,
     py_get a "label" (VStr "anchor") = inr (VStr label) /\
     py_getitem a' "id" = inr (VStr (replace_spaces (str_lower label))) /\
     no_space (replace_spaces (str_lower label))).

End DefaultTermsOfAnchors.

(** ** Animations: what the loops leave alone *)

(** The animations of the response and those of the result, related one by
    one in the order of the response. *)
Definition animation_loop (P : value -> value -> Prop) (w : world)
  (result : value) : Prop :=
  exists data anims anims',
    response w = inr (Loaded data) /\
    py_getitem data "animations" = inr (VList anims) /\
    py_getitem result "animations" = inr (VList anims') /\
    Forall2 P anims anims'.

(** An animation keeps every field but its keyframes, which are related
    one by one by [Q]. *)
Definition animation_kept (Q : value -> value -> Prop) (anim anim' : value)
  : Prop :=
  keeps_but ["keyframes"] anim anim' /\
  forall kfs,
    py_getitem anim "keyframes" = inr (VList kfs) ->
    exists kfs',
      py_getitem anim' "keyframes" = inr (VList kfs') /\ Forall2 Q kfs kfs'.

(** An entry of a mapping keeps its key and every field of its transform
    but the two translations. *)
Definition entry_kept (it it' : string * value) : Prop :=
  fst it' = fst it /\ keeps_but ["translateX"; "translateY"] (snd it) (snd it').

(** Detect: a keyframe keeps every field but its mapping, whose entries are
    kept one by one, in order. *)
Definition keyframe_kept (kf kf' : value) : Prop :=
  keeps_but ["anchors"] kf kf' /\
  forall items,
    py_getitem kf "anchors" = inr (VDict items) ->
    exists items',
      py_getitem kf' "anchors" = inr (VDict items') /\
      Forall2 entry_kept items items'.

(** Regenerate: a keyframe keeps every field but its mapping, and every
    entry of the new mapping is a kept entry of the old one. *)
Definition keyframe_pruned (kf kf' : value) : Prop :=
  keeps_but ["anchors"] kf kf' /\
  exists valid,
    py_getitem kf' "anchors" = inr (VDict valid) /\
    forall it', In it' valid ->
      exists it, In it (mapping_of kf) /\ entry_kept it it'.

(** ** Refine: the anchors it returns *)

(** An anchor as Refine builds it: the four keys of lines 166-171 and
    174-179, in that order, and nothing else. *)
Definition refine_anchor_shape (a : value) : Prop :=
  exists aid x y flag,
    a = VDict [("id", aid); ("x", x); ("y", y); ("corrected", flag)].

(** The response holds a correction for the anchor. *)
Definition has_correction (corrections : list value) (orig : value) : bool :=
  match correction_for corrections orig with
  | Some _ => true
  | None => false
  end.

(** The anchor comes back with its own coordinates and a false flag. *)
Definition kept_as_given (orig out : value) : Prop :=
  exists aid ox oy,
    py_getitem orig "id" = inr aid /\
    py_getitem orig "x" = inr ox /\
    py_getitem orig "y" = inr oy /\
    out = VDict [("id", aid); ("x", ox); ("y", oy); ("corrected", VBool false)].

(** A response that names an anchor the input does not have. *)
Definition stranger_response : value :=
  VDict [("anchors",
          VList [VDict [("id", VStr "tail"); ("x", VFloat 0.9); ("y", VFloat 0.9);
                        ("corrected", VBool true)]])].

(** ** The credential *)

(** Every character of the text is white space. *)
Definition all_space (s : string) : Prop :=
  forall c, In c (list_ascii_of_string s) -> py_isspace c = true.

(** The text neither starts nor ends with white space. *)
Definition trimmed (s : string) : Prop :=
  (forall c r, s = String c r -> py_isspace c = false) /\
  (forall r c, s = r ++ String c "" -> py_isspace c = false).

(** The vault file at [vault_path] is there and holds [text]. *)
Definition vault_holds (h : host) (vault_path text : string) : Prop :=
  os_path_exists h vault_path = true /\ open_read h vault_path = inr text.

(** No key can be read from the vault file at [vault_path]. *)
Definition vault_fails (h : host) (vault_path : string) : Prop :=
  os_path_exists h vault_path = false \/ exists e, open_read h vault_path = inl e.

(** No key can be read from the vault file beside the script of Refine. *)
Definition script_vault_fails (h : host) (vault_path : string) : Prop :=
  script_vault h = inr vault_path /\
  (path_exists h vault_path = inr false \/
   (exists e, path_exists h vault_path = inl e) \/
   (path_exists h vault_path = inr true /\
    exists e, path_read_text h vault_path = inl e)).

(** A host whose first vault file holds a key between blank lines, and
    whose environment names another key. *)
Definition example_host : host :=
  {| os_path_exists := fun p =>
       String.eqb p "/var/www/evo/vault/gemini_key.txt" || String.eqb p "img.png";
     open_read := fun _ => inr (String (ascii_of_nat 10)
                                  ("AIza-key" ++ String (ascii_of_nat 10) ""));
     environ_get := fun k => if String.eqb k "GEMINI_API_KEY" then Some "other" else None;
     script_vault := inr "/srv/spine/vault/gemini_key.txt";
     path_exists := fun _ => inr false;
     path_read_text := fun _ => inl (External "unreadable") |}.

(** A host whose first vault file holds a line break only. *)
Definition blank_vault_host : host :=
  {| os_path_exists := fun p => String.eqb p "/var/www/evo/vault/gemini_key.txt";
     open_read := fun _ => inr (String (ascii_of_nat 10) "");
     environ_get := fun k => if String.eqb k "GEMINI_API_KEY" then Some "other" else None;
     script_vault := inr "/srv/spine/vault/gemini_key.txt";
     path_exists := fun _ => inr false;
     path_read_text := fun _ => inl (External "unreadable") |}.

(** A host without vault files, with an empty [GOOGLE_API_KEY]. *)
Definition environment_host : host :=
  {| os_path_exists := fun _ => false;
     open_read := fun _ => inl (External "missing");
     environ_get := fun k =>
       if String.eqb k "GOOGLE_API_KEY" then Some ""
       else if String.eqb k "GEMINI_API_KEY" then Some "other" else None;
     script_vault := inr "/srv/spine/vault/gemini_key.txt";
     path_exists := fun _ => inl (External "permission denied");
     path_read_text := fun _ => inl (External "unreadable") |}.

(** ** Coordinates that need no repair *)

(** A float coordinate of [a] inside the image is the same number in [a']
    (the sign of a zero apart). *)
Definition coordinate_kept (a a' : value) : Prop :=
  forall axis f,
    axis = "x" \/ axis = "y" ->
    py_getitem a axis = inr (VFloat f) -> in_range 0 1 f ->
    exists f', py_getitem a' axis = inr (VFloat f') /\ (f' =? f)%float = true.

(** A response without [image_type] and [description], with a key of its
    own. *)
Definition analysis_without_title : value :=
  VDict [("anchors", example_anchors); ("bones", example_bones);
         ("animations", example_animations); ("confidence", VFloat 0.9)].

(** ** The whole run of a tool *)

(** Reading the key raises: the object has no such key, or is not an
    object. *)
Definition unreadable (v : value) (k : string) : Prop :=
  exists e, py_getitem v k = inl e.

(** An anchor the marker loop cannot draw: no [x], no [y], or a [type]
    that is a list or an object. *)
Definition undrawable_anchor (a : value) : Prop :=
  unreadable a "x" \/ unreadable a "y" \/
  exists t, py_get a "type" (VStr "joint") = inr t /\ hashable t = false.

(** A bone the prompt cannot list: no [id], no [from] or no [to]. *)
Definition incomplete_bone (b : value) : Prop :=
  unreadable b "id" \/ unreadable b "from" \/ unreadable b "to".

(** The anchors Detect returns for the worked example, as a JSON text
    decodes to them, with a list where the type of the head should be. *)
Definition untyped_anchors : value :=
  VList [VDict [("id", VStr "hip"); ("x", VFloat 0.5); ("y", VFloat 0.6);
                ("type", VStr "root")];
         VDict [("id", VStr "head"); ("x", VFloat 0.5); ("y", VFloat 0.1);
                ("type", VList [VStr "tip"])]].

(** Bones of which the second has no [to]. *)
Definition open_bones : value :=
  VList [VDict [("id", VStr "spine"); ("from", VStr "hip"); ("to", VStr "head")];
         VDict [("id", VStr "arm"); ("from", VStr "head")]].

(** A studio whose collaborators all work, for an 800 x 600 image, and
    whose decoder knows three texts. *)
Definition example_studio : studio :=
  {| imports := None;
     image_open_plain := fun _ => None;
     image_open := fun _ => inr (800, 600);
     truetype := fun _ _ => FontMissing;
     load_default := None;
     draw_ellipse := fun _ _ => None;
     draw_text := fun _ _ => None;
     draw_line := fun _ => None;
     make_client := fun _ => None;
     generate_analysis := inr (Some "analysis");
     generate_refinement := fun _ => inr (Some "refinement");
     generate_animations := fun _ _ => inr (Some "animations");
     json_loads := fun text =>
       if String.eqb text "untyped" then Loaded untyped_anchors
       else if String.eqb text "anchors" then Loaded supplied_anchors
       else if String.eqb text "open" then Loaded open_bones
       else if String.eqb text "bones" then Loaded example_bones
       else if String.eqb text "analysis" then Loaded example_analysis
       else if String.eqb text "refinement" then Loaded stranger_response
       else if String.eqb text "animations" then Loaded example_regeneration
       else JSONDecodeError "Expecting value";
     str_of_value := fun v => match v with VStr s => s | _ => "?" end;
     fixed4 := fun _ => "0.5000" |}.

(** The text the overlays write above the marker of an anchor:
    [anchor.get('label', anchor.get('id', '?'))]. *)
Definition marker_text (a : value) : M value :=
  fallback <- py_get a "id" (VStr "?") ;;
  py_get a "label" fallback.

(** An anchor both overlays can draw and both prompts can list: an object
    with an id, a type that can be looked up, a text to write above its
    marker (its label, or its id when it has no label: the imaging library
    raises on anything but a text) and float coordinates inside the
    image. *)
Definition drawable_anchor (a : value) : Prop :=
  exists d fx fy,
    a = VDict d /\
    dict_get "x" d = Some (VFloat fx) /\
    dict_get "y" d = Some (VFloat fy) /\
    dict_mem "id" d = true /\
    match dict_get "type" d with
    | Some t => hashable t = true
    | None => True
    end /\
    (exists text, marker_text a = inr (VStr text)) /\
    in_range 0 1 fx /\ in_range 0 1 fy.

(** A bone the prompt of Regenerate can list. *)
Definition complete_bone (b : value) : Prop :=
  exists d,
    b = VDict d /\
    dict_mem "id" d = true /\ dict_mem "from" d = true /\ dict_mem "to" d = true.

Section Readiness.

Context {RT : Runtime}.

(** The image opens, a font loads, and the sizes are within the floats. *)
Definition overlay_ready (s : studio) (image_path : string) : Prop :=
  exists w h circle_radius font_size fw fh fr ff,
    prepare_overlay s image_path = inr (w, h, circle_radius, font_size) /\
    float_of_int w = inr fw /\ float_of_int h = inr fh /\
    float_of_int circle_radius = inr fr /\ float_of_int font_size = inr ff.

End Readiness.

(** The drawing calls do not raise when the imaging library is handed a
    text to write; nothing is assumed of a call with another label. *)
Definition drawing_works (s : studio) : Prop :=
  (forall bbox color, draw_ellipse s bbox color = None) /\
  (forall at_ text, draw_text s at_ (VStr text) = None) /\
  (forall ends, draw_line s ends = None).



(** The anchors Detect returns for a response that names an anchor by a
    number: a success, with a marker no overlay can label. *)
Definition numbered_analysis : value :=
  VDict [("anchors",
          VList [VDict [("id", VInt 7); ("x", VFloat 0.5); ("y", VFloat 0.5)]]);
         ("bones",
          VList [VDict [("id", VStr "loop"); ("from", VInt 7); ("to", VInt 7)]]);
         ("animations", example_animations)].

(** ** Refine: corrections that need no repair, and flags *)

(** A float coordinate of the correction inside the image is the same
    number in the output anchor. *)
Definition correction_applied (corrections : list value) (orig out : value)
  : Prop :=
  forall c axis f,
    correction_for corrections orig = Some c ->
    axis = "x" \/ axis = "y" ->
    py_getitem c axis = inr (VFloat f) -> in_range 0 1 f ->
    exists f', py_getitem out axis = inr (VFloat f') /\ (f' =? f)%float = true.

(** The output anchor carries the flag [True]. *)
Definition flagged_true (out : value) : bool :=
  match py_getitem out "corrected" with
  | inr (VBool true) => true
  | _ => false
  end.

(** A response that moves [a] and says nothing about the move. *)
Definition silent_response : value :=
  VDict [("anchors",
          VList [VDict [("id", VStr "a"); ("x", VFloat 0.12); ("y", VFloat 0.10)]])].

(** A host whose vault file beside the script of Refine holds a key and a
    line break. *)
Definition script_vault_host : host :=
  {| os_path_exists := fun _ => true;
     open_read := fun _ => inl (External "unreadable");
     environ_get := fun _ => None;
     script_vault := inr "/srv/spine/vault/gemini_key.txt";
     path_exists := fun _ => inr true;
     path_read_text := fun _ => inr ("AIza-key" ++ String (ascii_of_nat 10) "") |}.

(** * Proofs *)

(** ** The error monad and the loops *)

Lemma bind_inr {A B} (c : M A) (k : A -> M B) (b : B) :
  bind c k = inr b -> exists a, c = inr a /\ k a = inr b.
Proof.
  destruct c as [e | a]; simpl; intros H.
  - discriminate.
  - exists a; split; [reflexivity | assumption].
Qed.

(** Splits a successful [bind] into its two successful halves. *)
Ltac bind_inv H :=
  let a := fresh "v" in
  let E := fresh "E" in
  apply bind_inr in H; destruct H as (a & E & H).

Tactic Notation "bind_as" hyp(H) ident(a) ident(E) :=
  apply bind_inr in H; destruct H as (a & E & H).

Lemma mapM_Forall2 {A B} (f : A -> M B) (l : list A) (l' : list B) :
  mapM f l = inr l' -> Forall2 (fun a b => f a = inr b) l l'.
Proof.
  revert l'; induction l as [| a r IH]; simpl; intros l' H.
  - injection H as <-. constructor.
  - bind_inv H. bind_inv H. injection H as <-.
    constructor; [assumption | apply IH; assumption].
Qed.

Lemma Forall2_In_r {A B} (R : A -> B -> Prop) (l : list A) (l' : list B) (b : B) :
  Forall2 R l l' -> In b l' -> exists a, In a l /\ R a b.
Proof.
  induction 1 as [| x y l l' Hxy _ IH]; simpl; intros Hin.
  - contradiction.
  - destruct Hin as [<- | Hin].
    + exists x; auto.
    + destruct (IH Hin) as (a & Ha & HR). exists a; auto.
Qed.

Lemma mapM_In {A B} (f : A -> M B) (l : list A) (l' : list B) (b : B) :
  mapM f l = inr l' -> In b l' -> exists a, In a l /\ f a = inr b.
Proof.
  intros H Hin.
  apply (Forall2_In_r (fun a b => f a = inr b) l l' b); [| assumption].
  apply mapM_Forall2. assumption.
Qed.

Lemma filterM_filter {A} (p : A -> M bool) (q : A -> bool) (l l' : list A) :
  (forall a b, In a l -> p a = inr b -> q a = b) ->
  filterM p l = inr l' -> l' = filter q l.
Proof.
  revert l'; induction l as [| a r IH]; simpl; intros l' Hq H.
  - injection H as <-. reflexivity.
  - bind_inv H. bind_inv H. injection H as <-.
    rewrite (Hq a v (or_introl eq_refl) E).
    rewrite (IH v0); auto.
Qed.

(** A list stays a list under [for_each], element by element. *)
Lemma for_each_list (body : value -> M value) (v : value) (l' : list value) :
  for_each body v = inr (VList l') ->
  exists l, v = VList l /\ mapM body l = inr l'.
Proof.
  destruct v; simpl; intros H;
    try discriminate;
    try (bind_inv H; discriminate).
  bind_inv H. unfold ret in H. injection H as <-. eauto.
Qed.

(** ** Dicts *)

Lemma dict_get_set_same k v d : dict_get k (dict_set k v d) = Some v.
Proof.
  induction d as [| [k' v'] r IH]; simpl.
  - rewrite String.eqb_refl. reflexivity.
  - destruct (String.eqb k k') eqn:E; simpl; rewrite ?String.eqb_refl, ?E; auto.
Qed.

Lemma dict_get_set_other k k' v d :
  String.eqb k k' = false -> dict_get k (dict_set k' v d) = dict_get k d.
Proof.
  intros Hne. induction d as [| [k2 v2] r IH]; simpl.
  - rewrite Hne. reflexivity.
  - destruct (String.eqb k' k2) eqn:E; simpl.
    + apply String.eqb_eq in E. subst k2. rewrite Hne. reflexivity.
    + rewrite IH. reflexivity.
Qed.

Lemma dict_set_In k v d k' v' :
  In (k', v') (dict_set k v d) -> (k', v') = (k, v) \/ In (k', v') d.
Proof.
  induction d as [| [k2 v2] r IH]; simpl.
  - intros [H | []]; auto.
  - destruct (String.eqb k k2); simpl; intros [H | H]; auto.
    destruct (IH H); auto.
Qed.


Lemma dict_mem_In k d : dict_mem k d = true <-> In k (map fst d).
Proof.
  unfold dict_mem. induction d as [| [k2 v2] r IH]; simpl.
  - split; [discriminate | contradiction].
  - destruct (String.eqb k k2) eqn:E.
    + apply String.eqb_eq in E. subst. split; auto.
    + apply String.eqb_neq in E. rewrite IH. split; [auto |].
      intros [H | H]; [congruence | assumption].
Qed.

Lemma dict_set_keys_mem k v d :
  dict_mem k d = true -> map fst (dict_set k v d) = map fst d.
Proof.
  unfold dict_mem. induction d as [| [k2 v2] r IH]; simpl.
  - discriminate.
  - destruct (String.eqb k k2) eqn:E; simpl.
    + apply String.eqb_eq in E. subst. reflexivity.
    + intros H. rewrite IH; auto.
Qed.

(** ** Floats *)

Lemma ltb_leb (x y : float) : (x <? y)%float = true -> (x <=? y)%float = true.
Proof.
  rewrite ltb_spec, leb_spec. unfold SFltb, SFleb.
  destruct (SFcompare (Prim2SF x) (Prim2SF y)) as [[] |]; congruence.
Qed.

(** The double clamp always lands inside its bounds, NaN included. *)
Lemma clamp_in_range (lo hi f : float) :
  (lo <=? lo)%float = true -> (lo <=? hi)%float = true ->
  (hi <=? hi)%float = true -> (lo <? hi)%float = true ->
  in_range lo hi (py_max lo (py_min hi f)).
Proof.
  intros Hll Hlh Hhh Hlt. unfold in_range, py_max, py_min.
  destruct (f <? hi)%float eqn:E1.
  - destruct (lo <? f)%float eqn:E2.
    + split; apply ltb_leb; assumption.
    + split; assumption.
  - rewrite Hlt. split; assumption.
Qed.


Local Open Scope float_scope.

Lemma SFcompare_Eq_finite (x : spec_float) (s : bool) (m : positive) (e : Z) :
  SFcompare x (S754_finite s m e) = Some Eq -> x = S754_finite s m e.
Proof.
  destruct x as [s' | s' | | s' m' e']; simpl.
  - destruct s; discriminate.
  - destruct s'; discriminate.
  - discriminate.
  - destruct s', s; try discriminate.
    + destruct (Z.compare_spec e' e) as [-> | He | He]; try discriminate.
      intros H. injection H as H. apply CompOpp_iff in H. simpl in H.
      apply Pos.compare_eq in H. subst. reflexivity.
    + destruct (Z.compare_spec e' e) as [-> | He | He]; try discriminate.
      intros H. injection H as H.
      apply Pos.compare_eq in H. subst. reflexivity.
Qed.

Lemma SFcompare_finite_Eq (x : spec_float) (s : bool) (m : positive) (e : Z) :
  SFcompare (S754_finite s m e) x = Some Eq -> x = S754_finite s m e.
Proof.
  destruct x as [s' | s' | | s' m' e']; simpl.
  - destruct s; discriminate.
  - destruct s'; discriminate.
  - discriminate.
  - destruct s, s'; try discriminate.
    + destruct (Z.compare_spec e e') as [-> | He | He]; try discriminate.
      intros H. injection H as H. apply CompOpp_iff in H. simpl in H.
      apply Pos.compare_eq in H. subst. reflexivity.
    + destruct (Z.compare_spec e e') as [-> | He | He]; try discriminate.
      intros H. injection H as H.
      apply Pos.compare_eq in H. subst. reflexivity.
Qed.

(** A float at most [c] and not below [c] is [c], for a finite non-zero [c]. *)
Lemma leb_not_ltb_eq (x c : float) (s : bool) (m : positive) (e : Z) :
  Prim2SF c = S754_finite s m e ->
  (x <=? c) = true -> (x <? c) = false -> x = c.
Proof.
  intros Hc. rewrite leb_spec, ltb_spec. unfold SFleb, SFltb. intros Hle Hlt.
  apply Prim2SF_inj. rewrite Hc. apply SFcompare_Eq_finite. rewrite <- Hc.
  destruct (SFcompare (Prim2SF x) (Prim2SF c)) as [[] |]; congruence.
Qed.

Lemma geb_not_gtb_eq (x c : float) (s : bool) (m : positive) (e : Z) :
  Prim2SF c = S754_finite s m e ->
  (c <=? x) = true -> (c <? x) = false -> x = c.
Proof.
  intros Hc. rewrite leb_spec, ltb_spec. unfold SFleb, SFltb. intros Hle Hlt.
  apply Prim2SF_inj. rewrite Hc. apply SFcompare_finite_Eq. rewrite <- Hc.
  destruct (SFcompare (Prim2SF c) (Prim2SF x)) as [[] |]; congruence.
Qed.


Local Close Scope float_scope.

Lemma clamp_unit_range (f : float) : in_range 0 1 (clamp_unit f).
Proof. apply clamp_in_range; reflexivity. Qed.

Lemma clamp_translate_range (f : float) :
  in_range (-0.1) 0.1 (clamp_translate f).
Proof. apply clamp_in_range; reflexivity. Qed.

(** ** Transforms (spine_analyze.py 166-178, spine_update_anims.py 196-206) *)

Section TransformFacts.

Context {RT : Runtime}.

(** What a successful [sanitize_transform] did, step by step. *)
Lemma sanitize_transform_inv (t t' : value) :
  sanitize_transform t = inr t' ->
  exists d fx fy,
    t = VDict d /\
    t' = VDict (dict_set "translateY" (VFloat (clamp_translate fy))
              (dict_set "translateX" (VFloat (clamp_translate fx)) d)).
Proof.
  unfold sanitize_transform. intros H.
  destruct t; simpl in H; try discriminate.
  bind_inv H. bind_inv H. bind_inv H. destruct v1 as [tx ty].
  bind_inv H. bind_inv H. unfold ret in H. injection H as <-.
  exists d, v1, v2. split; reflexivity.
Qed.

Lemma sanitize_transform_clamped (t t' : value) :
  sanitize_transform t = inr t' -> translate_clamped t'.
Proof.
  intros H. destruct (sanitize_transform_inv t t' H) as (d & fx & fy & -> & ->).
  exists (clamp_translate fx), (clamp_translate fy). simpl.
  rewrite dict_get_set_same.
  rewrite dict_get_set_other by reflexivity.
  rewrite dict_get_set_same.
  repeat split; apply clamp_translate_range.
Qed.

End TransformFacts.

(** ** Results *)

Lemma error_not_success (m : string) : ~ is_success (error_result m).
Proof. unfold is_success, error_result. simpl. discriminate. Qed.

(** Closes the branch of an early [return {"status": "error", ...}] when the
    result is known to be a success. *)
Ltac early_return H Hs :=
  unfold ret in H; injection H as <-; exfalso; exact (error_not_success _ Hs).

Lemma parse_error_not_success (m : string) : ~ is_success (parse_error m).
Proof. apply error_not_success. Qed.

Lemma error_status (m : string) : status_is_error (error_result m) = true.
Proof. reflexivity. Qed.

Section PresenceFacts.

Context {RT : Runtime}.

Lemma absent_or_empty_false (data : value) (k : string) :
  absent_or_empty data k = inr false ->
  exists v, py_getitem data k = inr v /\ truthy v = true.
Proof.
  unfold absent_or_empty. intros H. bind_inv H.
  destruct v; [| discriminate].
  bind_inv H. unfold ret in H. injection H as H.
  exists v. split; [assumption |].
  destruct (truthy v); [reflexivity | discriminate].
Qed.

(** Iterating a truthy object that is not a list hands the loop body at
    least one string. *)
Lemma for_each_truthy_list (body : value -> M value) (v v' : value) :
  (forall s, body (VStr s) = inl AttributeError) ->
  truthy v = true ->
  for_each body v = inr v' ->
  exists l l', v = VList l /\ v' = VList l' /\ mapM body l = inr l'.
Proof.
  intros Hstr Ht H. destruct v; simpl in *; try discriminate.
  - destruct s as [| c s]; [discriminate |].
    simpl in H. rewrite Hstr in H. discriminate.
  - bind_inv H. unfold ret in H. injection H as <-. eauto.
  - destruct d as [| [k x] d]; [discriminate |].
    simpl in H. rewrite Hstr in H. discriminate.
Qed.

Lemma py_getitem_set_same (v v' x : value) (k : string) :
  py_setitem v k x = inr v' -> py_getitem v' k = inr x.
Proof.
  destruct v; simpl; try discriminate.
  intros H. injection H as <-. simpl. rewrite dict_get_set_same. reflexivity.
Qed.

Lemma py_getitem_set_other (v v' x : value) (k k' : string) :
  String.eqb k' k = false ->
  py_setitem v k x = inr v' -> py_getitem v' k' = py_getitem v k'.
Proof.
  intros Hne. destruct v; simpl; try discriminate.
  intros H. injection H as <-. simpl. rewrite dict_get_set_other by assumption.
  reflexivity.
Qed.

Lemma py_get_present (v x dflt : value) (k : string) :
  py_getitem v k = inr x -> py_get v k dflt = inr x.
Proof.
  destruct v; simpl; try discriminate.
  destruct (dict_get k d); [auto | discriminate].
Qed.

End PresenceFacts.

(** ** Detect: anchors and bones *)

Module DetectAnchorFacts.
Import spine_analyze.
Section Facts.
Context {RT : Runtime}.

(** What a successful round of the anchor loop did. *)
Lemma sanitize_anchor_inv (anchor anchor' : value) :
  sanitize_anchor anchor = inr anchor' ->
  exists d fx fy,
    anchor = VDict d /\
    py_float (coordinate_or_center d "x") = inr fx /\
    py_float (coordinate_or_center d "y") = inr fy /\
    py_getitem anchor' "x" = inr (VFloat (clamp_unit fx)) /\
    py_getitem anchor' "y" = inr (VFloat (clamp_unit fy)).
Proof.
  unfold sanitize_anchor. intros H.
  destruct anchor; simpl in H; try discriminate.
  bind_as H x Ex0. bind_as H fx Efx.
  bind_as H y Ey0. bind_as H fy Efy.
  rewrite dict_get_set_other in Ey0 by reflexivity.
  assert (Ex : py_float (coordinate_or_center d "x") = inr fx).
  { unfold coordinate_or_center. destruct (dict_get "x" d);
      unfold ret in Ex0; injection Ex0 as <-; assumption. }
  assert (Ey : py_float (coordinate_or_center d "y") = inr fy).
  { unfold coordinate_or_center. destruct (dict_get "y" d);
      unfold ret in Ey0; injection Ey0 as <-; assumption. }
  clear Ex0 Efx Ey0 Efy.
  set (d2 := dict_set "y" (VFloat (clamp_unit fy))
               (dict_set "x" (VFloat (clamp_unit fx)) d)) in *.
  assert (Hx2 : dict_get "x" d2 = Some (VFloat (clamp_unit fx))).
  { unfold d2. rewrite dict_get_set_other by reflexivity.
    apply dict_get_set_same. }
  assert (Hy2 : dict_get "y" d2 = Some (VFloat (clamp_unit fy))).
  { unfold d2. apply dict_get_set_same. }
  clearbody d2.
  bind_as H a3 E3.
  assert (H3 : exists d3, a3 = VDict d3 /\
                 dict_get "x" d3 = dict_get "x" d2 /\
                 dict_get "y" d3 = dict_get "y" d2).
  { destruct (dict_mem "type" d2); unfold ret in E3; injection E3 as <-;
      eexists; split; try reflexivity.
    all: split; first [reflexivity | apply dict_get_set_other; reflexivity]. }
  destruct H3 as (d3 & -> & Hx3 & Hy3). clear E3.
  bind_as H has_id Eid. simpl in Eid. unfold ret in Eid.
  injection Eid as <-.
  exists d, fx, fy. split; [reflexivity |]. split; [assumption |].
  split; [assumption |].
  destruct (dict_mem "id" d3).
  - unfold ret in H. injection H as <-. simpl.
    rewrite Hx3, Hy3, Hx2, Hy2. split; reflexivity.
  - bind_as H label El. destruct label; try discriminate.
    simpl in H. unfold ret in H. injection H as <-. simpl.
    rewrite !dict_get_set_other by reflexivity.
    rewrite Hx3, Hy3, Hx2, Hy2. split; reflexivity.
Qed.

Lemma mapM_ids (anchors ids : list value) :
  mapM (fun a => py_getitem a "id") anchors = inr ids ->
  ids = anchor_ids_of anchors.
Proof.
  revert ids. induction anchors as [| a r IH]; simpl; intros l H.
  - injection H as <-. reflexivity.
  - bind_as H id Eid. bind_as H ids' Er. unfold ret in H. injection H as <-.
    rewrite Eid. simpl. f_equal. apply IH. assumption.
Qed.

Lemma anchor_id_set_ids (anchors ids : list value) :
  anchor_id_set anchors = inr ids -> ids = anchor_ids_of anchors.
Proof.
  unfold anchor_id_set, set_of. intros H. bind_as H l El.
  destruct (forallb hashable l); [| discriminate].
  unfold ret in H. injection H as <-.
  apply mapM_ids. assumption.
Qed.

Lemma bone_is_valid_resolves (anchors : list value) (bone : value) (b : bool) :
  bone_is_valid (anchor_ids_of anchors) bone = inr b ->
  bone_resolves anchors bone = b.
Proof.
  unfold bone_is_valid, bone_resolves, refers_to, set_mem. intros H.
  bind_as H from Ef. rewrite Ef. bind_as H from_ok Efo.
  destruct (hashable from); [| discriminate].
  unfold ret in Efo. injection Efo as <-.
  destruct (existsb (same_or_eq from) (anchor_ids_of anchors)); simpl.
  - bind_as H to Et. rewrite Et.
    destruct (hashable to); [| discriminate].
    unfold ret in H. injection H as <-. reflexivity.
  - unfold ret in H. injection H as <-. reflexivity.
Qed.

Lemma bone_is_valid_str (ids : list value) (s : string) :
  bone_is_valid ids (VStr s) = inl AttributeError.
Proof. reflexivity. Qed.

(** A truthy [data['bones']] whose every element passed the test is a list. *)
Lemma bones_are_a_list (ids : list value) (bones : value) (l valid : list value) :
  truthy bones = true ->
  py_iter bones = inr l ->
  filterM (bone_is_valid ids) l = inr valid ->
  bones = VList l.
Proof.
  intros Ht Hi Hf. destruct bones; simpl in *; try discriminate.
  - destruct s as [| c s]; [discriminate |].
    injection Hi as <-. simpl in Hf. discriminate.
  - injection Hi as <-. reflexivity.
  - destruct d as [| [k x] d]; [discriminate |].
    injection Hi as <-. simpl in Hf. discriminate.
Qed.

End Facts.
End DetectAnchorFacts.

(** ** Detect: what a success result tells about the response *)

Module DetectFacts.
Import spine_analyze.
Section Facts.
Context {RT : Runtime}.

Lemma detect_sanitize_anchor_str (s : string) : sanitize_anchor (VStr s) = inl AttributeError.
Proof. reflexivity. Qed.

Lemma detect_sanitize_animation_str (s : string) :
  sanitize_animation (VStr s) = inl AttributeError.
Proof. reflexivity. Qed.

Lemma detect_sanitize_keyframe_str (s : string) :
  sanitize_keyframe (VStr s) = inl AttributeError.
Proof. reflexivity. Qed.

Lemma detect_validate_success (data r : value) :
  validate data = inr r -> is_success r ->
  exists anchors0 anchors' bone_list valid anims0 anims' image_type description,
    py_getitem data "anchors" = inr (VList anchors0) /\
    mapM sanitize_anchor anchors0 = inr anchors' /\
    py_getitem data "bones" = inr (VList bone_list) /\
    valid = filter (bone_resolves anchors') bone_list /\
    valid <> [] /\
    py_getitem data "animations" = inr (VList anims0) /\
    mapM sanitize_animation anims0 = inr anims' /\
    r = VDict [("status", VStr "success");
               ("image_type", image_type);
               ("description", description);
               ("anchors", VList anchors');
               ("bones", VList valid);
               ("animations", VList anims')].
Proof.
  unfold validate. intros H Hs.
  bind_inv H. destruct v; [early_return H Hs |].
  bind_inv H. destruct v; [early_return H Hs |].
  bind_inv H. destruct v; [early_return H Hs |].
  apply absent_or_empty_false in E. destruct E as (anchors & Ea & Ta).
  apply absent_or_empty_false in E0. destruct E0 as (bones & Eb & Tb).
  apply absent_or_empty_false in E1. destruct E1 as (anims & Em & Tm).
  bind_as H data1 E1. bind_as H valid Eb1. bind_as H data2 E2.
  unfold validate_anchors in E1.
  bind_as E1 anchors0 Ea0. bind_as E1 anchors1 Ea1.
  rewrite Ea in Ea0. injection Ea0 as <-.
  destruct (for_each_truthy_list _ _ _ detect_sanitize_anchor_str Ta Ea1)
    as (l & l' & -> & -> & Hl).
  unfold validate_bones in Eb1.
  bind_as Eb1 anchors2 Ea2. bind_as Eb1 sanitized Es. bind_as Eb1 ids Ei.
  bind_as Eb1 bones1 Eb2. bind_as Eb1 bone_list Ebl.
  rewrite (py_getitem_set_same _ _ _ _ E1) in Ea2. injection Ea2 as <-.
  simpl in Es. injection Es as <-.
  rewrite (py_getitem_set_other _ _ _ "anchors" "bones" eq_refl E1), Eb in Eb2.
  injection Eb2 as <-.
  destruct valid as [| b0 valid]; [early_return H Hs |]. simpl in H.
  bind_as H animations Ean. bind_as H animations' Ean'. bind_as H data3 E3.
  bind_as H image_type Eit. bind_as H description Ede.
  bind_as H anchors_out Eao. bind_as H bones_out Ebo. bind_as H animations_out Eano.
  unfold ret in H. injection H as <-.
  rewrite (py_getitem_set_same _ _ _ _ E3) in Eano. injection Eano as <-.
  rewrite (py_getitem_set_other _ _ _ "animations" "bones" eq_refl E3),
    (py_getitem_set_same _ _ _ _ E2) in Ebo. injection Ebo as <-.
  rewrite (py_getitem_set_other _ _ _ "animations" "anchors" eq_refl E3),
    (py_getitem_set_other _ _ _ "bones" "anchors" eq_refl E2),
    (py_getitem_set_same _ _ _ _ E1) in Eao. injection Eao as <-.
  assert (Em' : py_getitem data2 "animations" = inr anims).
  { rewrite (py_getitem_set_other _ _ _ "bones" "animations" eq_refl E2),
      (py_getitem_set_other _ _ _ "anchors" "animations" eq_refl E1). exact Em. }
  rewrite (py_get_present _ _ _ _ Em') in Ean. injection Ean as <-.
  destruct (for_each_truthy_list _ _ _ detect_sanitize_animation_str Tm Ean')
    as (la & la' & -> & -> & Hla).
  pose proof (DetectAnchorFacts.bones_are_a_list _ _ _ _ Tb Ebl Eb1) as ->.
  apply DetectAnchorFacts.anchor_id_set_ids in Ei. subst ids.
  exists l, l', bone_list, (b0 :: valid), la, la', image_type, description.
  repeat split; try assumption; try discriminate.
  apply (filterM_filter _ _ _ _ (fun a b _ => DetectAnchorFacts.bone_is_valid_resolves l' a b) Eb1).
Qed.

Lemma analyze_success (w : world) (path : string) :
  is_success (analyze_image w path) ->
  exists data,
    response w = inr (Loaded data) /\ validate data = inr (analyze_image w path).
Proof.
  unfold analyze_image. intros Hs.
  destruct (negb (has_key (api_key w))); [elim (error_not_success _ Hs) |].
  destruct (negb (image_exists w)); [elim (error_not_success _ Hs) |].
  destruct (response w) as [e | [msg | data]];
    try (elim (error_not_success _ Hs)).
  exists data. split; [reflexivity |].
  destruct (validate data) as [e | r]; [elim (error_not_success _ Hs) | reflexivity].
Qed.

Lemma detect_sanitize_keyframe_inv (kf kf' : value) (items' : list (string * value)) :
  sanitize_keyframe kf = inr kf' ->
  py_getitem kf' "anchors" = inr (VDict items') ->
  exists items,
    py_getitem kf "anchors" = inr (VDict items) /\
    mapM (fun it => t <- sanitize_transform (snd it) ;; ret (fst it, t)) items
      = inr items'.
Proof.
  unfold sanitize_keyframe. intros H Hg.
  destruct kf; simpl in H; try discriminate.
  unfold dict_mem in H. simpl. destruct (dict_get "anchors" d) as [m |] eqn:Ed.
  - simpl in H. bind_inv H. bind_inv H. unfold ret in H. injection H as <-.
    simpl in Hg. rewrite dict_get_set_same in Hg. injection Hg as <-.
    destruct m; simpl in E; try discriminate. injection E as <-. eauto.
  - simpl in H. injection H as <-. simpl in Hg. rewrite Ed in Hg. discriminate.
Qed.

Lemma detect_sanitize_animation_inv (anim anim' : value) (kfs' : list value) :
  sanitize_animation anim = inr anim' ->
  py_getitem anim' "keyframes" = inr (VList kfs') ->
  exists kfs,
    py_getitem anim "keyframes" = inr (VList kfs) /\
    mapM sanitize_keyframe kfs = inr kfs'.
Proof.
  unfold sanitize_animation. intros H Hg.
  destruct anim; simpl in H; try discriminate.
  unfold dict_mem in H. simpl. destruct (dict_get "keyframes" d) as [m |] eqn:Ed.
  - simpl in H. bind_inv H. unfold ret in H. injection H as <-.
    simpl in Hg. rewrite dict_get_set_same in Hg. injection Hg as ->.
    apply for_each_list in E. destruct E as (l & -> & Hl). eauto.
  - simpl in H. injection H as <-. simpl in Hg. rewrite Ed in Hg. discriminate.
Qed.


End Facts.
End DetectFacts.

(** ** Regenerate: what a success result tells about the response *)

Module RegenerateFacts.
Import spine_update_anims.
Section Facts.
Context {RT : Runtime}.

Lemma regen_sanitize_animation_str (ids : list value) (s : string) :
  sanitize_animation ids (VStr s) = inl AttributeError.
Proof. reflexivity. Qed.

Lemma update_success (w : world) (path : string) (aj bj : loads) :
  is_success (update_animations w path aj bj) ->
  exists anchors bones data,
    aj = Loaded anchors /\ bj = Loaded bones /\
    truthy anchors = true /\
    response w = inr (Loaded data) /\
    validate anchors data = inr (update_animations w path aj bj).
Proof.
  unfold update_animations. intros Hs.
  destruct (negb (has_key (api_key w))); [elim (error_not_success _ Hs) |].
  destruct (negb (image_exists w)); [elim (error_not_success _ Hs) |].
  destruct aj as [msg | anchors]; [elim (error_not_success _ Hs) |].
  destruct bj as [msg | bones]; [elim (error_not_success _ Hs) |].
  destruct (truthy anchors) eqn:Ht; [| elim (error_not_success _ Hs)].
  simpl in Hs |- *.
  destruct (response w) as [e | [msg | data]];
    try (elim (error_not_success _ Hs)).
  exists anchors, bones, data. repeat split; try assumption.
  destruct (validate anchors data) as [e | r];
    [elim (error_not_success _ Hs) | reflexivity].
Qed.

Lemma regen_validate_success (anchors data r : value) :
  validate anchors data = inr r -> is_success r ->
  exists originals anchor_ids anims0 anims',
    py_iter anchors = inr originals /\
    mapM (fun a => py_getitem a "id") originals = inr anchor_ids /\
    py_getitem data "animations" = inr (VList anims0) /\
    mapM (sanitize_animation anchor_ids) anims0 = inr anims' /\
    r = VDict [("status", VStr "success"); ("animations", VList anims')].
Proof.
  unfold validate. intros H Hs.
  bind_inv H. destruct v; [early_return H Hs |].
  apply absent_or_empty_false in E. destruct E as (anims & Em & Tm).
  bind_inv H. bind_inv H. bind_inv H. bind_inv H. bind_inv H.
  unfold ret in H. injection H as <-.
  rewrite Em in E2. injection E2 as <-.
  unfold set_of in E1. destruct (forallb hashable v0); [| discriminate].
  injection E1 as <-.
  destruct (for_each_truthy_list _ _ _ (regen_sanitize_animation_str v0) Tm E3)
    as (la & la' & -> & -> & Hla).
  exists v, v0, la, la'. repeat split; assumption.
Qed.

Lemma regen_sanitize_animation_inv (ids : list value) (anim anim' : value)
  (kfs' : list value) :
  sanitize_animation ids anim = inr anim' ->
  py_getitem anim' "keyframes" = inr (VList kfs') ->
  exists kfs,
    py_getitem anim "keyframes" = inr (VList kfs) /\
    mapM (sanitize_keyframe ids) kfs = inr kfs'.
Proof.
  unfold sanitize_animation. intros H Hg.
  destruct anim; simpl in H; try discriminate.
  unfold dict_mem in H. simpl. destruct (dict_get "keyframes" d) as [m |] eqn:Ed.
  - simpl in H. bind_inv H. unfold ret in H. injection H as <-.
    simpl in Hg. rewrite dict_get_set_same in Hg. injection Hg as ->.
    apply for_each_list in E. destruct E as (l & -> & Hl). eauto.
  - simpl in H. injection H as <-. simpl in Hg. rewrite Ed in Hg. discriminate.
Qed.

Lemma regen_sanitize_keyframe_inv (ids : list value) (kf kf' : value) :
  sanitize_keyframe ids kf = inr kf' ->
  exists valid,
    foldM (keep_valid ids) [] (mapping_of kf) = inr valid /\
    py_getitem kf' "anchors" = inr (VDict valid).
Proof.
  unfold sanitize_keyframe, mapping_of. intros H.
  bind_inv H. bind_inv H. bind_inv H.
  rewrite E. destruct v; simpl in E0; try discriminate. injection E0 as <-.
  exists v1. split; [assumption |].
  apply (py_getitem_set_same _ _ _ _ H).
Qed.

Lemma set_mem_str (k : string) (ids : list value) :
  set_mem (VStr k) ids = inr (existsb (py_eq (VStr k)) ids).
Proof. reflexivity. Qed.

(** Every entry the loop keeps comes from an entry of the mapping with a
    known anchor id, through [sanitize_transform]. *)
Lemma keep_valid_entries (ids : list value) (items : list (string * value)) :
  forall acc valid,
    foldM (keep_valid ids) acc items = inr valid ->
    forall k t, In (k, t) valid ->
      In (k, t) acc \/
      exists t0, In (k, t0) items /\ set_mem (VStr k) ids = inr true /\
                 sanitize_transform t0 = inr t.
Proof.
  induction items as [| [k0 t0] r IH]; simpl; intros acc valid H k t Hin.
  - injection H as <-. auto.
  - bind_inv H. unfold keep_valid in E. simpl fst in E. simpl snd in E.
    rewrite set_mem_str in E.
    destruct (existsb (py_eq (VStr k0)) ids) eqn:Ek; simpl in E.
    + bind_inv E. unfold ret in E. injection E as <-.
      destruct (IH _ _ H k t Hin) as [Hacc | (t1 & Hi & Hm & Hs)].
      * apply dict_set_In in Hacc. destruct Hacc as [Heq | Hacc]; [| auto].
        injection Heq as -> ->. right. exists t0.
        rewrite set_mem_str, Ek. auto.
      * right. exists t1. auto.
    + injection E as <-.
      destruct (IH _ _ H k t Hin) as [Hacc | (t1 & Hi & Hm & Hs)]; [auto |].
      right. exists t1. auto.
Qed.


End Facts.
End RegenerateFacts.

(** ** Refine: the loop as a list of rounds *)

Module RefineFacts.
Import spine_refine.
Section Facts.
Context {RT : Runtime}.

Local Open Scope float_scope.

Lemma refine_success (w : world) (path : string) (aj : loads) :
  is_success (refine_anchors w path aj) ->
  exists anchors data,
    aj = Loaded anchors /\ truthy anchors = true /\
    response w = inr (Loaded data) /\
    merge anchors data = inr (refine_anchors w path aj).
Proof.
  unfold refine_anchors. intros Hs.
  destruct (negb (has_key (api_key w))); [elim (error_not_success _ Hs) |].
  destruct (negb (image_exists w)); [elim (error_not_success _ Hs) |].
  destruct aj as [msg | anchors]; [elim (error_not_success _ Hs) |].
  destruct (truthy anchors) eqn:Ht; [| elim (error_not_success _ Hs)].
  simpl in Hs |- *.
  destruct (response w) as [e | [msg | data]];
    try (elim (error_not_success _ Hs)).
  exists anchors, data. repeat split; try assumption.
  destruct (merge anchors data) as [e | r];
    [elim (error_not_success _ Hs) | reflexivity].
Qed.

Lemma foldM_rounds (cmap : list (value * value)) (l : list value) :
  forall st0 st,
    foldM (merge_step cmap) st0 l = inr st ->
    exists rounds,
      mapM (round_of cmap) l = inr rounds /\
      st = fold_left record_round rounds st0.
Proof.
  induction l as [| a r IH]; simpl; intros st0 st H.
  - injection H as <-. exists []. split; reflexivity.
  - bind_as H st1 E1. unfold merge_step in E1. bind_as E1 rd Er.
    unfold ret in E1. injection E1 as <-.
    destruct (IH _ _ H) as (rounds & Hm & ->).
    exists (rd :: rounds). rewrite Er, Hm. split; reflexivity.
Qed.

Lemma fold_record_anchors (rounds : list round) :
  forall st,
    result_anchors (fold_left record_round rounds st)
    = (result_anchors st ++ map appended rounds)%list.
Proof.
  induction rounds as [| r rs IH]; simpl; intros st.
  - rewrite app_nil_r. reflexivity.
  - rewrite IH. simpl. rewrite <- app_assoc. reflexivity.
Qed.

Lemma fold_record_total (rounds : list round) :
  forall st,
    total_movement (fold_left record_round rounds st)
    = fold_left add (movements rounds) (total_movement st).
Proof.
  induction rounds as [| r rs IH]; simpl; intros st.
  - reflexivity.
  - rewrite IH. unfold movements. simpl. rewrite fold_left_app.
    destruct (moved r); reflexivity.
Qed.

Lemma fold_record_count (rounds : list round) :
  forall st,
    corrected_count (fold_left record_round rounds st)
    = (corrected_count st + Z.of_nat (List.length (filter counted rounds)))%Z.
Proof.
  induction rounds as [| r rs IH]; simpl; intros st.
  - lia.
  - rewrite IH. simpl. destruct (counted r); simpl List.length; lia.
Qed.

(** The dict comprehension of line 150, read through [map_lookup]. *)
Lemma build_corrected_map_lookup (aid : value) (l : list value) :
  forall m0 m,
    foldM (fun m a =>
             k <- py_getitem a "id" ;;
             if hashable k then ret ((k, a) :: m) else raise TypeError) m0 l
    = inr m ->
    map_lookup aid m
    = fold_left (fun found c => if has_id aid c then Some c else found)
                l (map_lookup aid m0).
Proof.
  induction l as [| a r IH]; simpl; intros m0 m H.
  - injection H as <-. reflexivity.
  - bind_as H m1 E1. bind_as E1 k Ek.
    destruct (hashable k); [| discriminate].
    unfold ret in E1. injection E1 as <-.
    rewrite (IH _ _ H). simpl. unfold has_id. rewrite Ek.
    destruct (same_or_eq aid k); reflexivity.
Qed.

(** Every value of the comprehension is a dict with an ["id"]: truthy. *)
Lemma build_corrected_map_truthy (l : list value) :
  forall m0 m,
    foldM (fun m a =>
             k <- py_getitem a "id" ;;
             if hashable k then ret ((k, a) :: m) else raise TypeError) m0 l
    = inr m ->
    (forall k c, In (k, c) m0 -> truthy c = true) ->
    forall k c, In (k, c) m -> truthy c = true.
Proof.
  induction l as [| a r IH]; simpl; intros m0 m H H0.
  - injection H as <-. assumption.
  - bind_as H m1 E1. bind_as E1 k Ek.
    destruct (hashable k); [| discriminate].
    unfold ret in E1. injection E1 as <-.
    apply (IH _ _ H). intros k' c' [Heq | Hin]; [| eauto].
    injection Heq as <- <-.
    destruct a; simpl in Ek; try discriminate.
    destruct d; [discriminate | reflexivity].
Qed.

Lemma map_lookup_In (aid c : value) (m : list (value * value)) :
  map_lookup aid m = Some c -> exists k, In (k, c) m.
Proof.
  induction m as [| [k a] r IH]; simpl; [discriminate |].
  destruct (same_or_eq aid k).
  - intros H. injection H as <-. eauto.
  - intros H. destruct (IH H) as (k' & Hk). eauto.
Qed.

Lemma build_corrected_map_str (s : string) (r : list value) :
  build_corrected_map (VStr s :: r) = inl TypeError.
Proof. reflexivity. Qed.

Lemma round_of_str (cmap : list (value * value)) (s : string) :
  round_of cmap (VStr s) = inl TypeError.
Proof. reflexivity. Qed.

(** A truthy object whose iteration the loops survive is a list. *)
Lemma iter_truthy_list (v : value) (l : list value) :
  truthy v = true -> py_iter v = inr l ->
  (forall s r, l <> VStr s :: r) ->
  v = VList l.
Proof.
  intros Ht Hi Hl. destruct v; simpl in *; try discriminate.
  - destruct s as [| c s]; [discriminate |].
    injection Hi as <-. elim (Hl _ _ eq_refl).
  - injection Hi as <-. reflexivity.
  - destruct d as [| [k x] d]; [discriminate |].
    injection Hi as <-. elim (Hl _ _ eq_refl).
Qed.

(** What a success result of the merge tells. *)
Lemma merge_success (anchors data r : value) :
  truthy anchors = true ->
  merge anchors data = inr r -> is_success r ->
  exists originals corrections cmap rounds,
    anchors = VList originals /\
    py_getitem data "anchors" = inr (VList corrections) /\
    reads cmap corrections /\
    mapM (round_of cmap) originals = inr rounds /\
    r = VDict [("status", VStr "success");
               ("anchors", VList (map appended rounds));
               ("corrected_count",
                VInt (Z.of_nat (List.length (filter counted rounds))));
               ("total_movement",
                VFloat (py_round6 (fold_left add (movements rounds) 0)))].
Proof.
  unfold merge. intros Ht H Hs.
  bind_as H no_anchors Ena. destruct no_anchors; [early_return H Hs |].
  apply absent_or_empty_false in Ena. destruct Ena as (ca & Eca & Tca).
  bind_as H ca' Eca'. rewrite Eca in Eca'. injection Eca' as <-.
  bind_as H clist Ecl. bind_as H cmap Ecm.
  bind_as H originals Eo. bind_as H st Est.
  unfold ret in H. injection H as <-.
  destruct (foldM_rounds _ _ _ _ Est) as (rounds & Hm & ->).
  assert (Hcl : ca = VList clist).
  { apply iter_truthy_list; try assumption.
    intros s r ->. rewrite build_corrected_map_str in Ecm. discriminate. }
  assert (Hol : anchors = VList originals).
  { apply iter_truthy_list; try assumption.
    intros s r ->. simpl in Hm. discriminate. }
  subst ca anchors.
  exists originals, clist, cmap, rounds.
  split; [reflexivity |]. split; [assumption |].
  split; [split |].
  { intros aid Hh. unfold corrected_map_get. rewrite Hh.
    unfold build_corrected_map in Ecm.
    rewrite (build_corrected_map_lookup aid _ _ _ Ecm). reflexivity. }
  { intros aid c Hl. unfold build_corrected_map in Ecm.
    pose proof (build_corrected_map_lookup aid _ _ _ Ecm) as Hlk.
    simpl in Hlk. unfold lookup_correction in Hl. rewrite <- Hlk in Hl.
    destruct (map_lookup_In _ _ _ Hl) as (k & Hin).
    apply (build_corrected_map_truthy _ _ _ Ecm (fun _ _ F => match F with end) k c Hin). }
  split; [assumption |].
  rewrite fold_record_anchors, fold_record_total, fold_record_count.
  reflexivity.
Qed.

Lemma corrected_map_get_hashable (cmap : list (value * value)) (aid : value)
  (found : option value) :
  corrected_map_get cmap aid = inr found -> hashable aid = true.
Proof.
  unfold corrected_map_get. destruct (hashable aid); [reflexivity | discriminate].
Qed.

(** A round on an anchor the response does not hold. *)
Lemma round_of_kept (cmap : list (value * value)) (corrections : list value)
  (orig : value) (r : round) :
  reads cmap corrections ->
  round_of cmap orig = inr r ->
  correction_for corrections orig = None ->
  exists aid ox oy,
    py_getitem orig "id" = inr aid /\
    py_getitem orig "x" = inr ox /\
    py_getitem orig "y" = inr oy /\
    r = {| appended :=
             VDict [("id", aid); ("x", ox); ("y", oy); ("corrected", VBool false)];
           moved := None;
           counted := false |}.
Proof.
  intros [Hget Htruthy] H Hc. unfold round_of in H.
  bind_as H aid Eid. bind_as H found Ef.
  unfold correction_for in Hc. rewrite Eid in Hc.
  rewrite (Hget aid (corrected_map_get_hashable _ _ _ Ef)), Hc in Ef.
  injection Ef as <-.
  unfold merge_kept in H. bind_as H ox Ex. bind_as H oy Ey.
  unfold ret in H. injection H as <-.
  exists aid, ox, oy. repeat split; assumption.
Qed.

(** A round on an anchor the response holds. *)
Lemma round_of_corrected (cmap : list (value * value)) (corrections : list value)
  (orig c : value) (r : round) :
  reads cmap corrections ->
  round_of cmap orig = inr r ->
  correction_for corrections orig = Some c ->
  exists aid new_x new_y dist flag_out,
    py_getitem orig "id" = inr aid /\
    new_coordinate c orig "x" = inr new_x /\
    new_coordinate c orig "y" = inr new_y /\
    displacement new_x new_y orig = inr dist /\
    py_get c "corrected" (VBool (0.005 <? dist)) = inr flag_out /\
    r = {| appended :=
             VDict [("id", aid); ("x", VFloat new_x); ("y", VFloat new_y);
                    ("corrected", flag_out)];
           moved := Some dist;
           counted := model_flag c || (0.005 <? dist) |}.
Proof.
  intros [Hget Htruthy] H Hc. unfold round_of in H.
  bind_as H aid Eid. bind_as H found Ef.
  unfold correction_for in Hc. rewrite Eid in Hc.
  rewrite (Hget aid (corrected_map_get_hashable _ _ _ Ef)), Hc in Ef.
  injection Ef as <-. rewrite (Htruthy _ _ Hc) in H.
  unfold merge_corrected in H.
  bind_as H new_x Ex. bind_as H new_y Ey. bind_as H dist Ed.
  bind_as H flag Efl. bind_as H flag_out Efo.
  unfold ret in H. injection H as <-.
  exists aid, new_x, new_y, dist, flag_out.
  unfold model_flag. rewrite Efl. repeat split; assumption.
Qed.

Lemma new_coordinate_range (c orig : value) (axis : string) (n : float) :
  new_coordinate c orig axis = inr n -> in_range 0 1 n.
Proof.
  unfold new_coordinate. intros H.
  bind_as H o Eo. bind_as H v Ev. bind_as H f Ef.
  unfold ret in H. injection H as <-. apply clamp_unit_range.
Qed.

(** A correction without the coordinate takes the original's. *)
Lemma new_coordinate_missing (c orig : value) (axis : string) (n : float) :
  py_in axis c = inr false ->
  new_coordinate c orig axis = inr n ->
  exists o f,
    py_getitem orig axis = inr o /\ py_float o = inr f /\ n = clamp_unit f.
Proof.
  unfold new_coordinate. intros Hin H.
  bind_as H o Eo. bind_as H v Ev. bind_as H f Ef.
  unfold ret in H. injection H as <-.
  exists o, f. split; [assumption |]. split; [| reflexivity].
  destruct c; simpl in Hin, Ev; try discriminate.
  unfold dict_mem in Hin. destruct (dict_get axis d); [discriminate |].
  unfold ret in Ev. injection Ev as <-. assumption.
Qed.

End Facts.
End RefineFacts.

(** * The specification's claims *)

Section Invariants.

Context {RT : Runtime}.

(** C4. In a success result of Detect or of Regenerate, every transform of
    every keyframe of every animation carries a [translateX] and a
    [translateY] that are floats inside the closed interval [-0.1, 0.1]. *)
Theorem translations_within_bounds
  (w : world) (path : string) (anchors_json bones_json : loads)
  (result t : value) :
  result = spine_analyze.analyze_image w path \/
  result = spine_update_anims.update_animations w path anchors_json bones_json ->
  is_success result ->
  transform_of result t ->
  translate_clamped t.
Proof.
  intros Hop Hs (anims & anim & kfs & kf & items & k & Ha & Hanim & Hk & Hkf & Hi & Ht).
  destruct Hop as [-> | ->].
  - destruct (DetectFacts.analyze_success w path Hs) as (data & _ & Hv).
    destruct (DetectFacts.detect_validate_success _ _ Hv Hs)
      as (a0 & a' & bl & valid & an0 & an' & it & de
          & _ & _ & _ & _ & _ & _ & Hm & Hr).
    rewrite Hr in Ha. simpl in Ha. injection Ha as <-.
    destruct (mapM_In _ _ _ _ Hm Hanim) as (anim0 & _ & Hsa).
    destruct (DetectFacts.detect_sanitize_animation_inv _ _ _ Hsa Hk)
      as (kfs0 & _ & Hmk).
    destruct (mapM_In _ _ _ _ Hmk Hkf) as (kf0 & _ & Hsk).
    destruct (DetectFacts.detect_sanitize_keyframe_inv _ _ _ Hsk Hi)
      as (items0 & _ & Hmi).
    destruct (mapM_In _ _ _ _ Hmi Ht) as ([k0 t0] & _ & Hst).
    simpl in Hst. bind_inv Hst. unfold ret in Hst. injection Hst as _ <-.
    apply (sanitize_transform_clamped _ _ E).
  - destruct (RegenerateFacts.update_success w path _ _ Hs)
      as (anchors & bones & data & _ & _ & _ & _ & Hv).
    destruct (RegenerateFacts.regen_validate_success _ _ _ Hv Hs)
      as (originals & ids & an0 & an' & _ & _ & _ & Hm & Hr).
    rewrite Hr in Ha. simpl in Ha. injection Ha as <-.
    destruct (mapM_In _ _ _ _ Hm Hanim) as (anim0 & _ & Hsa).
    destruct (RegenerateFacts.regen_sanitize_animation_inv _ _ _ _ Hsa Hk)
      as (kfs0 & _ & Hmk).
    destruct (mapM_In _ _ _ _ Hmk Hkf) as (kf0 & _ & Hsk).
    destruct (RegenerateFacts.regen_sanitize_keyframe_inv _ _ _ Hsk)
      as (valid & Hf & Hg).
    rewrite Hg in Hi. injection Hi as <-.
    destruct (RegenerateFacts.keep_valid_entries _ _ _ _ Hf k t Ht)
      as [[] | (t0 & _ & _ & Hst)].
    apply (sanitize_transform_clamped _ _ Hst).
Qed.

End Invariants.

Lemma translations_within_bounds_witness :
  let result :=
    @spine_analyze.analyze_image example_runtime (responding example_analysis) "img.png" in
  is_success result /\
  transform_of result example_head_transform /\
  translate_clamped example_head_transform.
Proof.
  assert (Hs : is_success
            (@spine_analyze.analyze_image example_runtime
               (responding example_analysis) "img.png")) by reflexivity.
  assert (Ht : transform_of
            (@spine_analyze.analyze_image example_runtime
               (responding example_analysis) "img.png") example_head_transform).
  { unfold transform_of.
    eexists _, _, _, _, _, "head".
    split; [vm_compute; reflexivity |].
    split; [left; reflexivity |].
    split; [vm_compute; reflexivity |].
    split; [left; reflexivity |].
    split; [vm_compute; reflexivity |].
    left; reflexivity. }
  split; [exact Hs |]. split; [exact Ht |].
  apply (@translations_within_bounds example_runtime
           (responding example_analysis) "img.png" (Loaded VNone) (Loaded VNone)
           _ _ (or_introl eq_refl) Hs Ht).
Defined.

(** ** Refine: the merge *)

Section Merge.

Context {RT : Runtime}.

Import spine_refine RefineFacts.

Local Open Scope float_scope.

(** The right operand of the subtraction of line 162, as a number. *)
Lemma py_float_sub_number (x : float) (v : value) (d : float) :
  py_float_sub x v = inr d -> exists f, number v = inr f /\ d = x - f.
Proof.
  destruct v; simpl; try discriminate; intros H.
  - bind_as H f Ef. unfold ret in H. injection H as <-. eauto.
  - bind_as H f Ef. unfold ret in H. injection H as <-. eauto.
  - unfold ret in H. injection H as <-. eauto.
Qed.

(** Line 162 computes the Euclidean distance from the original anchor to
    the anchor lines 166-171 build. *)
Lemma displacement_is_euclidean (aid flag orig : value) (new_x new_y dist : float) :
  displacement new_x new_y orig = inr dist ->
  displacement_of orig
    (VDict [("id", aid); ("x", VFloat new_x); ("y", VFloat new_y);
            ("corrected", flag)])
  = inr dist.
Proof.
  unfold displacement. intros H.
  bind_as H ox Ex. bind_as H dx Edx. bind_as H dx2 Edx2.
  bind_as H oy Ey. bind_as H dy Edy. bind_as H dy2 Edy2.
  destruct (py_float_sub_number _ _ _ Edx) as (fx & Hfx & ->).
  destruct (py_float_sub_number _ _ _ Edy) as (fy & Hfy & ->).
  unfold displacement_of, position. rewrite Ex, Ey. cbn [bind].
  rewrite Hfx, Hfy.
  cbn [bind ret py_getitem dict_get String.eqb Ascii.eqb Bool.eqb number].
  unfold euclidean. cbn [fst snd]. rewrite Edx2. cbn [bind]. rewrite Edy2.
  cbn [bind]. exact H.
Qed.

Lemma rounds_displacements (cmap : list (value * value))
  (corrections originals : list value) (rounds : list round) :
  reads cmap corrections ->
  mapM (round_of cmap) originals = inr rounds ->
  movements rounds
  = displacements corrections (combine originals (map appended rounds)).
Proof.
  intros Hr. revert rounds.
  induction originals as [| orig os IH]; simpl; intros rounds H.
  - injection H as <-. reflexivity.
  - bind_as H r Er. bind_as H rs Ers. unfold ret in H. injection H as <-.
    unfold movements, displacements in *. simpl. rewrite (IH _ Ers). f_equal.
    destruct (correction_for corrections orig) as [c |] eqn:Ec.
    + destruct (round_of_corrected _ _ _ _ _ Hr Er Ec)
        as (aid & nx & ny & d & fo & _ & _ & _ & Hd & _ & ->).
      cbn [moved appended].
      rewrite (displacement_is_euclidean aid fo orig nx ny d Hd). reflexivity.
    + destruct (round_of_kept _ _ _ _ Hr Er Ec)
        as (aid & ox & oy & _ & _ & _ & ->).
      reflexivity.
Qed.

Lemma rounds_merged (cmap : list (value * value))
  (corrections originals : list value) (rounds : list round) :
  reads cmap corrections ->
  mapM (round_of cmap) originals = inr rounds ->
  Forall2 (merged corrections) originals (map appended rounds).
Proof.
  intros Hr H. apply mapM_Forall2 in H.
  induction H as [| orig r os rs Hor _ IH]; simpl; constructor; [| assumption].
  unfold merged.
  destruct (correction_for corrections orig) as [c |] eqn:Ec.
  - destruct (round_of_corrected _ _ _ _ _ Hr Hor Ec)
      as (aid & nx & ny & d & fo & Hid & _ & _ & Hd & _ & ->).
    exists aid. split; [assumption |]. split; [reflexivity |].
    split; [discriminate |].
    intros _. exists d. apply (displacement_is_euclidean aid fo orig nx ny d Hd).
  - destruct (round_of_kept _ _ _ _ Hr Hor Ec)
      as (aid & ox & oy & Hid & Hx & Hy & ->).
    exists aid. split; [assumption |]. split; [reflexivity |].
    split; [| congruence].
    intros _. exists ox, oy. repeat split; assumption.
Qed.

Local Close Scope float_scope.

(** The integer [round_half_even] picks is the nearest one, the even one of
    two that are equally near. *)
Lemma round_half_even_nearest (num den : Z) :
  0 < den ->
  Z.abs (2 * num - 2 * round_half_even num den * den) <= den /\
  (Z.abs (2 * num - 2 * round_half_even num den * den) = den ->
   Z.even (round_half_even num den) = true).
Proof.
  intros Hd. unfold round_half_even.
  pose proof (Z.div_mod num den ltac:(lia)) as Hdm.
  pose proof (Z.mod_pos_bound num den Hd) as Hb.
  set (q := num / den) in *. set (r := num mod den) in *.
  assert (Hq : 2 * num - 2 * q * den = 2 * r) by (rewrite Hdm; ring).
  assert (Hq1 : 2 * num - 2 * (q + 1) * den = 2 * r - 2 * den)
    by (rewrite Hdm; ring).
  destruct (Z.compare_spec (2 * r) den) as [He | Hl | Hg].
  - destruct (Z.even q) eqn:Eq.
    + rewrite Hq. split; [lia | intros _; exact Eq].
    + rewrite Hq1. split; [lia |]. intros _.
      replace (q + 1) with (Z.succ q) by lia.
      rewrite Z.even_succ, <- Z.negb_even, Eq. reflexivity.
  - rewrite Hq. split; lia.
  - rewrite Hq1. split; lia.
Qed.

(** [round(x, 6)] rounds to six decimals. *)
Lemma py_round6_rounded (x : float) : rounded_to_six x (py_round6 x).
Proof.
  unfold rounded_to_six, py_round6.
  destruct (Prim2SF x) as [s | s | | s m e]; try reflexivity.
  eexists. split; [| reflexivity].
  apply round_half_even_nearest. apply Z.pow_pos_nonneg; lia.
Qed.

(** C3. A success result of Refine lists one output anchor per input anchor,
    with the input's ids in the input's order; an input anchor without a
    correction in the response (none of the response's anchors has its id,
    as a dict compares keys) keeps its coordinates and is marked not
    corrected; and [total_movement] is the sum, in list order from [0.0],
    of the Euclidean distances from each input anchor that has a correction
    to its output anchor, rounded to six decimals. *)
Theorem merge_is_total_and_ordered
  (w : world) (path : string) (anchors_json : loads) :
  is_success (refine_anchors w path anchors_json) ->
  merge_outcome w anchors_json (refine_anchors w path anchors_json).
Proof.
  intros Hs.
  destruct (refine_success _ _ _ Hs) as (anchors & data & -> & Ht & Hw & Hm).
  destruct (merge_success _ _ _ Ht Hm Hs)
    as (originals & corrections & cmap & rounds & -> & Hd & Hr & Hrounds & Hres).
  exists data, originals, corrections, (map appended rounds),
    (py_round6 (fold_left add (movements rounds) 0%float)).
  rewrite Hres. simpl.
  rewrite <- (rounds_displacements _ _ _ _ Hr Hrounds).
  repeat split; try assumption.
  - apply (rounds_merged _ _ _ _ Hr Hrounds).
  - apply py_round6_rounded.
Qed.

End Merge.

(** ** Refine: the scenario of the specification *)

(** In the scenario with a second, unmentioned anchor the one displacement
    is that of [a], and its sum rounds to [0.02]. *)
Lemma merge_is_total_and_ordered_witness :
  let result :=
    @spine_refine.refine_anchors example_runtime
      (responding scenario_response) "img.png" (Loaded scenario_two_anchors) in
  is_success result /\
  @merge_outcome example_runtime
    (responding scenario_response) (Loaded scenario_two_anchors) result /\
  @euclidean example_runtime (0.10, 0.10)%float (0.12, 0.10)%float
  = inr 0.01999999999999999%float /\
  py_getitem result "total_movement" = inr (VFloat 0.02).
Proof.
  split; [reflexivity |].
  split; [| split; vm_compute; reflexivity].
  apply (@merge_is_total_and_ordered example_runtime
           (responding scenario_response) "img.png" (Loaded scenario_two_anchors)).
  reflexivity.
Defined.

(** C1. On the scenario of the specification (model flag false, displacement
    0.02) the loop increments [corrected_count], as the claim says, but the
    output anchor carries the model's own flag: line 170 falls back on
    [dist > 0.005] only when the response has no ["corrected"] key, while the
    count of line 164 takes the flag or the threshold. *)
Theorem scenario_flag_false_but_counted :
  @spine_refine.refine_anchors example_runtime
    (responding scenario_response) "img.png" (Loaded scenario_anchors)
  = VDict [("status", VStr "success");
           ("anchors",
            VList [VDict [("id", VStr "a"); ("x", VFloat 0.12);
                          ("y", VFloat 0.10); ("corrected", VBool false)]]);
           ("corrected_count", VInt 1);
           ("total_movement", VFloat 0.02)].
Proof. vm_compute. reflexivity. Qed.

(** ** Refine: running the merge on its own output *)

Section Rerun.

Context {RT : Runtime}.

Import spine_refine RefineFacts.

Local Open Scope float_scope.












End Rerun.



(** ** Anchor coordinates *)

Section Coordinates.

Context {RT : Runtime}.

Import RefineFacts.

Lemma rounds_in_unit_square (cmap : list (value * value))
  (corrections originals : list value) (rounds : list spine_refine.round) :
  reads cmap corrections ->
  mapM (spine_refine.round_of cmap) originals = inr rounds ->
  Forall2 (fun orig out =>
             (correction_for corrections orig <> None -> in_unit_square out) /\
             (correction_for corrections orig = None -> same_position orig out))
          originals (map spine_refine.appended rounds).
Proof.
  intros Hr H. apply mapM_Forall2 in H.
  induction H as [| orig r os rs Hor _ IH]; simpl; constructor; [| assumption].
  destruct (correction_for corrections orig) as [c |] eqn:Ec.
  - split; [intros _ | discriminate].
    destruct (round_of_corrected _ _ _ _ _ Hr Hor Ec)
      as (aid & nx & ny & d & fo & _ & Hx & Hy & _ & _ & ->).
    exists nx, ny. simpl.
    repeat split; eapply new_coordinate_range; eassumption.
  - split; [congruence | intros _].
    destruct (round_of_kept _ _ _ _ Hr Hor Ec)
      as (aid & ox & oy & _ & Hx & Hy & ->).
    split; simpl; [rewrite Hx | rewrite Hy]; reflexivity.
Qed.

(** C5, as the code has it. Every anchor of a success result of Detect has
    [x] and [y] inside [0, 1], and so has every anchor of a success result
    of Refine for which the response holds a correction; an anchor of
    Refine without a correction has the coordinates of the input anchor, as
    given. *)
Theorem sanitized_coordinates_in_unit_square
  (w : world) (path : string) (anchors_json : loads) :
  (is_success (spine_analyze.analyze_image w path) ->
   exists anchors,
     py_getitem (spine_analyze.analyze_image w path) "anchors"
     = inr (VList anchors) /\
     Forall in_unit_square anchors) /\
  (is_success (spine_refine.refine_anchors w path anchors_json) ->
   corrected_in_unit_square w anchors_json
     (spine_refine.refine_anchors w path anchors_json)).
Proof.
  split; intros Hs.
  - destruct (DetectFacts.analyze_success w path Hs) as (data & _ & Hv).
    destruct (DetectFacts.detect_validate_success _ _ Hv Hs)
      as (a0 & a' & bl & valid & an0 & an' & it & de
          & _ & Ha & _ & _ & _ & _ & _ & Hr).
    exists a'. rewrite Hr. split; [reflexivity |].
    apply Forall_forall. intros a Hin.
    destruct (mapM_In _ _ _ _ Ha Hin) as (a1 & _ & Hsa).
    destruct (DetectAnchorFacts.sanitize_anchor_inv _ _ Hsa)
      as (d & fx & fy & _ & _ & _ & Hx & Hy).
    exists (clamp_unit fx), (clamp_unit fy).
    repeat split; try assumption; apply clamp_unit_range.
  - destruct (refine_success _ _ _ Hs) as (anchors & data & -> & Ht & Hw & Hm).
    destruct (merge_success _ _ _ Ht Hm Hs)
      as (originals & corrections & cmap & rounds & -> & Hd & Hr & Hrounds & Hres).
    exists data, originals, corrections, (map spine_refine.appended rounds).
    rewrite Hres. repeat split; try assumption.
    apply (rounds_in_unit_square _ _ _ _ Hr Hrounds).
Qed.

End Coordinates.

(** Refine returns the anchor [b] at [x = 1.5]. *)
Lemma refine_keeps_off_image_anchor :
  is_success (@spine_refine.refine_anchors example_runtime
                (responding scenario_response) "img.png" (Loaded off_image_anchors)) /\
  (exists out_a,
     py_getitem (@spine_refine.refine_anchors example_runtime
                   (responding scenario_response) "img.png"
                   (Loaded off_image_anchors)) "anchors"
     = inr (VList [out_a; off_image_anchor_out])) /\
  ~ in_unit_square off_image_anchor_out.
Proof.
  split; [reflexivity |]. split.
  - eexists. vm_compute. reflexivity.
  - intros (fx & fy & Hx & _ & [_ Hle] & _).
    simpl in Hx. injection Hx as <-. vm_compute in Hle. discriminate.
Qed.

Lemma sanitized_coordinates_in_unit_square_witness :
  (exists anchors,
     py_getitem (@spine_analyze.analyze_image example_runtime
                   (responding example_analysis) "img.png") "anchors"
     = inr (VList anchors) /\
     Forall in_unit_square anchors) /\
  corrected_in_unit_square
    (responding scenario_response) (Loaded off_image_anchors)
    (@spine_refine.refine_anchors example_runtime
       (responding scenario_response) "img.png" (Loaded off_image_anchors)).
Proof.
  split.
  - apply (proj1 (@sanitized_coordinates_in_unit_square example_runtime
                    (responding example_analysis) "img.png" (Loaded VNone))).
    reflexivity.
  - apply (proj2 (@sanitized_coordinates_in_unit_square example_runtime
                    (responding scenario_response) "img.png"
                    (Loaded off_image_anchors))).
    reflexivity.
Defined.

(** ** Missing coordinates *)

Section Defaults.

Context {RT : Runtime}.

Import RefineFacts.

Lemma sanitize_anchor_centered (a a' : value) :
  spine_analyze.sanitize_anchor a = inr a' -> centered_when_missing a a'.
Proof.
  intros H axis Hax Hin.
  destruct (DetectAnchorFacts.sanitize_anchor_inv _ _ H)
    as (d & fx & fy & -> & Hfx & Hfy & Hx & Hy).
  simpl in Hin. unfold dict_mem in Hin.
  unfold coordinate_or_center in Hfx, Hfy.
  destruct Hax as [-> | ->].
  - destruct (dict_get "x" d); [discriminate |].
    simpl in Hfx. injection Hfx as <-. exact Hx.
  - destruct (dict_get "y" d); [discriminate |].
    simpl in Hfy. injection Hfy as <-. exact Hy.
Qed.

Lemma rounds_original_when_missing (cmap : list (value * value))
  (corrections originals : list value) (rounds : list spine_refine.round) :
  reads cmap corrections ->
  mapM (spine_refine.round_of cmap) originals = inr rounds ->
  Forall2 (original_when_missing corrections) originals
          (map spine_refine.appended rounds).
Proof.
  intros Hr H. apply mapM_Forall2 in H.
  induction H as [| orig r os rs Hor _ IH]; simpl; constructor; [| assumption].
  intros c axis Hc Hax Hin.
  destruct (round_of_corrected _ _ _ _ _ Hr Hor Hc)
    as (aid & nx & ny & d & fo & _ & Hx & Hy & _ & _ & ->).
  destruct Hax as [-> | ->].
  - destruct (new_coordinate_missing _ _ _ _ Hin Hx) as (o & f & Ho & Hf & ->).
    exists o, f. repeat split; assumption.
  - destruct (new_coordinate_missing _ _ _ _ Hin Hy) as (o & f & Ho & Hf & ->).
    exists o, f. repeat split; assumption.
Qed.

(** C6, as the code has it. In a success result of Detect an anchor whose
    [x] or [y] is missing from the response has that coordinate at [0.5];
    in a success result of Refine a correction whose [x] or [y] is missing
    leaves that coordinate at the original anchor's value, clamped into
    [0, 1]. *)
Theorem missing_coordinate_defaults
  (w : world) (path : string) (anchors_json : loads) :
  (is_success (spine_analyze.analyze_image w path) ->
   detect_defaults w (spine_analyze.analyze_image w path)) /\
  (is_success (spine_refine.refine_anchors w path anchors_json) ->
   refine_defaults w anchors_json
     (spine_refine.refine_anchors w path anchors_json)).
Proof.
  split; intros Hs.
  - destruct (DetectFacts.analyze_success w path Hs) as (data & Hw & Hv).
    destruct (DetectFacts.detect_validate_success _ _ Hv Hs)
      as (a0 & a' & bl & valid & an0 & an' & it & de
          & Ha0 & Ha & _ & _ & _ & _ & _ & Hr).
    exists data, a0, a'. rewrite Hr. repeat split; try assumption.
    apply mapM_Forall2 in Ha.
    eapply Forall2_impl; [| exact Ha].
    intros a b Hab. apply sanitize_anchor_centered. exact Hab.
  - destruct (refine_success _ _ _ Hs) as (anchors & data & -> & Ht & Hw & Hm).
    destruct (merge_success _ _ _ Ht Hm Hs)
      as (originals & corrections & cmap & rounds & -> & Hd & Hr & Hrounds & Hres).
    exists data, originals, corrections, (map spine_refine.appended rounds).
    rewrite Hres. repeat split; try assumption.
    apply (rounds_original_when_missing _ _ _ _ Hr Hrounds).
Qed.

End Defaults.

(** Refine leaves the anchor at (0.2, 0.3): the missing coordinates are not
    read as 0.5. *)
Lemma refine_missing_coordinate_is_original :
  @spine_refine.refine_anchors example_runtime
    (responding bare_response) "img.png" (Loaded bare_anchors)
  = VDict [("status", VStr "success");
           ("anchors",
            VList [VDict [("id", VStr "a"); ("x", VFloat 0.2); ("y", VFloat 0.3);
                          ("corrected", VBool false)]]);
           ("corrected_count", VInt 0);
           ("total_movement", VFloat 0)] /\
  PrimFloat.eqb 0.2 0.5 = false /\ PrimFloat.eqb 0.3 0.5 = false.
Proof.
  split; [vm_compute; reflexivity |]. split; reflexivity.
Qed.

Lemma missing_coordinate_defaults_witness :
  detect_defaults (responding example_analysis)
    (@spine_analyze.analyze_image example_runtime
       (responding example_analysis) "img.png") /\
  @refine_defaults example_runtime (responding bare_response) (Loaded bare_anchors)
    (@spine_refine.refine_anchors example_runtime
       (responding bare_response) "img.png" (Loaded bare_anchors)).
Proof.
  split.
  - apply (proj1 (@missing_coordinate_defaults example_runtime
                    (responding example_analysis) "img.png" (Loaded VNone))).
    reflexivity.
  - apply (proj2 (@missing_coordinate_defaults example_runtime
                    (responding bare_response) "img.png" (Loaded bare_anchors))).
    reflexivity.
Defined.

(** ** Bones *)

Section Bones.

Context {RT : Runtime}.

Import DetectAnchorFacts.



End Bones.


(** A bone between two NaN ids is kept: the set of line 152 holds the one
    object the response's NaNs were decoded to, and line 155 finds it. *)
Example nan_bone_is_kept :
  py_getitem (@spine_analyze.analyze_image example_runtime
                (responding nan_analysis) "img.png") "bones"
  = inr (VList [VDict [("id", VStr "loop"); ("from", VFloat nan);
                       ("to", VFloat nan)]]).
Proof. vm_compute. reflexivity. Qed.

(** ** Keyframe entries for unknown anchors *)

Section Dangling.

Context {RT : Runtime}.

Import DetectAnchorFacts RegenerateFacts.








End Dangling.


(** The two operations on the same keyframe: Regenerate drops the entry of
    ["tail"], Detect returns it. *)
Example tail_entry_dropped_by_regenerate_kept_by_detect :
  first_keyframe_keys
    (@spine_update_anims.update_animations example_runtime
       (responding example_regeneration) "img.png"
       (Loaded supplied_anchors) (Loaded example_bones))
  = inr ["head"] /\
  first_keyframe_keys
    (@spine_analyze.analyze_image example_runtime
       (responding example_analysis) "img.png")
  = inr ["head"; "tail"].
Proof. split; vm_compute; reflexivity. Qed.

(** ** The pixel heuristic *)

Section Pixels.

Local Open Scope float_scope.

(** C2, as the code has it. When the heuristic returns, both components
    have been divided by 500 if at least one of them exceeds 1.0 in absolute
    value, and neither has been touched otherwise. *)
Theorem pixel_heuristic_divides_both (tx ty tx' ty' : value) :
  pixel_heuristic tx ty = inr (tx', ty') -> both_or_neither tx ty tx' ty'.
Proof.
  unfold pixel_heuristic, both_or_neither, exceeds_one. intros H.
  bind_as H ax Eax. bind_as H bx Ebx. rewrite Eax. simpl. rewrite Ebx.
  bind_as H pixels Ep.
  destruct bx; simpl.
  - unfold ret in Ep. injection Ep as <-.
    bind_as H fx Efx. bind_as H fy Efy. unfold ret in H. injection H as <- <-.
    exists fx, fy. repeat split; assumption.
  - bind_as Ep ay Eay. rewrite Eay. simpl. rewrite Ep.
    destruct pixels.
    + bind_as H fx Efx. bind_as H fy Efy. unfold ret in H. injection H as <- <-.
      exists fx, fy. repeat split; assumption.
    + unfold ret in H. injection H as <- <-. split; reflexivity.
Qed.

End Pixels.

(** [tx = 120], [ty = 0.05]: the small component is divided as well, and is
    no longer 0.05. *)
Lemma small_component_divided_too :
  exceeds_one (VFloat 0.05) = false /\
  pixel_heuristic (VInt 120) (VFloat 0.05)
  = inr (VFloat 0.24, VFloat 0.0001) /\
  PrimFloat.eqb 0.0001 0.05 = false.
Proof. repeat split; vm_compute; reflexivity. Qed.

Lemma pixel_heuristic_divides_both_witness :
  both_or_neither (VInt 120) (VFloat 0.05) (VFloat 0.24) (VFloat 0.0001).
Proof.
  apply pixel_heuristic_divides_both.
  vm_compute. reflexivity.
Defined.

(** The transform of the specification's example after the whole body:
    [120 / 500 = 0.24] is clamped to [0.1]. *)
Example pixel_transform_clamped :
  @sanitize_transform example_runtime
    (VDict [("translateX", VInt 120); ("translateY", VFloat 0.05)])
  = inr (VDict [("translateX", VFloat 0.1); ("translateY", VFloat 0.0001)]).
Proof. vm_compute. reflexivity. Qed.

(** ** Error results and exit codes *)

Section ExitCodes.

Context {RT : Runtime}.

Lemma well_formed_exit (result : value) :
  well_formed_result result -> exit_matches_status (result, exit_code result).
Proof.
  unfold exit_matches_status, exit_code, is_error. simpl.
  intros [(m & ->) | Hs].
  - simpl. unfold is_success. simpl.
    repeat split; intros; try discriminate; try reflexivity; congruence.
  - unfold status_is_error. rewrite (py_get_present _ _ _ _ Hs). simpl.
    unfold is_success in *. rewrite Hs.
    repeat split; intros; try discriminate; try reflexivity; congruence.
Qed.

(** Closes the cases where an operation returns one of its error results. *)
Ltac by_error := left; eexists; reflexivity.

Lemma detect_validate_shape (data r : value) :
  spine_analyze.validate data = inr r -> well_formed_result r.
Proof.
  unfold spine_analyze.validate. intros H.
  bind_as H b1 E1. destruct b1; [unfold ret in H; injection H as <-; by_error |].
  bind_as H b2 E2. destruct b2; [unfold ret in H; injection H as <-; by_error |].
  bind_as H b3 E3. destruct b3; [unfold ret in H; injection H as <-; by_error |].
  bind_as H data1 Ed1. bind_as H valid Ev. bind_as H data2 Ed2.
  destruct (negb (truthy (VList valid)));
    [unfold ret in H; injection H as <-; by_error |].
  bind_as H a Ea. bind_as H a' Ea'. bind_as H d3 Ed3.
  bind_as H it Eit. bind_as H de Ede. bind_as H ao Eao.
  bind_as H bo Ebo. bind_as H ano Eano.
  unfold ret in H. injection H as <-. right. reflexivity.
Qed.

Lemma refine_merge_shape (anchors data r : value) :
  spine_refine.merge anchors data = inr r -> well_formed_result r.
Proof.
  unfold spine_refine.merge. intros H.
  bind_as H b1 E1. destruct b1; [unfold ret in H; injection H as <-; by_error |].
  bind_as H ca Eca. bind_as H cl Ecl. bind_as H cm Ecm.
  bind_as H os Eos. bind_as H st Est.
  unfold ret in H. injection H as <-. right. reflexivity.
Qed.

Lemma regen_validate_shape (anchors data r : value) :
  spine_update_anims.validate anchors data = inr r -> well_formed_result r.
Proof.
  unfold spine_update_anims.validate. intros H.
  bind_as H b1 E1. destruct b1; [unfold ret in H; injection H as <-; by_error |].
  bind_as H os Eos. bind_as H ids Eids. bind_as H aids Eaids.
  bind_as H an Ean. bind_as H an' Ean'.
  unfold ret in H. injection H as <-. right. reflexivity.
Qed.

Lemma analyze_image_shape (w : world) (path : string) :
  well_formed_result (spine_analyze.analyze_image w path).
Proof.
  unfold spine_analyze.analyze_image, parse_error.
  destruct (negb (has_key (api_key w))); [by_error |].
  destruct (negb (image_exists w)); [by_error |].
  destruct (response w) as [e | [msg | data]]; try by_error.
  destruct (spine_analyze.validate data) as [e | r] eqn:E; [by_error |].
  apply (detect_validate_shape _ _ E).
Qed.

Lemma refine_anchors_shape (w : world) (path : string) (aj : loads) :
  well_formed_result (spine_refine.refine_anchors w path aj).
Proof.
  unfold spine_refine.refine_anchors, parse_error.
  destruct (negb (has_key (api_key w))); [by_error |].
  destruct (negb (image_exists w)); [by_error |].
  destruct aj as [msg | anchors]; [by_error |].
  destruct (negb (truthy anchors)); [by_error |].
  destruct (response w) as [e | [msg | data]]; try by_error.
  destruct (spine_refine.merge anchors data) as [e | r] eqn:E; [by_error |].
  apply (refine_merge_shape _ _ _ E).
Qed.

Lemma update_animations_shape (w : world) (path : string) (aj bj : loads) :
  well_formed_result (spine_update_anims.update_animations w path aj bj).
Proof.
  unfold spine_update_anims.update_animations, parse_error.
  destruct (negb (has_key (api_key w))); [by_error |].
  destruct (negb (image_exists w)); [by_error |].
  destruct aj as [msg | anchors]; [by_error |].
  destruct bj as [msg | bones]; [by_error |].
  destruct (negb (truthy anchors)); [by_error |].
  destruct (response w) as [e | [msg | data]]; try by_error.
  destruct (spine_update_anims.validate anchors data) as [e | r] eqn:E;
    [by_error |].
  apply (regen_validate_shape _ _ _ E).
Qed.

(** C8, as the code has it. For Detect, a response that holds non-empty
    [anchors] and [bones] but no [animations] key, or an empty one, yields
    exactly the error result "AI did not generate any animations"; and for
    each of the three operations the exit status is non-zero exactly when
    the printed result's status is ["error"] (and zero exactly when it is
    ["success"]). *)
Theorem missing_animations_and_exit_codes :
  (forall w path data,
     has_key (api_key w) = true -> image_exists w = true ->
     response w = inr (Loaded data) ->
     absent_or_empty data "anchors" = inr false ->
     absent_or_empty data "bones" = inr false ->
     absent_or_empty data "animations" = inr true ->
     spine_analyze.analyze_image w path
     = error_result "AI did not generate any animations") /\
  (forall w image anchors bones,
     exit_matches_status (spine_analyze.main w image) /\
     exit_matches_status (spine_refine.main w image anchors) /\
     exit_matches_status (spine_update_anims.main w image anchors bones)).
Proof.
  split.
  - intros w path data Hk Hi Hw Ha Hb Hm.
    unfold spine_analyze.analyze_image. rewrite Hk, Hi, Hw. simpl.
    unfold spine_analyze.validate. rewrite Ha, Hb, Hm. reflexivity.
  - intros w image anchors bones.
    unfold spine_analyze.main, spine_refine.main, spine_update_anims.main.
    repeat split; apply well_formed_exit;
      auto using analyze_image_shape, refine_anchors_shape,
        update_animations_shape.
Qed.

End ExitCodes.

(** The empty object lacks ["animations"], and Detect answers about the
    anchors. *)
Lemma empty_response_reports_anchors :
  py_in "animations" (VDict []) = inr false /\
  @spine_analyze.analyze_image example_runtime (responding (VDict [])) "img.png"
  = error_result "AI did not detect any anchor points" /\
  error_result "AI did not detect any anchor points"
  <> error_result "AI did not generate any animations".
Proof.
  split; [reflexivity |]. split; [reflexivity |]. discriminate.
Qed.

Lemma missing_animations_and_exit_codes_witness :
  @spine_analyze.analyze_image example_runtime
    (responding analysis_without_animations) "img.png"
  = error_result "AI did not generate any animations" /\
  exit_matches_status
    (@spine_analyze.main example_runtime
       (responding analysis_without_animations) "img.png").
Proof.
  split.
  - apply (proj1 (@missing_animations_and_exit_codes example_runtime)
             (responding analysis_without_animations) "img.png"
             analysis_without_animations);
      reflexivity.
  - apply (proj2 (@missing_animations_and_exit_codes example_runtime)
             (responding analysis_without_animations) "img.png"
             (Loaded VNone) (Loaded VNone)).
Defined.

(** * Further properties of the three tools *)

(** ** Loops, dicts and floats *)

Lemma mapM_fixpoint {A} (f : A -> M A) (l l' : list A) :
  (forall a b, In a l -> f a = inr b -> f b = inr b) ->
  mapM f l = inr l' -> mapM f l' = inr l'.
Proof.
  revert l'. induction l as [| a r IH]; simpl; intros l' Hf H.
  - injection H as <-. reflexivity.
  - bind_as H b Eb. bind_as H bs Ebs. unfold ret in H. injection H as <-.
    simpl. rewrite (Hf a b (or_introl eq_refl) Eb). simpl.
    rewrite (IH bs); [reflexivity | | assumption].
    intros a' b' Hin. apply Hf. right. assumption.
Qed.

Lemma mapM_length {A B} (f : A -> M B) (l : list A) (l' : list B) :
  mapM f l = inr l' -> List.length l' = List.length l.
Proof.
  revert l'. induction l as [| a r IH]; simpl; intros l' H.
  - injection H as <-. reflexivity.
  - bind_as H b Eb. bind_as H bs Ebs. unfold ret in H. injection H as <-.
    simpl. f_equal. auto.
Qed.

Lemma for_each_fixpoint (body : value -> M value) (v v' : value) :
  (forall a b, body a = inr b -> body b = inr b) ->
  for_each body v = inr v' -> for_each body v' = inr v'.
Proof.
  intros Hf H. destruct v; simpl in H; try discriminate.
  - bind_as H ys Eys. unfold ret in H. injection H as <-.
    simpl. rewrite Eys. reflexivity.
  - bind_as H l' El. unfold ret in H. injection H as <-.
    simpl. rewrite (mapM_fixpoint body l l'); [reflexivity | | assumption].
    intros a b _. apply Hf.
  - bind_as H ys Eys. unfold ret in H. injection H as <-.
    simpl. rewrite Eys. reflexivity.
Qed.

(** Storing the value a key already holds changes nothing. *)
Lemma dict_set_same_value k v d : dict_get k d = Some v -> dict_set k v d = d.
Proof.
  induction d as [| [k' v'] r IH]; simpl.
  - discriminate.
  - destruct (String.eqb k k') eqn:E.
    + apply String.eqb_eq in E. subst. intros H. injection H as <-. reflexivity.
    + intros H. rewrite IH; auto.
Qed.

(** A new key goes last. *)
Lemma dict_set_absent k v d : dict_get k d = None -> dict_set k v d = (d ++ [(k, v)])%list.
Proof.
  induction d as [| [k' v'] r IH]; simpl.
  - reflexivity.
  - destruct (String.eqb k k'); [discriminate |].
    intros H. rewrite IH; auto.
Qed.

Local Open Scope float_scope.

(** The double clamp is idempotent. *)
Lemma clamp_fixpoint (lo hi f : float) :
  (lo <? hi) = true -> (lo <? lo) = false -> (hi <? hi) = false ->
  py_max lo (py_min hi (py_max lo (py_min hi f))) = py_max lo (py_min hi f).
Proof.
  intros Hlh Hll Hhh. unfold py_max, py_min.
  destruct (f <? hi) eqn:E1.
  - destruct (lo <? f) eqn:E2.
    + rewrite E1, E2. reflexivity.
    + rewrite Hlh, Hll. reflexivity.
  - rewrite Hlh, Hhh, Hlh. reflexivity.
Qed.

Lemma clamp_unit_fixpoint (f : float) : clamp_unit (clamp_unit f) = clamp_unit f.
Proof. apply clamp_fixpoint; reflexivity. Qed.

Lemma clamp_translate_fixpoint (f : float) :
  clamp_translate (clamp_translate f) = clamp_translate f.
Proof. apply clamp_fixpoint; reflexivity. Qed.

(** The kernel's view of a float literal. *)
Ltac spec_of c :=
  let v := eval vm_compute in (Prim2SF c) in
  change (Prim2SF c) with v in *.

Lemma finite_below_exponent (m m1 m2 : positive) (e e1 e2 : Z) :
  (e2 < e1)%Z ->
  SFleb (S754_finite false m e) (S754_finite false m2 e2) = true ->
  SFltb (S754_finite false m1 e1) (S754_finite false m e) = false.
Proof.
  intros He. unfold SFleb, SFltb, SFcompare.
  destruct (Z.compare_spec e e2); destruct (Z.compare_spec e1 e);
    try lia; try reflexivity; try discriminate.
Qed.

Lemma finite_above_exponent (m m1 m2 : positive) (e e1 e2 : Z) :
  (e2 < e1)%Z ->
  SFleb (S754_finite true m2 e2) (S754_finite true m e) = true ->
  SFltb (S754_finite false m1 e1) (S754_finite false m e) = false.
Proof.
  intros He. unfold SFleb, SFltb, SFcompare.
  destruct (Z.compare_spec e2 e); destruct (Z.compare_spec e1 e);
    try lia; try reflexivity; try discriminate.
Qed.

(** A float between -0.1 and 0.1 is not above 1.0 in absolute value. *)
Lemma small_is_not_pixels (f : float) :
  in_range (-0.1) 0.1 f -> (1.0 <? abs f) = false.
Proof.
  unfold in_range. rewrite !leb_spec, ltb_spec, abs_spec. intros [Hlo Hhi].
  spec_of 1. spec_of 0.1. spec_of (-0.1).
  destruct (Prim2SF f) as [s | s | | s m e].
  - reflexivity.
  - destruct s; [discriminate Hlo | discriminate Hhi].
  - discriminate Hlo.
  - destruct s.
    + eapply finite_above_exponent; [| exact Hlo]; lia.
    + eapply finite_below_exponent; [| exact Hhi]; lia.
Qed.

(** Inside the bounds the translation clamp returns its argument, bit for
    bit. *)
Lemma clamp_translate_inside (f : float) :
  in_range (-0.1) 0.1 f -> clamp_translate f = f.
Proof.
  intros [Hlo Hhi]. unfold clamp_translate, py_max, py_min.
  destruct (f <? 0.1) eqn:E1.
  - destruct (-0.1 <? f) eqn:E2; [reflexivity |].
    symmetry. eapply geb_not_gtb_eq; [vm_compute; reflexivity | exact Hlo | exact E2].
  - assert (Hf : f = 0.1).
    { eapply leb_not_ltb_eq; [vm_compute; reflexivity | exact Hhi | exact E1]. }
    subst f. reflexivity.
Qed.

Local Close Scope float_scope.

(** ** Transforms *)

Section TransformFixpoints.

Context {RT : Runtime}.

Lemma pixel_heuristic_small (fx fy : float) :
  in_range (-0.1) 0.1 fx -> in_range (-0.1) 0.1 fy ->
  pixel_heuristic (VFloat fx) (VFloat fy) = inr (VFloat fx, VFloat fy).
Proof.
  intros Hx Hy. unfold pixel_heuristic. simpl.
  rewrite (small_is_not_pixels fx Hx). simpl.
  rewrite (small_is_not_pixels fy Hy). reflexivity.
Qed.

(** A transform whose translations are floats inside the bounds comes back
    as it went in. *)
Lemma sanitize_transform_inside (d : list (string * value)) (fx fy : float) :
  dict_get "translateX" d = Some (VFloat fx) ->
  dict_get "translateY" d = Some (VFloat fy) ->
  in_range (-0.1) 0.1 fx -> in_range (-0.1) 0.1 fy ->
  sanitize_transform (VDict d) = inr (VDict d).
Proof.
  intros Hx Hy Rx Ry. unfold sanitize_transform. simpl.
  rewrite Hx, Hy. simpl. rewrite (pixel_heuristic_small fx fy Rx Ry). simpl.
  rewrite (clamp_translate_inside fx Rx), (clamp_translate_inside fy Ry).
  rewrite (dict_set_same_value _ _ _ Hx), (dict_set_same_value _ _ _ Hy).
  reflexivity.
Qed.

Lemma sanitize_transform_fixpoint (t t' : value) :
  sanitize_transform t = inr t' -> sanitize_transform t' = inr t'.
Proof.
  intros H. destruct (sanitize_transform_inv t t' H) as (d & fx & fy & -> & ->).
  apply (sanitize_transform_inside _ (clamp_translate fx) (clamp_translate fy)).
  - rewrite dict_get_set_other by reflexivity. apply dict_get_set_same.
  - apply dict_get_set_same.
  - apply clamp_translate_range.
  - apply clamp_translate_range.
Qed.

End TransformFixpoints.

(** ** Detect: the anchor loop *)

Section AnchorFacts.

Context {RT : Runtime}.

Import spine_analyze.

(** A sanitized anchor, read key by key. *)
Lemma sanitize_anchor_steps (anchor anchor' : value) :
  sanitize_anchor anchor = inr anchor' ->
  exists d d' fx fy,
    anchor = VDict d /\ anchor' = VDict d' /\
    py_float (coordinate_or_center d "x") = inr fx /\
    py_float (coordinate_or_center d "y") = inr fy /\
    dict_get "x" d' = Some (VFloat (clamp_unit fx)) /\
    dict_get "y" d' = Some (VFloat (clamp_unit fy)) /\
    dict_get "type" d'
    = Some (match dict_get "type" d with Some v => v | None => VStr "joint" end) /\
    match dict_get "id" d with
    | Some v => dict_get "id" d' = Some v
    | None =>
        exists s,
          match dict_get "label" d with Some v => v | None => VStr "anchor" end
          = VStr s /\
          dict_get "id" d' = Some (VStr (replace_spaces (str_lower s)))
    end /\
    (forall k, String.eqb k "x" = false -> String.eqb k "y" = false ->
               String.eqb k "type" = false -> String.eqb k "id" = false ->
               dict_get k d' = dict_get k d).
Proof.
  unfold sanitize_anchor. intros H.
  destruct anchor; simpl in H; try discriminate.
  bind_as H x Ex0. bind_as H fx Efx.
  bind_as H y Ey0. bind_as H fy Efy.
  rewrite dict_get_set_other in Ey0 by reflexivity.
  assert (Ex : py_float (coordinate_or_center d "x") = inr fx).
  { unfold coordinate_or_center. destruct (dict_get "x" d);
      unfold ret in Ex0; injection Ex0 as <-; assumption. }
  assert (Ey : py_float (coordinate_or_center d "y") = inr fy).
  { unfold coordinate_or_center. destruct (dict_get "y" d);
      unfold ret in Ey0; injection Ey0 as <-; assumption. }
  clear Ex0 Efx Ey0 Efy.
  set (d2 := dict_set "y" (VFloat (clamp_unit fy))
               (dict_set "x" (VFloat (clamp_unit fx)) d)) in *.
  assert (Hx2 : dict_get "x" d2 = Some (VFloat (clamp_unit fx))).
  { unfold d2. rewrite dict_get_set_other by reflexivity. apply dict_get_set_same. }
  assert (Hy2 : dict_get "y" d2 = Some (VFloat (clamp_unit fy))).
  { unfold d2. apply dict_get_set_same. }
  assert (Ho2 : forall k, String.eqb k "x" = false -> String.eqb k "y" = false ->
                          dict_get k d2 = dict_get k d).
  { intros k Hkx Hky. unfold d2. rewrite !dict_get_set_other by assumption.
    reflexivity. }
  clearbody d2.
  bind_as H a3 E3.
  set (ty := match dict_get "type" d with Some v => v | None => VStr "joint" end).
  assert (H3 : exists d3, a3 = VDict d3 /\
                 dict_get "type" d3 = Some ty /\
                 (forall k, String.eqb k "type" = false ->
                            dict_get k d3 = dict_get k d2)).
  { unfold dict_mem in E3. pose proof (Ho2 "type" eq_refl eq_refl) as Ht.
    unfold ty. destruct (dict_get "type" d2) as [v |] eqn:Et;
      unfold ret in E3; injection E3 as <-; rewrite <- Ht.
    - exists d2. repeat split; auto.
    - exists (dict_set "type" (VStr "joint") d2). split; [reflexivity |].
      split; [apply dict_get_set_same |].
      intros k Hk. apply dict_get_set_other. assumption. }
  destruct H3 as (d3 & -> & Ht3 & Ho3). clear E3.
  bind_as H has_id Eid. simpl in Eid. unfold ret in Eid. injection Eid as <-.
  assert (Hid3 : dict_get "id" d3 = dict_get "id" d).
  { rewrite Ho3 by reflexivity. apply Ho2; reflexivity. }
  assert (Hl3 : dict_get "label" d3 = dict_get "label" d).
  { rewrite Ho3 by reflexivity. apply Ho2; reflexivity. }
  unfold dict_mem in H. rewrite Hid3 in H.
  destruct (dict_get "id" d) as [v |] eqn:Eid.
  - unfold ret in H. injection H as <-.
    exists d, d3, fx, fy. rewrite Eid. repeat split; try assumption.
    + rewrite Ho3 by reflexivity. assumption.
    + rewrite Ho3 by reflexivity. assumption.
    + intros k Hkx Hky Hkt Hki. rewrite Ho3 by assumption. apply Ho2; assumption.
  - bind_as H label El. simpl in El. rewrite Hl3 in El.
    destruct label; try discriminate.
    simpl in H. unfold ret in H. injection H as <-.
    exists d, (dict_set "id" (VStr (replace_spaces (str_lower s))) d3), fx, fy.
    rewrite Eid. repeat split; try assumption.
    + rewrite dict_get_set_other by reflexivity.
      rewrite Ho3 by reflexivity. assumption.
    + rewrite dict_get_set_other by reflexivity.
      rewrite Ho3 by reflexivity. assumption.
    + rewrite dict_get_set_other by reflexivity. assumption.
    + exists s. split; [| apply dict_get_set_same].
      destruct (dict_get "label" d); unfold ret in El; injection El as ->;
        reflexivity.
    + intros k Hkx Hky Hkt Hki. rewrite dict_get_set_other by assumption.
      rewrite Ho3 by assumption. apply Ho2; assumption.
Qed.

(** An anchor that holds clamped floats, a type and an id passes the loop
    unchanged. *)
Lemma sanitize_anchor_inside (d : list (string * value)) (fx fy : float) :
  dict_get "x" d = Some (VFloat (clamp_unit fx)) ->
  dict_get "y" d = Some (VFloat (clamp_unit fy)) ->
  dict_mem "type" d = true -> dict_mem "id" d = true ->
  sanitize_anchor (VDict d) = inr (VDict d).
Proof.
  intros Hx Hy Ht Hi. unfold sanitize_anchor. simpl.
  rewrite Hx. simpl. rewrite clamp_unit_fixpoint.
  rewrite (dict_set_same_value _ _ _ Hx).
  rewrite Hy. simpl. rewrite clamp_unit_fixpoint.
  rewrite (dict_set_same_value _ _ _ Hy).
  rewrite Ht. simpl. rewrite Hi. reflexivity.
Qed.

Lemma sanitize_anchor_fixpoint (a a' : value) :
  sanitize_anchor a = inr a' -> sanitize_anchor a' = inr a'.
Proof.
  intros H.
  destruct (sanitize_anchor_steps a a' H)
    as (d & d' & fx & fy & -> & -> & _ & _ & Hx & Hy & Ht & Hi & _).
  apply (sanitize_anchor_inside d' fx fy Hx Hy).
  - unfold dict_mem. rewrite Ht. reflexivity.
  - unfold dict_mem. destruct (dict_get "id" d).
    + rewrite Hi. reflexivity.
    + destruct Hi as (s & _ & ->). reflexivity.
Qed.

End AnchorFacts.

(** ** Detect: a success result is a fixpoint of the validation *)

Section DetectFixpoint.

Context {RT : Runtime}.

Import spine_analyze.

Lemma detect_item_fixpoint (it it' : string * value) :
  (t <- sanitize_transform (snd it) ;; ret (fst it, t)) = inr it' ->
  (t <- sanitize_transform (snd it') ;; ret (fst it', t)) = inr it'.
Proof.
  intros H. bind_as H t Et. unfold ret in H. injection H as <-. simpl.
  rewrite (sanitize_transform_fixpoint _ _ Et). reflexivity.
Qed.

Lemma detect_keyframe_fixpoint (kf kf' : value) :
  sanitize_keyframe kf = inr kf' -> sanitize_keyframe kf' = inr kf'.
Proof.
  intros H. pose proof H as H0. unfold sanitize_keyframe in H.
  destruct kf as [| | | | | | d]; simpl in H; try discriminate.
  unfold dict_mem in H.
  destruct (dict_get "anchors" d) as [mapping |] eqn:Em.
  - simpl in H. bind_as H items Ei. bind_as H items' Ei'.
    unfold ret in H. injection H as <-.
    unfold sanitize_keyframe. simpl. rewrite dict_get_set_same. simpl.
    rewrite (mapM_fixpoint _ items items'); [| | exact Ei'].
    + simpl. unfold dict_mem. rewrite dict_get_set_same.
      rewrite (dict_set_same_value _ _ _ (dict_get_set_same _ _ _)).
      reflexivity.
    + intros a b _. apply detect_item_fixpoint.
  - simpl in H. unfold ret in H. injection H as <-. exact H0.
Qed.

Lemma detect_animation_fixpoint (anim anim' : value) :
  sanitize_animation anim = inr anim' -> sanitize_animation anim' = inr anim'.
Proof.
  intros H. pose proof H as H0. unfold sanitize_animation in H.
  destruct anim as [| | | | | | d]; simpl in H; try discriminate.
  unfold dict_mem in H.
  destruct (dict_get "keyframes" d) as [kfs |] eqn:Ek.
  - simpl in H. bind_as H kfs' Ek'. unfold ret in H. injection H as <-.
    unfold sanitize_animation. simpl. rewrite dict_get_set_same. simpl.
    rewrite (for_each_fixpoint _ kfs kfs' detect_keyframe_fixpoint Ek').
    simpl. unfold dict_mem. rewrite dict_get_set_same.
    rewrite (dict_set_same_value _ _ _ (dict_get_set_same _ _ _)).
    reflexivity.
  - simpl in H. unfold ret in H. injection H as <-. exact H0.
Qed.

(** A bone that resolves passes the test of line 155 without raising. *)
Lemma bone_resolves_is_valid (anchors : list value) (bone : value) :
  bone_resolves anchors bone = true ->
  bone_is_valid (anchor_ids_of anchors) bone = inr true.
Proof.
  unfold bone_resolves, refers_to, bone_is_valid, set_mem. intros H.
  apply andb_prop in H. destruct H as [Hf Ht].
  destruct (py_get bone "from" VNone) as [e | from]; [discriminate |].
  destruct (py_get bone "to" VNone) as [e | to]; [discriminate |].
  simpl.
  assert (Hh : forall ref ids, existsb (same_or_eq ref) ids = true -> hashable ref = true).
  { intros ref ids. induction ids as [| i r IH]; simpl; [discriminate |].
    intros Hx. apply orb_prop in Hx. destruct Hx as [Hx | Hx]; [| auto].
    destruct ref; try reflexivity; destruct i; discriminate. }
  rewrite (Hh _ _ Hf). simpl. rewrite Hf. simpl.
  rewrite (Hh _ _ Ht). simpl. rewrite Ht. reflexivity.
Qed.

Lemma filterM_kept (anchors : list value) (bones : list value) :
  filterM (bone_is_valid (anchor_ids_of anchors))
          (filter (bone_resolves anchors) bones)
  = inr (filter (bone_resolves anchors) bones).
Proof.
  induction bones as [| b r IH]; simpl; [reflexivity |].
  destruct (bone_resolves anchors b) eqn:E; [| assumption].
  simpl. rewrite (bone_resolves_is_valid _ _ E). simpl. rewrite IH. reflexivity.
Qed.

(** The steps of a successful validation, with the id set of line 152. *)
Lemma detect_validate_steps (data r : value) :
  validate data = inr r -> is_success r ->
  exists anchors0 anchors' bone_list anims0 anims' image_type description,
    py_getitem data "anchors" = inr (VList anchors0) /\
    anchors0 <> [] /\
    mapM sanitize_anchor anchors0 = inr anchors' /\
    anchor_id_set anchors' = inr (anchor_ids_of anchors') /\
    py_getitem data "bones" = inr (VList bone_list) /\
    filter (bone_resolves anchors') bone_list <> [] /\
    py_getitem data "animations" = inr (VList anims0) /\
    anims0 <> [] /\
    mapM sanitize_animation anims0 = inr anims' /\
    py_get data "image_type" (VStr "unknown") = inr image_type /\
    py_get data "description" (VStr "") = inr description /\
    r = VDict [("status", VStr "success");
               ("image_type", image_type);
               ("description", description);
               ("anchors", VList anchors');
               ("bones", VList (filter (bone_resolves anchors') bone_list));
               ("animations", VList anims')].
Proof.
  unfold validate. intros H Hs.
  bind_inv H. destruct v; [early_return H Hs |].
  bind_inv H. destruct v; [early_return H Hs |].
  bind_inv H. destruct v; [early_return H Hs |].
  apply absent_or_empty_false in E. destruct E as (anchors & Ea & Ta).
  apply absent_or_empty_false in E0. destruct E0 as (bones & Eb & Tb).
  apply absent_or_empty_false in E1. destruct E1 as (anims & Em & Tm).
  bind_as H data1 E1. bind_as H valid Eb1. bind_as H data2 E2.
  unfold validate_anchors in E1.
  bind_as E1 anchors0 Ea0. bind_as E1 anchors1 Ea1.
  rewrite Ea in Ea0. injection Ea0 as <-.
  destruct (for_each_truthy_list _ _ _ DetectFacts.detect_sanitize_anchor_str Ta Ea1)
    as (l & l' & -> & -> & Hl).
  unfold validate_bones in Eb1.
  bind_as Eb1 anchors2 Ea2. bind_as Eb1 sanitized Es. bind_as Eb1 ids Ei.
  bind_as Eb1 bones1 Eb2. bind_as Eb1 bone_list Ebl.
  rewrite (py_getitem_set_same _ _ _ _ E1) in Ea2. injection Ea2 as <-.
  simpl in Es. injection Es as <-.
  rewrite (py_getitem_set_other _ _ _ "anchors" "bones" eq_refl E1), Eb in Eb2.
  injection Eb2 as <-.
  destruct valid as [| b0 valid]; [early_return H Hs |]. simpl in H.
  bind_as H animations Ean. bind_as H animations' Ean'. bind_as H data3 E3.
  bind_as H image_type Eit. bind_as H description Ede.
  bind_as H anchors_out Eao. bind_as H bones_out Ebo. bind_as H animations_out Eano.
  unfold ret in H. injection H as <-.
  rewrite (py_getitem_set_same _ _ _ _ E3) in Eano. injection Eano as <-.
  rewrite (py_getitem_set_other _ _ _ "animations" "bones" eq_refl E3),
    (py_getitem_set_same _ _ _ _ E2) in Ebo. injection Ebo as <-.
  rewrite (py_getitem_set_other _ _ _ "animations" "anchors" eq_refl E3),
    (py_getitem_set_other _ _ _ "bones" "anchors" eq_refl E2),
    (py_getitem_set_same _ _ _ _ E1) in Eao. injection Eao as <-.
  assert (Em' : py_getitem data2 "animations" = inr anims).
  { rewrite (py_getitem_set_other _ _ _ "bones" "animations" eq_refl E2),
      (py_getitem_set_other _ _ _ "anchors" "animations" eq_refl E1). exact Em. }
  rewrite (py_get_present _ _ _ _ Em') in Ean. injection Ean as <-.
  destruct (for_each_truthy_list _ _ _ DetectFacts.detect_sanitize_animation_str Tm Ean')
    as (la & la' & -> & -> & Hla).
  pose proof (DetectAnchorFacts.bones_are_a_list _ _ _ _ Tb Ebl Eb1) as ->.
  pose proof (DetectAnchorFacts.anchor_id_set_ids _ _ Ei) as ->.
  pose proof (filterM_filter _ _ _ _
                (fun a b _ => DetectAnchorFacts.bone_is_valid_resolves l' a b) Eb1)
    as Hv.
  assert (Hit : py_get data "image_type" (VStr "unknown") = inr image_type).
  { destruct data; simpl in E1; try discriminate. unfold ret in E1.
    injection E1 as <-. simpl in E2. unfold ret in E2. injection E2 as <-.
    simpl in E3. unfold ret in E3. injection E3 as <-.
    simpl in Eit. rewrite !dict_get_set_other in Eit by reflexivity. exact Eit. }
  assert (Hde : py_get data "description" (VStr "") = inr description).
  { destruct data; simpl in E1; try discriminate. unfold ret in E1.
    injection E1 as <-. simpl in E2. unfold ret in E2. injection E2 as <-.
    simpl in E3. unfold ret in E3. injection E3 as <-.
    simpl in Ede. rewrite !dict_get_set_other in Ede by reflexivity. exact Ede. }
  exists l, l', bone_list, la, la', image_type, description.
  rewrite <- Hv.
  repeat split; try assumption; try discriminate.
  - intros ->. discriminate.
  - intros ->. discriminate.
Qed.

End DetectFixpoint.

Section DetectIdempotent.

Context {RT : Runtime}.

Import spine_analyze.

Lemma truthy_list (l : list value) : l <> [] -> truthy (VList l) = true.
Proof. destruct l; [congruence | reflexivity]. Qed.

Lemma mapM_nonempty {A B} (f : A -> M B) (l : list A) (l' : list B) :
  mapM f l = inr l' -> l <> [] -> l' <> [].
Proof.
  intros H Hne ->. apply mapM_length in H. destruct l; [congruence | discriminate].
Qed.

Lemma detect_validate_fixpoint (data r : value) :
  validate data = inr r -> is_success r -> validate r = inr r.
Proof.
  intros H Hs.
  destruct (detect_validate_steps data r H Hs)
    as (anchors0 & anchors' & bone_list & anims0 & anims' & image_type & description
        & Ea & Na & Ha & Hids & Eb & Nb & Em & Nm & Hm & _ & _ & ->).
  pose proof (truthy_list _ (mapM_nonempty _ _ _ Ha Na)) as Ta.
  pose proof (truthy_list _ Nb) as Tb.
  pose proof (truthy_list _ (mapM_nonempty _ _ _ Hm Nm)) as Tm.
  set (valid := filter (bone_resolves anchors') bone_list) in *.
  set (r := VDict [("status", VStr "success"); ("image_type", image_type);
                   ("description", description); ("anchors", VList anchors');
                   ("bones", VList valid); ("animations", VList anims')]) in *.
  assert (E1 : validate_anchors r = inr r).
  { unfold validate_anchors, r.
    cbn [py_getitem dict_get String.eqb Ascii.eqb Bool.eqb bind ret for_each].
    rewrite (mapM_fixpoint sanitize_anchor anchors0 anchors'
               (fun a b _ => sanitize_anchor_fixpoint a b) Ha).
    reflexivity. }
  assert (E2 : validate_bones r = inr valid).
  { unfold validate_bones, r.
    cbn [py_getitem dict_get String.eqb Ascii.eqb Bool.eqb bind ret py_iter].
    rewrite Hids. cbn [bind]. apply filterM_kept. }
  assert (E3 : for_each sanitize_animation (VList anims') = inr (VList anims')).
  { cbn [for_each].
    rewrite (mapM_fixpoint sanitize_animation anims0 anims'
               (fun a b _ => detect_animation_fixpoint a b) Hm).
    reflexivity. }
  unfold validate, absent_or_empty.
  unfold r at 1 2 3 4 5 6.
  cbn [py_in py_getitem dict_mem dict_get String.eqb Ascii.eqb Bool.eqb bind ret].
  rewrite Ta, Tb, Tm. cbn [negb]. fold r.
  rewrite E1. cbn [bind]. rewrite E2. cbn [bind].
  rewrite Tb. cbn [negb].
  unfold r at 1.
  cbn [py_setitem py_get dict_set dict_get String.eqb Ascii.eqb Bool.eqb bind ret].
  rewrite E3. reflexivity.
Qed.

End DetectIdempotent.

(** ** Regenerate: a success result is a fixpoint of the validation *)

Section RegenerateFixpoint.

Context {RT : Runtime}.

Import spine_update_anims.

Lemma dict_get_None_In k d : dict_get k d = None <-> ~ In k (map fst d).
Proof.
  rewrite <- dict_mem_In. unfold dict_mem.
  destruct (dict_get k d); split; intros H; congruence.
Qed.

Lemma dict_set_keys_NoDup k v d : NoDup (map fst d) -> NoDup (map fst (dict_set k v d)).
Proof.
  intros Hd. destruct (dict_get k d) as [x |] eqn:E.
  - rewrite dict_set_keys_mem; [assumption |]. unfold dict_mem. rewrite E. reflexivity.
  - rewrite (dict_set_absent _ _ _ E), map_app. simpl.
    apply NoDup_app; [assumption | repeat constructor; simpl; tauto |].
    intros k' Hin [<- | []]. apply dict_get_None_In in E. contradiction.
Qed.

(** The mapping the loop builds never holds a key twice. *)
Lemma keep_valid_NoDup (ids : list value) (items : list (string * value)) :
  forall acc valid,
    foldM (keep_valid ids) acc items = inr valid ->
    NoDup (map fst acc) -> NoDup (map fst valid).
Proof.
  induction items as [| [k t] r IH]; simpl; intros acc valid H Hacc.
  - injection H as <-. assumption.
  - bind_as H acc' Ek. apply (IH acc' valid H).
    unfold keep_valid in Ek. simpl in Ek.
    destruct (existsb (same_or_eq (VStr k)) ids); simpl in Ek.
    + bind_as Ek t' Et. unfold ret in Ek. injection Ek as <-.
      apply dict_set_keys_NoDup. assumption.
    + unfold ret in Ek. injection Ek as <-. assumption.
Qed.

(** Entries with known keys and sanitized transforms, no key twice, are
    rebuilt one after the other. *)
Lemma keep_valid_rebuild (ids : list value) (l : list (string * value)) :
  forall acc,
    NoDup (map fst (acc ++ l)) ->
    (forall k t, In (k, t) l ->
       set_mem (VStr k) ids = inr true /\ sanitize_transform t = inr t) ->
    foldM (keep_valid ids) acc l = inr (acc ++ l)%list.
Proof.
  induction l as [| [k t] r IH]; simpl; intros acc Hnd Hok.
  - rewrite app_nil_r. reflexivity.
  - destruct (Hok k t (or_introl eq_refl)) as [Hk Ht].
    unfold keep_valid at 1. simpl fst. simpl snd. rewrite Hk. simpl.
    rewrite Ht. simpl.
    assert (Ha : dict_get k acc = None).
    { apply dict_get_None_In. intros Hin. rewrite map_app in Hnd. simpl in Hnd.
      apply NoDup_remove_2 in Hnd. apply Hnd. apply in_or_app. left. assumption. }
    rewrite (dict_set_absent _ _ _ Ha).
    rewrite (IH (acc ++ [(k, t)])%list).
    + rewrite <- app_assoc. reflexivity.
    + rewrite <- app_assoc. assumption.
    + intros k' t' Hin. apply Hok. right. assumption.
Qed.

Lemma regen_keyframe_fixpoint (ids : list value) (kf kf' : value) :
  sanitize_keyframe ids kf = inr kf' -> sanitize_keyframe ids kf' = inr kf'.
Proof.
  unfold sanitize_keyframe at 1. intros H.
  bind_as H mapping Em. bind_as H items Ei. bind_as H valid Ev.
  destruct kf as [| | | | | | d]; simpl in Em; try discriminate.
  simpl in H. unfold ret in H. injection H as <-.
  unfold sanitize_keyframe. simpl. rewrite dict_get_set_same. simpl.
  rewrite (keep_valid_rebuild ids valid []).
  - simpl. rewrite (dict_set_same_value _ _ _ (dict_get_set_same _ _ _)).
    reflexivity.
  - simpl. apply (keep_valid_NoDup ids items [] valid Ev). constructor.
  - intros k t Hin.
    destruct (RegenerateFacts.keep_valid_entries ids items [] valid Ev k t Hin)
      as [[] | (t0 & _ & Hk & Ht)].
    split; [assumption |]. apply (sanitize_transform_fixpoint _ _ Ht).
Qed.

Lemma regen_animation_fixpoint (ids : list value) (anim anim' : value) :
  sanitize_animation ids anim = inr anim' -> sanitize_animation ids anim' = inr anim'.
Proof.
  intros H. pose proof H as H0. unfold sanitize_animation in H.
  destruct anim as [| | | | | | d]; simpl in H; try discriminate.
  unfold dict_mem in H.
  destruct (dict_get "keyframes" d) as [kfs |] eqn:Ek.
  - simpl in H. bind_as H kfs' Ek'. unfold ret in H. injection H as <-.
    unfold sanitize_animation. simpl. rewrite dict_get_set_same. simpl.
    rewrite (for_each_fixpoint _ kfs kfs' (regen_keyframe_fixpoint ids) Ek').
    simpl. unfold dict_mem. rewrite dict_get_set_same.
    rewrite (dict_set_same_value _ _ _ (dict_get_set_same _ _ _)).
    reflexivity.
  - simpl in H. unfold ret in H. injection H as <-. exact H0.
Qed.

Lemma regen_validate_fixpoint (anchors data r : value) :
  validate anchors data = inr r -> is_success r -> validate anchors r = inr r.
Proof.
  unfold validate at 1. intros H Hs.
  bind_as H no_anims Eno. destruct no_anims; [early_return H Hs |].
  apply absent_or_empty_false in Eno. destruct Eno as (anims & Em & Tm).
  bind_as H originals Eo. bind_as H ids Ei. bind_as H anchor_ids Es.
  bind_as H animations Ea. bind_as H animations' Ef.
  unfold ret in H. injection H as <-.
  rewrite Em in Ea. injection Ea as <-.
  destruct (for_each_truthy_list _ _ _
              (RegenerateFacts.regen_sanitize_animation_str anchor_ids) Tm Ef)
    as (la & la' & -> & -> & Hla).
  assert (Tm' : truthy (VList la') = true).
  { destruct la; [discriminate |]. simpl in Hla.
    bind_as Hla b Eb. bind_as Hla bs Ebs. unfold ret in Hla. injection Hla as <-.
    reflexivity. }
  unfold validate, absent_or_empty.
  cbn [py_in py_getitem dict_mem dict_get String.eqb Ascii.eqb Bool.eqb bind ret].
  rewrite Tm'. cbn [negb]. rewrite Eo. cbn [bind]. rewrite Ei. cbn [bind].
  rewrite Es. cbn [bind for_each].
  rewrite (mapM_fixpoint (sanitize_animation anchor_ids) la la'
             (fun a b _ => regen_animation_fixpoint anchor_ids a b) Hla).
  reflexivity.
Qed.

End RegenerateFixpoint.

(** ** Feeding a result back *)

Section Fixpoints.

Context {RT : Runtime}.

(** X1. A success result of Detect is a fixpoint of Detect: when a later
    invocation receives that result as the model's response, it returns the
    same document, key for key and bit for bit. *)
Theorem detect_result_is_fixpoint (w w' : world) (path path' : string) :
  is_success (spine_analyze.analyze_image w path) ->
  has_key (api_key w') = true -> image_exists w' = true ->
  response w' = inr (Loaded (spine_analyze.analyze_image w path)) ->
  spine_analyze.analyze_image w' path' = spine_analyze.analyze_image w path.
Proof.
  intros Hs Hk Hi Hr.
  destruct (DetectFacts.analyze_success w path Hs) as (data & _ & Hv).
  unfold spine_analyze.analyze_image at 1.
  rewrite Hk, Hi, Hr. simpl.
  rewrite (detect_validate_fixpoint data _ Hv Hs). reflexivity.
Qed.

(** X2. A success result of Regenerate is a fixpoint of Regenerate for the
    same anchors: given back as the model's response, it is returned as it
    is. *)
Theorem regenerate_result_is_fixpoint (w w' : world) (path path' : string)
  (aj bj : loads) (bones' : value) :
  is_success (spine_update_anims.update_animations w path aj bj) ->
  has_key (api_key w') = true -> image_exists w' = true ->
  response w' = inr (Loaded (spine_update_anims.update_animations w path aj bj)) ->
  spine_update_anims.update_animations w' path' aj (Loaded bones')
  = spine_update_anims.update_animations w path aj bj.
Proof.
  intros Hs Hk Hi Hr.
  destruct (RegenerateFacts.update_success w path aj bj Hs)
    as (anchors & bones & data & -> & -> & Ta & _ & Hv).
  unfold spine_update_anims.update_animations at 1.
  rewrite Hk, Hi, Ta, Hr. simpl.
  rewrite (regen_validate_fixpoint anchors data _ Hv Hs). reflexivity.
Qed.

End Fixpoints.

Lemma detect_result_is_fixpoint_witness :
  let first :=
    @spine_analyze.analyze_image example_runtime (responding example_analysis) "img.png" in
  is_success first /\
  @spine_analyze.analyze_image example_runtime (responding first) "other.png" = first.
Proof.
  split; [reflexivity |].
  apply (@detect_result_is_fixpoint example_runtime
           (responding example_analysis)
           (responding (@spine_analyze.analyze_image example_runtime
                          (responding example_analysis) "img.png"))
           "img.png" "other.png");
    reflexivity.
Defined.

Lemma regenerate_result_is_fixpoint_witness :
  let first :=
    @spine_update_anims.update_animations example_runtime
      (responding example_regeneration) "img.png"
      (Loaded supplied_anchors) (Loaded example_bones) in
  is_success first /\
  @spine_update_anims.update_animations example_runtime
    (responding first) "img.png" (Loaded supplied_anchors) (Loaded example_bones)
  = first.
Proof.
  split; [reflexivity |].
  apply (@regenerate_result_is_fixpoint example_runtime
           (responding example_regeneration)
           (responding (@spine_update_anims.update_animations example_runtime
                          (responding example_regeneration) "img.png"
                          (Loaded supplied_anchors) (Loaded example_bones)))
           "img.png" "img.png" (Loaded supplied_anchors) (Loaded example_bones)
           example_bones);
    reflexivity.
Defined.

(** ** Translations that need no repair, and translations that are missing *)

Section Translations.

Context {RT : Runtime}.

Local Open Scope float_scope.

(** X3. A transform whose [translateX] and [translateY] are floats between
    -0.1 and 0.1 leaves the loop body of Detect and of Regenerate exactly as
    it entered: no rescaling, no rounding, every key in its place. *)
Theorem small_translations_pass_unchanged (d : list (string * value))
  (fx fy : float) :
  dict_get "translateX" d = Some (VFloat fx) ->
  dict_get "translateY" d = Some (VFloat fy) ->
  in_range (-0.1) 0.1 fx -> in_range (-0.1) 0.1 fy ->
  sanitize_transform (VDict d) = inr (VDict d).
Proof. apply sanitize_transform_inside. Qed.

Lemma zero_stays_zero_x (ty tx' ty' : value) :
  pixel_heuristic (VInt 0) ty = inr (tx', ty') -> py_float tx' = inr 0.
Proof.
  unfold pixel_heuristic. intros H.
  bind_as H ax Eax. simpl in Eax. unfold ret in Eax. injection Eax as <-.
  bind_as H bx Ebx. vm_compute in Ebx. injection Ebx as <-.
  bind_as H pixels Ep. destruct pixels.
  - bind_as H fx Efx. vm_compute in Efx. injection Efx as <-.
    bind_as H fy Efy. unfold ret in H. injection H as <- <-. reflexivity.
  - unfold ret in H. injection H as <- <-. vm_compute. reflexivity.
Qed.

Lemma zero_stays_zero_y (tx tx' ty' : value) :
  pixel_heuristic tx (VInt 0) = inr (tx', ty') -> py_float ty' = inr 0.
Proof.
  unfold pixel_heuristic. intros H.
  bind_as H ax Eax. bind_as H bx Ebx. bind_as H pixels Ep. destruct pixels.
  - bind_as H fx Efx. bind_as H fy Efy. vm_compute in Efy. injection Efy as <-.
    unfold ret in H. injection H as <- <-. reflexivity.
  - unfold ret in H. injection H as <- <-. vm_compute. reflexivity.
Qed.

(** X4. A transform that lacks [translateX] (or [translateY]) and passes the
    loop body comes out with that translation equal to [0.0], whatever the
    other translation was and whether the pixel rescaling fired. *)
Theorem missing_translation_becomes_zero (t t' : value) (axis : string) :
  axis = "translateX" \/ axis = "translateY" ->
  py_in axis t = inr false ->
  sanitize_transform t = inr t' ->
  py_getitem t' axis = inr (VFloat 0).
Proof.
  intros Haxis Hin H. unfold sanitize_transform in H.
  destruct t as [| | | | | | d]; simpl in H; try discriminate.
  simpl in Hin. unfold ret, dict_mem in Hin.
  destruct Haxis as [-> | ->].
  - destruct (dict_get "translateX" d); [discriminate |].
    simpl in H. bind_as H ty Ety. bind_as H p Ep. destruct p as [tx' ty'].
    bind_as H fx Efx. bind_as H fy Efy. unfold ret in H. injection H as <-.
    rewrite (zero_stays_zero_x _ _ _ Ep) in Efx. injection Efx as <-.
    simpl. rewrite dict_get_set_other by reflexivity.
    rewrite dict_get_set_same. reflexivity.
  - destruct (dict_get "translateY" d); [discriminate |].
    bind_as H tx Etx. simpl in H. bind_as H p Ep. destruct p as [tx' ty'].
    bind_as H fx Efx. bind_as H fy Efy. unfold ret in H. injection H as <-.
    rewrite (zero_stays_zero_y _ _ _ Ep) in Efy. injection Efy as <-.
    simpl. rewrite dict_get_set_same. reflexivity.
Qed.

End Translations.

Lemma small_translations_pass_unchanged_witness :
  let d := [("rotation", VInt 15); ("translateX", VFloat 0.01);
            ("translateY", VFloat (-0.02)); ("scale", VFloat 1.0)] in
  @sanitize_transform example_runtime (VDict d) = inr (VDict d).
Proof.
  apply (@small_translations_pass_unchanged example_runtime
           [("rotation", VInt 15); ("translateX", VFloat 0.01);
            ("translateY", VFloat (-0.02)); ("scale", VFloat 1.0)]
           0.01%float (-0.02)%float);
    try reflexivity; split; reflexivity.
Defined.

Lemma missing_translation_becomes_zero_witness :
  let t := VDict [("rotation", VInt 0); ("translateY", VInt 300)] in
  let t' := VDict [("rotation", VInt 0); ("translateY", VFloat 0.1);
                   ("translateX", VFloat 0)] in
  @sanitize_transform example_runtime t = inr t' /\
  py_getitem t' "translateX" = inr (VFloat 0).
Proof.
  split; [vm_compute; reflexivity |].
  apply (@missing_translation_becomes_zero example_runtime
           (VDict [("rotation", VInt 0); ("translateY", VInt 300)])
           (VDict [("rotation", VInt 0); ("translateY", VFloat 0.1);
                   ("translateX", VFloat 0)])
           "translateX").
  - left. reflexivity.
  - reflexivity.
  - vm_compute. reflexivity.
Defined.

(** ** Detect: every anchor of a success result *)

Lemma replace_spaces_no_space (s : string) : no_space (replace_spaces s).
Proof.
  unfold no_space. induction s as [| c r IH]; simpl; [tauto |].
  intros [H | H]; [| auto].
  destruct (Ascii.eqb c " ") eqn:E; [discriminate |].
  apply Ascii.eqb_neq in E. congruence.
Qed.

Section DetectAnchors.

Context {RT : Runtime}.

Import spine_analyze.

Lemma detect_anchor_loop_intro (P : value -> value -> Prop) (w : world)
  (path : string) :
  (forall a a', sanitize_anchor a = inr a' -> P a a') ->
  is_success (analyze_image w path) ->
  detect_anchor_loop P w (analyze_image w path).
Proof.
  intros HP Hs.
  destruct (DetectFacts.analyze_success w path Hs) as (data & Hr & Hv).
  destruct (detect_validate_steps data _ Hv Hs)
    as (anchors0 & anchors' & bone_list & anims0 & anims' & image_type & description
        & Ea & _ & Ha & _ & _ & _ & _ & _ & _ & _ & _ & Hres).
  exists data, anchors0, anchors'.
  split; [assumption |]. split; [assumption |].
  split; [rewrite Hres; reflexivity |].
  eapply Forall2_impl; [| apply mapM_Forall2; exact Ha].
  intros a a'. apply HP.
Qed.

Lemma sanitized_anchor_complete (a a' : value) :
  sanitize_anchor a = inr a' -> anchor_complete a'.
Proof.
  intros H.
  destruct (sanitize_anchor_steps a a' H)
    as (d & d' & fx & fy & -> & -> & _ & _ & Hx & Hy & Ht & Hi & _).
  intros k Hk. simpl. unfold ret, dict_mem.
  assert (Hid : exists v, dict_get "id" d' = Some v).
  { destruct (dict_get "id" d); [eauto |]. destruct Hi as (s & _ & Hi). eauto. }
  destruct Hid as (v & Hid).
  simpl in Hk. destruct Hk as [<- | [<- | [<- | [<- | []]]]].
  - rewrite Hx. reflexivity.
  - rewrite Hy. reflexivity.
  - rewrite Ht. reflexivity.
  - rewrite Hid. reflexivity.
Qed.

Lemma sanitized_anchor_keeps_fields (a a' : value) :
  sanitize_anchor a = inr a' ->
  keeps_but ["x"; "y"] a a' /\ adds_only ["x"; "y"; "type"; "id"] a a'.
Proof.
  intros H.
  destruct (sanitize_anchor_steps a a' H)
    as (d & d' & fx & fy & -> & -> & _ & _ & Hx & Hy & Ht & Hi & Ho).
  split.
  - intros k v Hk Hg.
    assert (Hkx : k <> "x") by (intros ->; apply Hk; simpl; tauto).
    assert (Hky : k <> "y") by (intros ->; apply Hk; simpl; tauto).
    clear Hk. simpl in *.
    destruct (dict_get k d) as [x |] eqn:Ek; [| discriminate].
    unfold ret in Hg. injection Hg as ->.
    destruct (String.eqb k "type") eqn:Ekt.
    { apply String.eqb_eq in Ekt. subst k. rewrite Ht, Ek. reflexivity. }
    destruct (String.eqb k "id") eqn:Eki.
    { apply String.eqb_eq in Eki. subst k. rewrite Ek in Hi. rewrite Hi. reflexivity. }
    rewrite Ho, Ek; try assumption; try reflexivity;
      apply String.eqb_neq; assumption.
  - intros k Hin. simpl in *. unfold ret, dict_mem in *.
    destruct (String.eqb k "x") eqn:Ekx.
    { apply String.eqb_eq in Ekx. subst. left. simpl. tauto. }
    destruct (String.eqb k "y") eqn:Eky.
    { apply String.eqb_eq in Eky. subst. left. simpl. tauto. }
    destruct (String.eqb k "type") eqn:Ekt.
    { apply String.eqb_eq in Ekt. subst. left. simpl. tauto. }
    destruct (String.eqb k "id") eqn:Eki.
    { apply String.eqb_eq in Eki. subst. left. simpl. tauto. }
    right. rewrite <- (Ho k Ekx Eky Ekt Eki). assumption.
Qed.

Lemma sanitized_anchor_defaults (a a' : value) :
  sanitize_anchor a = inr a' -> defaults_filled a a'.
Proof.
  intros H.
  destruct (sanitize_anchor_steps a a' H)
    as (d & d' & fx & fy & -> & -> & _ & _ & Hx & Hy & Ht & Hi & Ho).
  split.
  - simpl. unfold ret, dict_mem. intros Hin.
    destruct (dict_get "type" d); [discriminate |].
    rewrite Ht. reflexivity.
  - simpl. unfold ret, dict_mem. intros Hin.
    destruct (dict_get "id" d); [discriminate |].
    destruct Hi as (s & Hl & Hi). exists s.
    split; [| split].
    + destruct (dict_get "label" d); rewrite Hl; reflexivity.
    + rewrite Hi. reflexivity.
    + apply replace_spaces_no_space.
Qed.

(** X5. In a success result of Detect the anchors are those of the
    response, one for one and in order, and each of them carries the keys
    [x], [y], [type] and [id]. *)
Theorem detect_anchors_complete (w : world) (path : string) :
  is_success (analyze_image w path) ->
  detect_anchor_loop (fun _ a' => anchor_complete a') w (analyze_image w path).
Proof.
  apply detect_anchor_loop_intro. intros a a'. apply sanitized_anchor_complete.
Qed.

(** X6. Detect rewrites only the coordinates of an anchor: every other key
    the response gave (label, type, id, anything else) keeps its value, and
    the only keys that may appear are [x], [y], [type] and [id]. *)
Theorem detect_keeps_anchor_fields (w : world) (path : string) :
  is_success (analyze_image w path) ->
  detect_anchor_loop
    (fun a a' => keeps_but ["x"; "y"] a a' /\ adds_only ["x"; "y"; "type"; "id"] a a')
    w (analyze_image w path).
Proof.
  apply detect_anchor_loop_intro. intros a a'. apply sanitized_anchor_keeps_fields.
Qed.

(** X7. In a success result of Detect, an anchor the response left without
    a [type] is a ["joint"], and an anchor it left without an [id] is named
    after its label (["anchor"] when there is none), lower-cased and with
    every space replaced by an underscore. *)
Theorem detect_fills_type_and_id (w : world) (path : string) :
  is_success (analyze_image w path) ->
  detect_anchor_loop defaults_filled w (analyze_image w path).
Proof.
  apply detect_anchor_loop_intro. intros a a'. apply sanitized_anchor_defaults.
Qed.

End DetectAnchors.

Lemma detect_anchors_complete_witness :
  let result :=
    @spine_analyze.analyze_image example_runtime (responding example_analysis) "img.png" in
  is_success result /\
  detect_anchor_loop (fun _ a' => anchor_complete a') (responding example_analysis) result.
Proof.
  split; [reflexivity |].
  apply (@detect_anchors_complete example_runtime (responding example_analysis) "img.png").
  reflexivity.
Defined.

Lemma detect_keeps_anchor_fields_witness :
  let result :=
    @spine_analyze.analyze_image example_runtime (responding example_analysis) "img.png" in
  is_success result /\
  detect_anchor_loop
    (fun a a' => keeps_but ["x"; "y"] a a' /\ adds_only ["x"; "y"; "type"; "id"] a a')
    (responding example_analysis) result.
Proof.
  split; [reflexivity |].
  apply (@detect_keeps_anchor_fields example_runtime (responding example_analysis) "img.png").
  reflexivity.
Defined.

Lemma detect_fills_type_and_id_witness :
  let result :=
    @spine_analyze.analyze_image example_runtime (responding example_analysis) "img.png" in
  is_success result /\
  detect_anchor_loop (@defaults_filled example_runtime)
    (responding example_analysis) result.
Proof.
  split; [reflexivity |].
  apply (@detect_fills_type_and_id example_runtime (responding example_analysis) "img.png").
  reflexivity.
Defined.

(** ** Animations: everything but the translations is kept *)

Section AnimationFrame.

Context {RT : Runtime}.

Lemma keeps_but_refl (ks : list string) (a : value) : keeps_but ks a a.
Proof. intros k v _ H. exact H. Qed.

Lemma keeps_but_set (k0 : string) (x : value) (d : list (string * value)) :
  keeps_but [k0] (VDict d) (VDict (dict_set k0 x d)).
Proof.
  intros k v Hk Hg. simpl in *.
  rewrite dict_get_set_other; [assumption |].
  apply String.eqb_neq. intros ->. apply Hk. simpl. tauto.
Qed.

Lemma transform_kept (t t' : value) :
  sanitize_transform t = inr t' -> keeps_but ["translateX"; "translateY"] t t'.
Proof.
  intros H. destruct (sanitize_transform_inv t t' H) as (d & fx & fy & -> & ->).
  intros k v Hk Hg. simpl in *.
  rewrite !dict_get_set_other; [assumption | |];
    apply String.eqb_neq; intros ->; apply Hk; simpl; tauto.
Qed.

Lemma items_kept (items items' : list (string * value)) :
  mapM (fun it => t <- sanitize_transform (snd it) ;; ret (fst it, t)) items
  = inr items' ->
  Forall2 entry_kept items items'.
Proof.
  intros H. eapply Forall2_impl; [| apply mapM_Forall2; exact H].
  intros it it' Hit. simpl in Hit. bind_as Hit t Et. unfold ret in Hit.
  injection Hit as <-. split; [reflexivity |]. apply transform_kept. exact Et.
Qed.

Lemma detect_keyframe_kept (kf kf' : value) :
  spine_analyze.sanitize_keyframe kf = inr kf' -> keyframe_kept kf kf'.
Proof.
  unfold spine_analyze.sanitize_keyframe. intros H.
  destruct kf as [| | | | | | d]; simpl in H; try discriminate.
  unfold dict_mem in H.
  destruct (dict_get "anchors" d) as [mapping |] eqn:Em.
  - simpl in H. bind_as H items Ei. bind_as H items' Ei'.
    unfold ret in H. injection H as <-.
    split; [apply keeps_but_set |].
    intros items0 Hg. simpl in Hg. rewrite Em in Hg. unfold ret in Hg.
    injection Hg as ->. simpl in Ei. unfold ret in Ei. injection Ei as <-.
    exists items'. simpl. rewrite dict_get_set_same.
    split; [reflexivity |]. apply items_kept. exact Ei'.
  - simpl in H. unfold ret in H. injection H as <-.
    split; [apply keeps_but_refl |].
    intros items0 Hg. simpl in Hg. rewrite Em in Hg. discriminate.
Qed.

Lemma animation_kept_intro (body : value -> M value) (Q : value -> value -> Prop)
  (d : list (string * value)) (anim' : value) :
  (forall kf kf', body kf = inr kf' -> Q kf kf') ->
  (keyframes <- py_get (VDict d) "keyframes" (VList []) ;;
   keyframes' <- for_each body keyframes ;;
   if dict_mem "keyframes" d then ret (VDict (dict_set "keyframes" keyframes' d))
   else ret (VDict d)) = inr anim' ->
  animation_kept Q (VDict d) anim'.
Proof.
  intros HQ H. simpl in H. unfold dict_mem in H.
  destruct (dict_get "keyframes" d) as [kfs |] eqn:Ek.
  - simpl in H. bind_as H kfs' Ek'. unfold ret in H. injection H as <-.
    split; [apply keeps_but_set |].
    intros kfs0 Hg. simpl in Hg. rewrite Ek in Hg. unfold ret in Hg.
    injection Hg as ->.
    simpl in Ek'. bind_as Ek' l' El. unfold ret in Ek'. injection Ek' as <-.
    exists l'. simpl. rewrite dict_get_set_same. split; [reflexivity |].
    eapply Forall2_impl; [| apply mapM_Forall2; exact El].
    intros a b. apply HQ.
  - simpl in H. unfold ret in H. injection H as <-.
    split; [apply keeps_but_refl |].
    intros kfs0 Hg. simpl in Hg. rewrite Ek in Hg. discriminate.
Qed.

Lemma detect_animation_kept (anim anim' : value) :
  spine_analyze.sanitize_animation anim = inr anim' ->
  animation_kept keyframe_kept anim anim'.
Proof.
  unfold spine_analyze.sanitize_animation. intros H.
  destruct anim as [| | | | | | d]; try discriminate.
  apply (animation_kept_intro spine_analyze.sanitize_keyframe); [| exact H].
  apply detect_keyframe_kept.
Qed.

Lemma regen_keyframe_entries_kept (ids : list value) (kf kf' : value) :
  spine_update_anims.sanitize_keyframe ids kf = inr kf' -> keyframe_pruned kf kf'.
Proof.
  intros H.
  destruct (RegenerateFacts.regen_sanitize_keyframe_inv ids kf kf' H)
    as (valid & Hf & Hg).
  unfold spine_update_anims.sanitize_keyframe in H.
  bind_as H mapping Em. bind_as H items Ei. bind_as H valid0 Ev.
  destruct kf as [| | | | | | d]; simpl in Em; try discriminate.
  simpl in H. unfold ret in H. injection H as <-.
  split; [apply keeps_but_set |].
  exists valid. split; [exact Hg |].
  intros [k t'] Hin.
  destruct (RegenerateFacts.keep_valid_entries ids _ [] valid Hf k t' Hin)
    as [[] | (t0 & Hin0 & _ & Ht)].
  exists (k, t0). split; [assumption |].
  split; [reflexivity |]. apply transform_kept. exact Ht.
Qed.

Lemma regen_animation_kept (ids : list value) (anim anim' : value) :
  spine_update_anims.sanitize_animation ids anim = inr anim' ->
  animation_kept keyframe_pruned anim anim'.
Proof.
  unfold spine_update_anims.sanitize_animation. intros H.
  destruct anim as [| | | | | | d]; try discriminate.
  apply (animation_kept_intro (spine_update_anims.sanitize_keyframe ids)); [| exact H].
  apply regen_keyframe_entries_kept.
Qed.

(** X8. Detect changes nothing in an animation but the translations: name,
    description, duration and loop of each animation, time of each keyframe,
    rotation and scale of each transform keep the values of the response,
    and keyframes and mapping entries keep their order and their keys. *)
Theorem detect_keeps_all_but_translations (w : world) (path : string) :
  is_success (spine_analyze.analyze_image w path) ->
  animation_loop (animation_kept keyframe_kept) w
    (spine_analyze.analyze_image w path).
Proof.
  intros Hs.
  destruct (DetectFacts.analyze_success w path Hs) as (data & Hr & Hv).
  destruct (detect_validate_steps data _ Hv Hs)
    as (anchors0 & anchors' & bone_list & anims0 & anims' & image_type & description
        & _ & _ & _ & _ & _ & _ & Em & _ & Hm & _ & _ & Hres).
  exists data, anims0, anims'.
  split; [assumption |]. split; [assumption |].
  split; [rewrite Hres; reflexivity |].
  eapply Forall2_impl; [| apply mapM_Forall2; exact Hm].
  intros a a'. apply detect_animation_kept.
Qed.

(** X9. Regenerate changes nothing in an animation but the mappings: each
    animation and each keyframe keeps its other fields, and every entry of a
    returned mapping is an entry of the response with the same key, the same
    rotation and scale. *)
Theorem regenerate_keeps_all_but_mappings (w : world) (path : string)
  (aj bj : loads) :
  is_success (spine_update_anims.update_animations w path aj bj) ->
  animation_loop (animation_kept keyframe_pruned) w
    (spine_update_anims.update_animations w path aj bj).
Proof.
  intros Hs.
  destruct (RegenerateFacts.update_success w path aj bj Hs)
    as (anchors & bones & data & -> & -> & Ta & Hr & Hv).
  destruct (RegenerateFacts.regen_validate_success anchors data _ Hv Hs)
    as (originals & ids & anims0 & anims' & _ & _ & Em & Hm & Hres).
  exists data, anims0, anims'.
  split; [assumption |]. split; [assumption |].
  split; [rewrite Hres; reflexivity |].
  eapply Forall2_impl; [| apply mapM_Forall2; exact Hm].
  intros a a'. apply regen_animation_kept.
Qed.

End AnimationFrame.

Lemma detect_keeps_all_but_translations_witness :
  let result :=
    @spine_analyze.analyze_image example_runtime (responding example_analysis) "img.png" in
  is_success result /\
  animation_loop (animation_kept keyframe_kept) (responding example_analysis) result.
Proof.
  split; [reflexivity |].
  apply (@detect_keeps_all_but_translations example_runtime
           (responding example_analysis) "img.png").
  reflexivity.
Defined.

Lemma regenerate_keeps_all_but_mappings_witness :
  let result :=
    @spine_update_anims.update_animations example_runtime
      (responding example_regeneration) "img.png"
      (Loaded supplied_anchors) (Loaded example_bones) in
  is_success result /\
  animation_loop (animation_kept keyframe_pruned)
    (responding example_regeneration) result.
Proof.
  split; [reflexivity |].
  apply (@regenerate_keeps_all_but_mappings example_runtime
           (responding example_regeneration) "img.png"
           (Loaded supplied_anchors) (Loaded example_bones)).
  reflexivity.
Defined.

(** ** Refine: the anchors, the count and the movement *)

Section RefineResults.

Context {RT : Runtime}.

Import spine_refine.

Lemma round_of_shape (cmap : list (value * value)) (orig : value) (r : round) :
  round_of cmap orig = inr r -> refine_anchor_shape (appended r).
Proof.
  unfold round_of. intros H. bind_as H aid Eid. bind_as H found Ef.
  assert (Hk : forall r0, merge_kept aid orig = inr r0 ->
                          refine_anchor_shape (appended r0)).
  { unfold merge_kept. intros r0 Hr. bind_as Hr ox Ex. bind_as Hr oy Ey.
    unfold ret in Hr. injection Hr as <-. simpl.
    exists aid, ox, oy, (VBool false). reflexivity. }
  destruct found as [c |]; [| apply Hk; assumption].
  destruct (truthy c); [| apply Hk; assumption].
  unfold merge_corrected in H.
  bind_as H nx Enx. bind_as H ny Eny. bind_as H dist Ed.
  bind_as H flag Efl. bind_as H flag_out Efo.
  unfold ret in H. injection H as <-. simpl.
  exists aid, (VFloat nx), (VFloat ny), flag_out. reflexivity.
Qed.

(** X10. Every anchor of a success result of Refine is an object with
    exactly the keys [id], [x], [y] and [corrected], in that order: label,
    type and any other field of the input anchor are not carried over. *)
Theorem refine_anchors_have_four_keys (w : world) (path : string) (aj : loads) :
  is_success (refine_anchors w path aj) ->
  exists originals outs,
    aj = Loaded (VList originals) /\
    py_getitem (refine_anchors w path aj) "anchors" = inr (VList outs) /\
    List.length outs = List.length originals /\
    Forall refine_anchor_shape outs.
Proof.
  intros Hs.
  destruct (RefineFacts.refine_success w path aj Hs)
    as (anchors & data & -> & Ta & Hr & Hm).
  destruct (RefineFacts.merge_success anchors data _ Ta Hm Hs)
    as (originals & corrections & cmap & rounds & -> & Ec & Hreads & Hrounds & Hres).
  exists originals, (map appended rounds).
  split; [reflexivity |].
  split; [rewrite Hres; reflexivity |].
  split; [rewrite length_map; apply (mapM_length _ _ _ Hrounds) |].
  apply Forall_forall. intros out Hin. apply in_map_iff in Hin.
  destruct Hin as (r & <- & Hin).
  destruct (mapM_In _ _ _ _ Hrounds Hin) as (orig & _ & Ho).
  apply (round_of_shape cmap orig r Ho).
Qed.

Lemma counted_needs_correction (cmap : list (value * value))
  (corrections originals : list value) (rounds : list round) :
  reads cmap corrections ->
  mapM (round_of cmap) originals = inr rounds ->
  (List.length (filter counted rounds)
   <= List.length (filter (has_correction corrections) originals))%nat.
Proof.
  intros Hreads. revert rounds.
  induction originals as [| orig rest IH]; simpl; intros rounds H.
  - injection H as <-. simpl. lia.
  - bind_as H r Er. bind_as H rs Ers. unfold ret in H. injection H as <-.
    specialize (IH rs Ers). simpl. unfold has_correction at 1.
    destruct (correction_for corrections orig) as [c |] eqn:Ec.
    + destruct (counted r); simpl; lia.
    + destruct (RefineFacts.round_of_kept cmap corrections orig r Hreads Er Ec)
        as (aid & ox & oy & _ & _ & _ & ->).
      simpl. lia.
Qed.

(** X11. The [corrected_count] of a success result of Refine is an integer
    between 0 and the number of input anchors for which the response holds a
    correction (an anchor with the same id, as the dict of line 150 compares
    its keys); it never exceeds the number of input anchors. *)
Theorem corrected_count_is_bounded (w : world) (path : string) (aj : loads) :
  is_success (refine_anchors w path aj) ->
  exists data originals corrections n,
    aj = Loaded (VList originals) /\
    response w = inr (Loaded data) /\
    py_getitem data "anchors" = inr (VList corrections) /\
    py_getitem (refine_anchors w path aj) "corrected_count" = inr (VInt n) /\
    (0 <= n <= Z.of_nat (List.length (filter (has_correction corrections) originals)))%Z /\
    (n <= Z.of_nat (List.length originals))%Z.
Proof.
  intros Hs.
  destruct (RefineFacts.refine_success w path aj Hs)
    as (anchors & data & -> & Ta & Hr & Hm).
  destruct (RefineFacts.merge_success anchors data _ Ta Hm Hs)
    as (originals & corrections & cmap & rounds & -> & Ec & Hreads & Hrounds & Hres).
  exists data, originals, corrections,
    (Z.of_nat (List.length (filter counted rounds))).
  split; [reflexivity |]. split; [assumption |]. split; [assumption |].
  split; [rewrite Hres; reflexivity |].
  pose proof (counted_needs_correction cmap corrections originals rounds
                Hreads Hrounds) as Hle.
  pose proof (filter_length_le (has_correction corrections) originals) as Hle'.
  split; lia.
Qed.

Lemma rounds_kept_as_given (cmap : list (value * value))
  (corrections originals : list value) (rounds : list round) :
  reads cmap corrections ->
  mapM (round_of cmap) originals = inr rounds ->
  (forall orig, In orig originals -> correction_for corrections orig = None) ->
  Forall2 kept_as_given originals (map appended rounds) /\
  filter counted rounds = [] /\
  movements rounds = [].
Proof.
  intros Hreads. revert rounds.
  induction originals as [| orig rest IH]; simpl; intros rounds H Hnone.
  - injection H as <-. simpl. repeat split. constructor.
  - bind_as H r Er. bind_as H rs Ers. unfold ret in H. injection H as <-.
    destruct (IH rs Ers) as (Hf & Hc & Hm).
    { intros o Ho. apply Hnone. right. assumption. }
    destruct (RefineFacts.round_of_kept cmap corrections orig r Hreads Er
                (Hnone orig (or_introl eq_refl)))
      as (aid & ox & oy & Eid & Ex & Ey & ->).
    simpl. split; [| split; assumption].
    constructor; [| assumption].
    exists aid, ox, oy. repeat split; assumption.
Qed.

(** X12. When the response holds a correction for none of the input anchors
    (it names other ids only, as the dict of line 150 compares its keys), a
    success result of Refine returns every anchor at its input coordinates
    with a false flag, counts no correction and reports a movement of
    [0.0]. *)
Theorem unrelated_response_moves_nothing (w : world) (path : string)
  (originals corrections : list value) (data : value) :
  is_success (refine_anchors w path (Loaded (VList originals))) ->
  response w = inr (Loaded data) ->
  py_getitem data "anchors" = inr (VList corrections) ->
  (forall orig, In orig originals -> correction_for corrections orig = None) ->
  exists outs,
    refine_anchors w path (Loaded (VList originals))
    = VDict [("status", VStr "success");
             ("anchors", VList outs);
             ("corrected_count", VInt 0);
             ("total_movement", VFloat 0)] /\
    Forall2 kept_as_given originals outs.
Proof.
  intros Hs Hr Ec Hnone.
  destruct (RefineFacts.refine_success w path _ Hs)
    as (anchors & data' & Ej & Ta & Hr' & Hm).
  injection Ej as <-. rewrite Hr in Hr'. injection Hr' as <-.
  destruct (RefineFacts.merge_success _ data _ Ta Hm Hs)
    as (originals' & corrections' & cmap & rounds & Eo & Ec' & Hreads & Hrounds & Hres).
  injection Eo as <-. rewrite Ec in Ec'. injection Ec' as <-.
  destruct (rounds_kept_as_given cmap corrections originals rounds
              Hreads Hrounds Hnone) as (Hf & Hc & Hmv).
  exists (map appended rounds). split; [| assumption].
  rewrite Hres, Hc, Hmv. reflexivity.
Qed.

End RefineResults.

Lemma refine_anchors_have_four_keys_witness :
  let result :=
    @spine_refine.refine_anchors example_runtime
      (responding scenario_response) "img.png" (Loaded scenario_two_anchors) in
  is_success result /\
  exists originals outs,
    Loaded scenario_two_anchors = Loaded (VList originals) /\
    py_getitem result "anchors" = inr (VList outs) /\
    List.length outs = List.length originals /\
    Forall refine_anchor_shape outs.
Proof.
  split; [reflexivity |].
  apply (@refine_anchors_have_four_keys example_runtime
           (responding scenario_response) "img.png" (Loaded scenario_two_anchors)).
  reflexivity.
Defined.

Lemma corrected_count_is_bounded_witness :
  let result :=
    @spine_refine.refine_anchors example_runtime
      (responding scenario_response) "img.png" (Loaded scenario_two_anchors) in
  is_success result /\
  exists data originals corrections n,
    Loaded scenario_two_anchors = Loaded (VList originals) /\
    response (responding scenario_response) = inr (Loaded data) /\
    py_getitem data "anchors" = inr (VList corrections) /\
    py_getitem result "corrected_count" = inr (VInt n) /\
    (0 <= n <= Z.of_nat (List.length (filter (has_correction corrections) originals)))%Z /\
    (n <= Z.of_nat (List.length originals))%Z.
Proof.
  split; [reflexivity |].
  apply (@corrected_count_is_bounded example_runtime
           (responding scenario_response) "img.png" (Loaded scenario_two_anchors)).
  reflexivity.
Defined.

Lemma unrelated_response_moves_nothing_witness :
  exists outs,
    @spine_refine.refine_anchors example_runtime
      (responding stranger_response) "img.png" (Loaded scenario_two_anchors)
    = VDict [("status", VStr "success");
             ("anchors", VList outs);
             ("corrected_count", VInt 0);
             ("total_movement", VFloat 0)] /\
    match scenario_two_anchors with
    | VList originals => Forall2 kept_as_given originals outs
    | _ => False
    end.
Proof.
  apply (@unrelated_response_moves_nothing example_runtime
           (responding stranger_response) "img.png"
           [VDict [("id", VStr "a"); ("x", VFloat 0.10); ("y", VFloat 0.10)];
            VDict [("id", VStr "b"); ("x", VFloat 0.4); ("y", VFloat 0.7)]]
           [VDict [("id", VStr "tail"); ("x", VFloat 0.9); ("y", VFloat 0.9);
                   ("corrected", VBool true)]]
           stranger_response).
  - reflexivity.
  - reflexivity.
  - reflexivity.
  - intros orig [<- | [<- | []]]; reflexivity.
Defined.

(** An anchor named by a NaN meets the correction named by a NaN: line 158
    finds it, the anchor is moved and counted. *)
Example nan_correction_is_found :
  @spine_refine.refine_anchors example_runtime
    (responding nan_response) "img.png" (Loaded nan_anchors)
  = VDict [("status", VStr "success");
           ("anchors",
            VList [VDict [("id", VFloat nan); ("x", VFloat 0.12);
                          ("y", VFloat 0.10); ("corrected", VBool true)]]);
           ("corrected_count", VInt 1);
           ("total_movement", VFloat 0.02)].
Proof. vm_compute. reflexivity. Qed.

(** ** Detect, then Refine *)

Section Pipeline.

Context {RT : Runtime}.

Lemma sanitized_anchor_in_square (a a' : value) :
  spine_analyze.sanitize_anchor a = inr a' -> in_unit_square a'.
Proof.
  intros H.
  destruct (sanitize_anchor_steps a a' H)
    as (d & d' & fx & fy & -> & -> & _ & _ & Hx & Hy & _).
  exists (clamp_unit fx), (clamp_unit fy). simpl. rewrite Hx, Hy.
  repeat split; apply clamp_unit_range.
Qed.

Lemma round_in_square (cmap : list (value * value)) (corrections : list value)
  (orig : value) (r : spine_refine.round) :
  reads cmap corrections ->
  spine_refine.round_of cmap orig = inr r ->
  in_unit_square orig -> in_unit_square (spine_refine.appended r).
Proof.
  intros Hreads Hr (fx & fy & Hx & Hy & Rx & Ry).
  destruct (correction_for corrections orig) as [c |] eqn:Ec.
  - destruct (RefineFacts.round_of_corrected cmap corrections orig c r Hreads Hr Ec)
      as (aid & nx & ny & dist & flag & _ & Enx & Eny & _ & _ & ->).
    exists nx, ny. simpl.
    split; [reflexivity |]. split; [reflexivity |].
    split; [apply (RefineFacts.new_coordinate_range c orig "x" nx Enx)
           | apply (RefineFacts.new_coordinate_range c orig "y" ny Eny)].
  - destruct (RefineFacts.round_of_kept cmap corrections orig r Hreads Hr Ec)
      as (aid & ox & oy & _ & Ex & Ey & ->).
    rewrite Hx in Ex. injection Ex as <-. rewrite Hy in Ey. injection Ey as <-.
    exists fx, fy. simpl.
    split; [reflexivity |]. split; [reflexivity |]. split; assumption.
Qed.

(** X13. Refine on the anchors Detect returned keeps every anchor inside
    the image: in a success result all coordinates are floats of [0, 1],
    for the anchors the model corrected and for those it did not mention. *)
Theorem detect_then_refine_stays_in_image (w1 w2 : world) (p1 p2 : string)
  (anchors : value) :
  is_success (spine_analyze.analyze_image w1 p1) ->
  py_getitem (spine_analyze.analyze_image w1 p1) "anchors" = inr anchors ->
  is_success (spine_refine.refine_anchors w2 p2 (Loaded anchors)) ->
  exists outs,
    py_getitem (spine_refine.refine_anchors w2 p2 (Loaded anchors)) "anchors"
    = inr (VList outs) /\
    Forall in_unit_square outs.
Proof.
  intros Hs1 Ha Hs2.
  destruct (DetectFacts.analyze_success w1 p1 Hs1) as (data1 & _ & Hv).
  destruct (detect_validate_steps data1 _ Hv Hs1)
    as (anchors0 & anchors' & bone_list & anims0 & anims' & image_type & description
        & _ & _ & Hsan & _ & _ & _ & _ & _ & _ & _ & _ & Hres).
  rewrite Hres in Ha. simpl in Ha. unfold ret in Ha. injection Ha as <-.
  destruct (RefineFacts.refine_success w2 p2 _ Hs2)
    as (anchors1 & data & Ej & Ta & Hr & Hm).
  injection Ej as <-.
  destruct (RefineFacts.merge_success _ data _ Ta Hm Hs2)
    as (originals & corrections & cmap & rounds & Eo & Ec & Hreads & Hrounds & Hres2).
  injection Eo as <-.
  exists (map spine_refine.appended rounds).
  split; [rewrite Hres2; reflexivity |].
  apply Forall_forall. intros out Hin. apply in_map_iff in Hin.
  destruct Hin as (r & <- & Hin).
  destruct (mapM_In _ _ _ _ Hrounds Hin) as (orig & Hino & Ho).
  apply (round_in_square cmap corrections orig r Hreads Ho).
  destruct (mapM_In _ _ _ _ Hsan Hino) as (a0 & _ & Ha0).
  apply (sanitized_anchor_in_square a0 orig Ha0).
Qed.

End Pipeline.

Lemma detect_then_refine_stays_in_image_witness :
  let detected :=
    @spine_analyze.analyze_image example_runtime (responding example_analysis) "img.png" in
  exists anchors outs,
    py_getitem detected "anchors" = inr anchors /\
    py_getitem (@spine_refine.refine_anchors example_runtime
                  (responding stranger_response) "img.png" (Loaded anchors)) "anchors"
    = inr (VList outs) /\
    Forall in_unit_square outs.
Proof.
  eexists. 
  assert (Ha : py_getitem (@spine_analyze.analyze_image example_runtime
                             (responding example_analysis) "img.png") "anchors"
               = inr (VList [VDict [("id", VStr "hip"); ("label", VStr "Hip");
                                    ("x", VFloat 0.5); ("y", VFloat 0.6);
                                    ("type", VStr "root")];
                             VDict [("id", VStr "head"); ("label", VStr "Head");
                                    ("x", VFloat 0.5); ("y", VFloat 0);
                                    ("type", VStr "tip")];
                             VDict [("label", VStr "Left Hand"); ("x", VFloat 0.5);
                                    ("y", VFloat 0.5); ("type", VStr "joint");
                                    ("id", VStr "left_hand")]]))
    by (vm_compute; reflexivity).
  destruct (@detect_then_refine_stays_in_image example_runtime
              (responding example_analysis) (responding stranger_response)
              "img.png" "img.png" _ eq_refl Ha eq_refl) as (outs & Ho & Hf).
  exists outs. split; [exact Ha |]. split; assumption.
Defined.

(** ** Responses that are not objects *)

Section NonObjects.

Context {RT : Runtime}.

Lemma absent_or_empty_non_object (data : value) (k : string) :
  (forall d, data <> VDict d) ->
  absent_or_empty data k = inr true \/ exists e, absent_or_empty data k = inl e.
Proof.
  intros Hd. unfold absent_or_empty.
  destruct data as [| b | z | f | s | l | d]; simpl; eauto.
  - destruct (String.index 0 k s); simpl; eauto.
  - destruct (existsb (py_eq (VStr k)) l); simpl; eauto.
  - elim (Hd d). reflexivity.
Qed.

(** X14. A model response that decodes to anything but a JSON object (an
    array, a string, a number, a boolean, null) never yields a success:
    each of the three operations returns an error result. *)
Theorem non_object_response_is_rejected (w : world) (data : value) :
  response w = inr (Loaded data) ->
  (forall d, data <> VDict d) ->
  (forall path, exists m, spine_analyze.analyze_image w path = error_result m) /\
  (forall path aj, exists m, spine_refine.refine_anchors w path aj = error_result m) /\
  (forall path aj bj,
     exists m, spine_update_anims.update_animations w path aj bj = error_result m).
Proof.
  intros Hr Hd. split; [| split].
  - intros path. unfold spine_analyze.analyze_image.
    destruct (negb (has_key (api_key w))); [eauto |].
    destruct (negb (image_exists w)); [eauto |].
    rewrite Hr. unfold spine_analyze.validate.
    destruct (absent_or_empty_non_object data "anchors" Hd) as [-> | (e & ->)];
      simpl; eauto.
  - intros path aj. unfold spine_refine.refine_anchors.
    destruct (negb (has_key (api_key w))); [eauto |].
    destruct (negb (image_exists w)); [eauto |].
    destruct aj as [msg | anchors]; [unfold parse_error; eauto |].
    destruct (negb (truthy anchors)); [eauto |].
    rewrite Hr. unfold spine_refine.merge.
    destruct (absent_or_empty_non_object data "anchors" Hd) as [-> | (e & ->)];
      simpl; eauto.
  - intros path aj bj. unfold spine_update_anims.update_animations.
    destruct (negb (has_key (api_key w))); [eauto |].
    destruct (negb (image_exists w)); [eauto |].
    destruct aj as [msg | anchors]; [unfold parse_error; eauto |].
    destruct bj as [msg | bones]; [unfold parse_error; eauto |].
    destruct (negb (truthy anchors)); [eauto |].
    rewrite Hr. unfold spine_update_anims.validate.
    destruct (absent_or_empty_non_object data "animations" Hd) as [-> | (e & ->)];
      simpl; eauto.
Qed.

End NonObjects.

Lemma non_object_response_is_rejected_witness :
  let w := responding (VList [VStr "anchors"; VStr "bones"; VStr "animations"]) in
  (forall path, exists m,
     @spine_analyze.analyze_image example_runtime w path = error_result m) /\
  (forall path aj, exists m,
     @spine_refine.refine_anchors example_runtime w path aj = error_result m) /\
  (forall path aj bj, exists m,
     @spine_update_anims.update_animations example_runtime w path aj bj
     = error_result m).
Proof.
  apply (@non_object_response_is_rejected example_runtime
           (responding (VList [VStr "anchors"; VStr "bones"; VStr "animations"]))
           (VList [VStr "anchors"; VStr "bones"; VStr "animations"])).
  - reflexivity.
  - intros d. discriminate.
Defined.

(** ** The credential (get_api_key) *)

Lemma append_nil_r (s : string) : (s ++ "")%string = s.
Proof. induction s as [| c r IH]; simpl; [reflexivity | rewrite IH; reflexivity]. Qed.

Lemma lstrip_spec (s : string) :
  exists pre,
    s = (pre ++ lstrip s)%string /\ all_space pre /\
    (forall c r, lstrip s = String c r -> py_isspace c = false).
Proof.
  induction s as [| c r (pre & Hs & Hp & Hf)]; simpl.
  - exists ""%string. repeat split; [intros c [] | discriminate].
  - destruct (py_isspace c) eqn:E.
    + exists (String c pre). simpl. rewrite <- Hs.
      split; [reflexivity |]. split; [| exact Hf].
      intros c' [<- | Hin]; [assumption | apply Hp; assumption].
    + exists ""%string. simpl. split; [reflexivity |].
      split; [intros c' [] |].
      intros c' r' H. injection H as <- <-. assumption.
Qed.

Lemma rstrip_spec (s : string) :
  exists post,
    s = (rstrip s ++ post)%string /\ all_space post /\
    (forall r c, rstrip s = (r ++ String c "")%string -> py_isspace c = false) /\
    (forall c r, rstrip s = String c r -> exists r', s = String c r').
Proof.
  induction s as [| c r (post & Hs & Hp & Hl & Hf)]; simpl.
  - exists ""%string. split; [reflexivity |]. split; [intros c [] |].
    split; [intros [| c0 r0] c H; discriminate | discriminate].
  - destruct (py_isspace c && String.eqb (rstrip r) "") eqn:E.
    + apply andb_prop in E. destruct E as [Ec Er]. apply String.eqb_eq in Er.
      rewrite Er in Hs. simpl in Hs. subst post.
      exists (String c r). simpl.
      split; [reflexivity |].
      split; [intros c' [<- | Hin]; [assumption | apply Hp; assumption] |].
      split; [intros [| c0 r0] c1 H; discriminate | discriminate].
    + exists post. simpl. rewrite <- Hs. split; [reflexivity |].
      split; [assumption |]. split.
      * intros [| c0 r0] c1 H; simpl in H; injection H as H1 H2.
        -- subst c1. rewrite H2, String.eqb_refl, andb_true_r in E. assumption.
        -- apply (Hl r0 c1 H2).
      * intros c' r' H. injection H as <- <-. eauto.
Qed.

(** What [strip] returns: the text between a blank prefix and a blank
    suffix, with no white space at either end. *)
Lemma py_strip_spec (s : string) :
  exists pre post,
    s = (pre ++ py_strip s ++ post)%string /\
    all_space pre /\ all_space post /\ trimmed (py_strip s).
Proof.
  unfold py_strip.
  destruct (lstrip_spec s) as (pre & Hs & Hpre & Hfirst).
  destruct (rstrip_spec (lstrip s)) as (post & Hl & Hpost & Hlast & Hkeep).
  exists pre, post. split; [rewrite <- Hl; exact Hs |].
  split; [assumption |]. split; [assumption |].
  split; [| exact Hlast].
  intros c r H. destruct (Hkeep c r H) as (r' & Hr'). apply (Hfirst c r' Hr').
Qed.

Lemma py_strip_blank (s : string) : all_space s -> py_strip s = ""%string.
Proof.
  unfold py_strip. intros H.
  assert (Hl : lstrip s = ""%string).
  { induction s as [| c r IH]; simpl; [reflexivity |].
    rewrite (H c (or_introl eq_refl)). apply IH.
    intros c' Hin. apply H. right. assumption. }
  rewrite Hl. reflexivity.
Qed.

Section Credential.

Context {RT : Runtime}.

(** X15. Detect and Regenerate take the key from the first vault file that
    exists and can be read, without looking at the environment: the key is
    the text of that file between its leading and trailing white space, and
    it neither starts nor ends with white space. *)
Theorem vault_key_is_the_trimmed_text (h : host) (text : string) :
  vault_holds h "/var/www/evo/vault/gemini_key.txt" text \/
  (vault_fails h "/var/www/evo/vault/gemini_key.txt" /\
   vault_holds h "/root/.openclaw/workspace/vault/gemini_key.txt" text) ->
  exists pre key post,
    spine_analyze.get_api_key h = Some key /\
    spine_update_anims.get_api_key h = Some key /\
    text = (pre ++ key ++ post)%string /\
    all_space pre /\ all_space post /\ trimmed key.
Proof.
  intros H.
  destruct (py_strip_spec text) as (pre & post & Ht & Hpre & Hpost & Htr).
  exists pre, (py_strip text), post.
  assert (Hk : read_vaults h spine_analyze.vault_paths = Some (py_strip text)).
  { unfold spine_analyze.vault_paths. simpl.
    destruct H as [[He Hr] | [[Hn | (e & Hn)] [He Hr]]].
    - rewrite He, Hr. reflexivity.
    - rewrite Hn, He, Hr. reflexivity.
    - rewrite Hn, He, Hr.
      destruct (os_path_exists h "/var/www/evo/vault/gemini_key.txt"); reflexivity. }
  unfold spine_analyze.get_api_key, spine_update_anims.get_api_key.
  change spine_update_anims.vault_paths with spine_analyze.vault_paths.
  rewrite Hk. repeat split; try assumption; apply Htr.
Qed.

(** X16. A vault file that exists but holds white space only hides the
    environment: once their imports have succeeded, the whole runs of
    Detect and of Regenerate answer "No Gemini API key found", whatever
    [GOOGLE_API_KEY] and [GEMINI_API_KEY] are and whatever the other
    collaborators would do. *)
Theorem blank_vault_file_hides_environment (h : host) (s : studio)
  (text image_path anchors_json bones_json : string) :
  vault_holds h "/var/www/evo/vault/gemini_key.txt" text ->
  all_space text ->
  imports s = None ->
  spine_analyze.analyze_image_full h s image_path
  = error_result "No Gemini API key found" /\
  spine_update_anims.update_animations_full h s image_path anchors_json bones_json
  = error_result "No Gemini API key found".
Proof.
  intros [He Hr] Hb Hi.
  unfold spine_analyze.analyze_image_full, spine_analyze.analyze_image_run,
    spine_update_anims.update_animations_full,
    spine_update_anims.update_animations_run,
    spine_analyze.get_api_key, spine_update_anims.get_api_key,
    spine_analyze.vault_paths, spine_update_anims.vault_paths.
  rewrite Hi. simpl. rewrite He, Hr, (py_strip_blank text Hb). simpl.
  split; reflexivity.
Qed.

(** X17. When no vault file can be read, the three tools use the same key:
    [GOOGLE_API_KEY] if it is set and not empty, otherwise [GEMINI_API_KEY];
    a vault file of Refine that cannot be tested or read is not an error. *)
Theorem environment_key_is_shared (h : host) (vault_path : string) :
  vault_fails h "/var/www/evo/vault/gemini_key.txt" ->
  vault_fails h "/root/.openclaw/workspace/vault/gemini_key.txt" ->
  script_vault_fails h vault_path ->
  let key :=
    if has_key (environ_get h "GOOGLE_API_KEY") then environ_get h "GOOGLE_API_KEY"
    else environ_get h "GEMINI_API_KEY" in
  spine_analyze.get_api_key h = key /\
  spine_update_anims.get_api_key h = key /\
  spine_refine.get_api_key h = inr key.
Proof.
  intros H1 H2 (Hp & H3). simpl.
  assert (Hk : environ_key h
               = if has_key (environ_get h "GOOGLE_API_KEY")
                 then environ_get h "GOOGLE_API_KEY"
                 else environ_get h "GEMINI_API_KEY").
  { unfold environ_key, has_key.
    destruct (environ_get h "GOOGLE_API_KEY") as [s |]; [| reflexivity].
    destruct (String.eqb s ""); reflexivity. }
  assert (Hv : read_vaults h spine_analyze.vault_paths = None).
  { unfold spine_analyze.vault_paths. simpl.
    destruct H1 as [-> | (e1 & ->)]; destruct H2 as [-> | (e2 & ->)];
      repeat match goal with
             | |- context [if ?b then _ else _] => destruct b
             end; reflexivity. }
  unfold spine_analyze.get_api_key, spine_update_anims.get_api_key.
  change spine_update_anims.vault_paths with spine_analyze.vault_paths.
  rewrite Hv, <- Hk. split; [reflexivity |]. split; [reflexivity |].
  unfold spine_refine.get_api_key. rewrite Hp. simpl.
  destruct H3 as [-> | [(e & ->) | (-> & e & He)]]; simpl;
    try rewrite He; reflexivity.
Qed.

End Credential.

Lemma vault_key_is_the_trimmed_text_witness :
  exists pre key post,
    spine_analyze.get_api_key example_host = Some key /\
    spine_update_anims.get_api_key example_host = Some key /\
    (String (ascii_of_nat 10) ("AIza-key" ++ String (ascii_of_nat 10) ""))%string
    = (pre ++ key ++ post)%string /\
    all_space pre /\ all_space post /\ trimmed key.
Proof.
  apply (vault_key_is_the_trimmed_text example_host).
  left. split; reflexivity.
Defined.

Lemma blank_vault_file_hides_environment_witness :
  environ_get blank_vault_host "GEMINI_API_KEY" = Some "other"%string /\
  @spine_analyze.analyze_image_full example_runtime blank_vault_host
    example_studio "img.png"
  = error_result "No Gemini API key found" /\
  @spine_update_anims.update_animations_full example_runtime blank_vault_host
    example_studio "img.png" "anchors" "bones"
  = error_result "No Gemini API key found".
Proof.
  split; [reflexivity |].
  apply (@blank_vault_file_hides_environment example_runtime blank_vault_host
           example_studio (String (ascii_of_nat 10) "")).
  - split; reflexivity.
  - intros c [<- | []]. reflexivity.
  - reflexivity.
Defined.

Lemma environment_key_is_shared_witness :
  spine_analyze.get_api_key environment_host = Some "other"%string /\
  spine_update_anims.get_api_key environment_host = Some "other"%string /\
  spine_refine.get_api_key environment_host = inr (Some "other"%string).
Proof.
  apply (environment_key_is_shared environment_host "/srv/spine/vault/gemini_key.txt").
  - left. reflexivity.
  - left. reflexivity.
  - split; [reflexivity |]. right. left. eexists. reflexivity.
Defined.

(** ** Detect: coordinates inside the image, and the head of the result *)

Lemma SFcompare_refl (x : spec_float) : x <> S754_nan -> SFcompare x x = Some Eq.
Proof.
  destruct x as [s | s | | s m e]; simpl; intros H; try congruence.
  - destruct s; reflexivity.
  - destruct s; rewrite Z.compare_refl, Pos.compare_cont_refl; reflexivity.
Qed.

Local Open Scope float_scope.

Lemma eqb_refl_below (f c : float) : (f <? c) = true -> (f =? f) = true.
Proof.
  rewrite ltb_spec, eqb_spec. unfold SFltb, SFeqb. intros H.
  rewrite SFcompare_refl; [reflexivity |].
  intros Hn. rewrite Hn in H. discriminate.
Qed.

(** Inside the image the coordinate clamp returns the same number. *)
Lemma clamp_unit_inside (f : float) :
  in_range 0 1 f -> (clamp_unit f =? f) = true.
Proof.
  intros [Hlo Hhi]. unfold clamp_unit, py_max, py_min.
  destruct (f <? 1) eqn:E1.
  - destruct (0 <? f) eqn:E2.
    + apply (eqb_refl_below f 1 E1).
    + revert Hlo E2. rewrite eqb_spec, leb_spec, ltb_spec.
      unfold SFeqb, SFleb, SFltb.
      destruct (SFcompare (Prim2SF 0) (Prim2SF f)) as [[] |]; congruence.
  - assert (Hf : f = 1).
    { eapply leb_not_ltb_eq; [vm_compute; reflexivity | exact Hhi | exact E1]. }
    subst f. reflexivity.
Qed.

Local Close Scope float_scope.

Section DetectHead.

Context {RT : Runtime}.

Import spine_analyze.

Lemma sanitized_coordinate_kept (a a' : value) :
  sanitize_anchor a = inr a' -> coordinate_kept a a'.
Proof.
  intros H.
  destruct (sanitize_anchor_steps a a' H)
    as (d & d' & fx & fy & -> & -> & Ex & Ey & Hx & Hy & _).
  intros axis f Haxis Hg Hr. simpl in Hg.
  unfold coordinate_or_center in Ex, Ey.
  destruct Haxis as [-> | ->].
  - destruct (dict_get "x" d) as [v |]; [| discriminate].
    unfold ret in Hg. injection Hg as ->. simpl in Ex. unfold ret in Ex.
    injection Ex as <-.
    exists (clamp_unit f). simpl. rewrite Hx.
    split; [reflexivity | apply clamp_unit_inside; assumption].
  - destruct (dict_get "y" d) as [v |]; [| discriminate].
    unfold ret in Hg. injection Hg as ->. simpl in Ey. unfold ret in Ey.
    injection Ey as <-.
    exists (clamp_unit f). simpl. rewrite Hy.
    split; [reflexivity | apply clamp_unit_inside; assumption].
Qed.

(** X18. Detect does not move an anchor that is inside the image: a float
    coordinate of the response between 0.0 and 1.0 is returned as the same
    number. *)
Theorem detect_keeps_coordinates_inside (w : world) (path : string) :
  is_success (analyze_image w path) ->
  detect_anchor_loop coordinate_kept w (analyze_image w path).
Proof.
  apply detect_anchor_loop_intro. intros a a'. apply sanitized_coordinate_kept.
Qed.

(** X19. A success result of Detect has exactly six keys, in this order:
    [status], [image_type], [description], [anchors], [bones], [animations].
    [image_type] and [description] are the response's own values, whatever
    they are, or ["unknown"] and the empty string when the response has
    none; no other key of the response is carried over. *)
Theorem detect_result_has_six_keys (w : world) (path : string) :
  is_success (analyze_image w path) ->
  exists data image_type description anchors bones animations,
    response w = inr (Loaded data) /\
    py_get data "image_type" (VStr "unknown") = inr image_type /\
    py_get data "description" (VStr "") = inr description /\
    analyze_image w path
    = VDict [("status", VStr "success");
             ("image_type", image_type);
             ("description", description);
             ("anchors", VList anchors);
             ("bones", VList bones);
             ("animations", VList animations)].
Proof.
  intros Hs.
  destruct (DetectFacts.analyze_success w path Hs) as (data & Hr & Hv).
  destruct (detect_validate_steps data _ Hv Hs)
    as (anchors0 & anchors' & bone_list & anims0 & anims' & image_type & description
        & _ & _ & _ & _ & _ & _ & _ & _ & _ & Hit & Hde & Hres).
  exists data, image_type, description, anchors',
    (filter (bone_resolves anchors') bone_list), anims'.
  repeat split; assumption.
Qed.

End DetectHead.

Lemma detect_keeps_coordinates_inside_witness :
  let result :=
    @spine_analyze.analyze_image example_runtime (responding example_analysis) "img.png" in
  is_success result /\
  detect_anchor_loop coordinate_kept (responding example_analysis) result.
Proof.
  split; [reflexivity |].
  apply (@detect_keeps_coordinates_inside example_runtime
           (responding example_analysis) "img.png").
  reflexivity.
Defined.

Lemma detect_result_has_six_keys_witness :
  exists data image_type description anchors bones animations,
    response (responding analysis_without_title) = inr (Loaded data) /\
    py_get data "image_type" (VStr "unknown") = inr image_type /\
    py_get data "description" (VStr "") = inr description /\
    @spine_analyze.analyze_image example_runtime
      (responding analysis_without_title) "img.png"
    = VDict [("status", VStr "success");
             ("image_type", image_type);
             ("description", description);
             ("anchors", VList anchors);
             ("bones", VList bones);
             ("animations", VList animations)].
Proof.
  apply (@detect_result_has_six_keys example_runtime
           (responding analysis_without_title) "img.png").
  reflexivity.
Defined.

(** ** The whole run: imports, overlay, prompt *)

Lemma forM_raises {A} (body : A -> M unit) (l : list A) (a : A) :
  In a l -> (exists e, body a = inl e) -> exists e, forM_ body l = inl e.
Proof.
  induction l as [| b r IH]; simpl; [contradiction |].
  intros [-> | Hin] Ha.
  - destruct Ha as (e & ->). simpl. eauto.
  - destruct (body b) as [e | []]; simpl; [eauto | auto].
Qed.

Lemma mapM_raises {A B} (f : A -> M B) (l : list A) (a : A) :
  In a l -> (exists e, f a = inl e) -> exists e, mapM f l = inl e.
Proof.
  induction l as [| b r IH]; simpl; [contradiction |].
  intros [-> | Hin] Ha.
  - destruct Ha as (e & ->). simpl. eauto.
  - destruct (f b) as [e | y]; simpl; [eauto |].
    destruct (IH Hin Ha) as (e & ->). simpl. eauto.
Qed.

Section WholeRun.

Context {RT : Runtime}.

(** A step that raises makes the sequence raise. *)
Ltac raises_or_goes c :=
  let e := fresh "e" in
  destruct c as [e | ?]; simpl; [eexists; reflexivity |].

Ltac raise_step :=
  match goal with
  | |- exists _, match ?c with inl _ => _ | inr _ => _ end = inl _ =>
      raises_or_goes c
  | |- exists _, bind ?c _ = inl _ => raises_or_goes c
  end.

Lemma draw_anchor_raises (s : studio) (w h r fs : Z) (a : value) :
  undrawable_anchor a -> exists e, draw_anchor s w h r fs a = inl e.
Proof.
  unfold draw_anchor. intros [(e & Hx) | [(e & Hy) | (t & Ht & Hh)]].
  - rewrite Hx. simpl. eauto.
  - raises_or_goes (py_getitem a "x"). raises_or_goes (py_mul_int v w).
    rewrite Hy. simpl. eauto.
  - raises_or_goes (py_getitem a "x"). raises_or_goes (py_mul_int v w).
    raises_or_goes (py_getitem a "y"). raises_or_goes (py_mul_int v1 h).
    rewrite Ht. simpl. unfold marker_color. rewrite Hh. simpl. eauto.
Qed.

Lemma bone_line_raises (s : studio) (b : value) :
  incomplete_bone b -> exists e, spine_update_anims.bone_line s b = inl e.
Proof.
  unfold spine_update_anims.bone_line. intros [(e & Hi) | [(e & Hf) | (e & Ht)]].
  - rewrite Hi. simpl. eauto.
  - raises_or_goes (py_getitem b "id"). rewrite Hf. simpl. eauto.
  - raises_or_goes (py_getitem b "id"). raises_or_goes (py_getitem b "from").
    rewrite Ht. simpl. eauto.
Qed.

Lemma refine_consult_raises (s : studio) (key path : string) (l : list value)
  (a : value) :
  In a l -> undrawable_anchor a ->
  exists e, spine_refine.consult s key path (VList l) = inl e.
Proof.
  intros Hin Ha. unfold spine_refine.consult.
  destruct (prepare_overlay s path) as [e | [[[w h] r] fs]]; simpl; [eauto |].
  destruct (forM_raises (draw_anchor s w h r fs) l a Hin
              (draw_anchor_raises s w h r fs a Ha)) as (e & ->).
  simpl. eauto.
Qed.

Lemma regen_consult_raises (s : studio) (key path : string)
  (anchors bones : value) :
  (exists l a, anchors = VList l /\ In a l /\ undrawable_anchor a) \/
  (exists l b, bones = VList l /\ In b l /\ incomplete_bone b) ->
  exists e, spine_update_anims.consult s key path anchors bones = inl e.
Proof.
  intros H. unfold spine_update_anims.consult.
  destruct (prepare_overlay s path) as [e | [[[w h] r] fs]]; simpl; [eauto |].
  destruct H as [(l & a & -> & Hin & Ha) | (l & b & -> & Hin & Hb)].
  - simpl.
    destruct (forM_raises (draw_anchor s w h r fs) l a Hin
                (draw_anchor_raises s w h r fs a Ha)) as (e & ->).
    simpl. eauto.
  - do 5 raise_step.
    destruct (mapM_raises (spine_update_anims.bone_line s) l b Hin
                (bone_line_raises s b Hb)) as (e & ->).
    simpl. eauto.
Qed.

(** X20. Refine cannot succeed on an anchor list that holds an anchor
    without [x], without [y] or with a [type] that is a list or an object:
    the marker loop raises before the model is consulted, and the result is
    an error, whatever the collaborators do. *)
Theorem refine_needs_drawable_anchors (h : host) (s : studio)
  (path anchors_json : string) (l : list value) (a : value) :
  json_loads s anchors_json = Loaded (VList l) ->
  In a l -> undrawable_anchor a ->
  exists m, spine_refine.refine_anchors_full h s path anchors_json = error_result m.
Proof.
  intros Hj Hin Ha.
  unfold spine_refine.refine_anchors_full, spine_refine.refine_anchors_run.
  destruct (attempt (imports s)) as [e | []]; simpl; [eexists; reflexivity |].
  destruct (spine_refine.get_api_key h) as [e | [key |]]; simpl;
    [eexists; reflexivity | | eexists; reflexivity].
  destruct (String.eqb key ""); [eexists; reflexivity |].
  destruct (negb (os_path_exists h path)); [eexists; reflexivity |].
  rewrite Hj. destruct (negb (truthy (VList l))); [eexists; reflexivity |].
  destruct (refine_consult_raises s key path l a Hin Ha) as (e & ->).
  simpl. eexists. reflexivity.
Qed.

(** X21. Regenerate cannot succeed when an input anchor has no [x], no [y]
    or a [type] that is a list or an object, nor when an input bone has no
    [id], no [from] or no [to]: the overlay or the prompt raises before the
    model is consulted, although the sanitation itself reads nothing of the
    input but the anchor ids. *)
Theorem regenerate_needs_drawable_input (h : host) (s : studio)
  (path anchors_json bones_json : string) (anchors bones : value) :
  json_loads s anchors_json = Loaded anchors ->
  json_loads s bones_json = Loaded bones ->
  (exists l a, anchors = VList l /\ In a l /\ undrawable_anchor a) \/
  (exists l b, bones = VList l /\ In b l /\ incomplete_bone b) ->
  exists m,
    spine_update_anims.update_animations_full h s path anchors_json bones_json
    = error_result m.
Proof.
  intros Ha Hb H.
  unfold spine_update_anims.update_animations_full,
    spine_update_anims.update_animations_run.
  destruct (attempt (imports s)) as [e | []]; simpl; [eexists; reflexivity |].
  destruct (spine_update_anims.get_api_key h) as [key |]; simpl;
    [| eexists; reflexivity].
  destruct (String.eqb key ""); [eexists; reflexivity |].
  destruct (negb (os_path_exists h path)); [eexists; reflexivity |].
  rewrite Ha, Hb. destruct (negb (truthy anchors)); [eexists; reflexivity |].
  destruct (regen_consult_raises s key path anchors bones H) as (e & ->).
  simpl. eexists. reflexivity.
Qed.

End WholeRun.

Lemma refine_needs_drawable_anchors_witness :
  exists m,
    @spine_refine.refine_anchors_full example_runtime example_host example_studio
      "img.png" "untyped"
    = error_result m.
Proof.
  apply (@refine_needs_drawable_anchors example_runtime example_host example_studio
           "img.png" "untyped"
           [VDict [("id", VStr "hip"); ("x", VFloat 0.5); ("y", VFloat 0.6);
                   ("type", VStr "root")];
            VDict [("id", VStr "head"); ("x", VFloat 0.5); ("y", VFloat 0.1);
                   ("type", VList [VStr "tip"])]]
           (VDict [("id", VStr "head"); ("x", VFloat 0.5); ("y", VFloat 0.1);
                   ("type", VList [VStr "tip"])])).
  - reflexivity.
  - right. left. reflexivity.
  - right. right. exists (VList [VStr "tip"]). split; reflexivity.
Defined.

Lemma regenerate_needs_drawable_input_witness :
  exists m,
    @spine_update_anims.update_animations_full example_runtime example_host
      example_studio "img.png" "anchors" "open"
    = error_result m.
Proof.
  apply (@regenerate_needs_drawable_input example_runtime example_host example_studio
           "img.png" "anchors" "open" supplied_anchors open_bones).
  - reflexivity.
  - reflexivity.
  - right.
    exists [VDict [("id", VStr "spine"); ("from", VStr "hip"); ("to", VStr "head")];
            VDict [("id", VStr "arm"); ("from", VStr "head")]],
      (VDict [("id", VStr "arm"); ("from", VStr "head")]).
    split; [reflexivity |]. split; [right; left; reflexivity |].
    right. right. exists (KeyError "to"). reflexivity.
Defined.

(** ** Inputs that reach the model *)

Lemma forM_ok {A} (body : A -> M unit) (l : list A) :
  Forall (fun a => body a = inr tt) l -> forM_ body l = inr tt.
Proof.
  induction 1 as [| a r Ha _ IH]; simpl; [reflexivity |].
  rewrite Ha. simpl. exact IH.
Qed.

Lemma mapM_ok {A B} (f : A -> M B) (l : list A) :
  Forall (fun a => exists b, f a = inr b) l -> exists l', mapM f l = inr l'.
Proof.
  induction 1 as [| a r (b & Ha) _ (l' & IH)]; simpl; [eauto |].
  rewrite Ha. simpl. rewrite IH. simpl. eauto.
Qed.

Section ReachingTheModel.

Context {RT : Runtime}.

Ltac run_step :=
  cbn [py_getitem py_get py_mul_int py_sub_int py_add_int attempt bind ret].

Lemma draw_anchor_ok (s : studio) (w h r fs : Z) (fw fh fr ff : float) (a : value) :
  float_of_int w = inr fw -> float_of_int h = inr fh ->
  float_of_int r = inr fr -> float_of_int fs = inr ff ->
  drawing_works s -> drawable_anchor a ->
  draw_anchor s w h r fs a = inr tt.
Proof.
  intros Hw Hh Hr Hf (He & Ht & _)
    (d & fx & fy & -> & Hx & Hy & Hi & Hty & (text & Hl) & _).
  assert (H2 : float_of_int 2 = inr 2%float) by (vm_compute; reflexivity).
  unfold marker_text in Hl. cbn [py_get] in Hl.
  unfold draw_anchor. run_step.
  rewrite Hx. run_step. rewrite Hw. run_step.
  rewrite Hy. run_step. rewrite Hh. run_step.
  assert (Hc : exists c, (anchor_type <- match dict_get "type" d with
                                         | Some x => ret x
                                         | None => ret (VStr "joint")
                                         end ;; marker_color anchor_type) = inr c).
  { destruct (dict_get "type" d) as [t |]; cbn [bind ret]; unfold marker_color.
    - rewrite Hty. eauto.
    - simpl. eauto. }
  destruct Hc as (c & Hc).
  destruct (dict_get "type" d) as [t |]; cbn [bind ret] in Hc |- *;
    rewrite Hc; run_step; rewrite Hr; run_step; rewrite He; run_step;
    (destruct (dict_get "id" d); cbn [bind ret] in Hl; run_step;
     destruct (dict_get "label" d); cbn [bind ret] in Hl; run_step;
     injection Hl as Hl; rewrite Hl;
     rewrite Hf; run_step; rewrite H2; run_step; rewrite Ht; reflexivity).
Qed.

Lemma label_or_id_ok (d : list (string * value)) :
  dict_mem "id" d = true -> exists v, label_or_id (VDict d) = inr v.
Proof.
  unfold dict_mem, label_or_id. simpl.
  destruct (dict_get "id" d); [| discriminate]. intros _. simpl.
  destruct (dict_get "label" d); eauto.
Qed.

Lemma refine_anchor_line_ok (s : studio) (a : value) :
  drawable_anchor a -> exists line, spine_refine.anchor_line s a = inr line.
Proof.
  intros (d & fx & fy & -> & Hx & Hy & Hi & _).
  unfold spine_refine.anchor_line.
  destruct (label_or_id_ok d Hi) as (v & ->). cbn [bind].
  unfold dict_mem in Hi. simpl. destruct (dict_get "id" d); [| discriminate].
  simpl. rewrite Hx, Hy. simpl. eauto.
Qed.

Lemma regen_anchor_line_ok (s : studio) (a : value) :
  drawable_anchor a -> exists line, spine_update_anims.anchor_line s a = inr line.
Proof.
  intros (d & fx & fy & -> & Hx & Hy & Hi & _).
  unfold spine_update_anims.anchor_line.
  destruct (label_or_id_ok d Hi) as (v & ->). cbn [bind].
  unfold dict_mem in Hi. simpl. destruct (dict_get "id" d); [| discriminate].
  simpl. destruct (dict_get "type" d); simpl; rewrite Hx, Hy; simpl; eauto.
Qed.

Lemma bone_line_ok (s : studio) (b : value) :
  complete_bone b -> exists line, spine_update_anims.bone_line s b = inr line.
Proof.
  intros (d & -> & Hi & Hf & Ht). unfold spine_update_anims.bone_line, dict_mem in *.
  simpl.
  destruct (dict_get "id" d); [| discriminate].
  destruct (dict_get "from" d); [| discriminate].
  destruct (dict_get "to" d); [| discriminate].
  simpl. eauto.
Qed.

Lemma find_anchor_ok (bd : list (string * value)) (key : string)
  (anchors : list value) :
  Forall drawable_anchor anchors ->
  exists found,
    spine_update_anims.find_anchor (VDict bd) key anchors = inr found /\
    (forall a, found = Some a -> drawable_anchor a).
Proof.
  induction 1 as [| a r Ha _ (found & IH & Hfound)]; simpl.
  - exists None. split; [reflexivity | discriminate].
  - pose proof Ha as (d & fx & fy & -> & Hx & Hy & Hi & _).
    unfold dict_mem in Hi. simpl.
    destruct (dict_get "id" d) as [id |]; [| discriminate]. simpl.
    destruct (py_equal id match dict_get key bd with Some x => x | None => VNone end)
      eqn:E.
    + exists (Some (VDict d)).
      destruct (dict_get key bd); simpl; rewrite E; (split; [reflexivity |]);
        intros a' Ha'; injection Ha' as <-; exact Ha.
    + exists found.
      destruct (dict_get key bd); simpl; rewrite E; (split; [exact IH | exact Hfound]).
Qed.

Lemma draw_bone_ok (s : studio) (w h : Z) (fw fh : float) (anchors : list value)
  (bone : value) :
  float_of_int w = inr fw -> float_of_int h = inr fh ->
  drawing_works s -> Forall drawable_anchor anchors -> complete_bone bone ->
  spine_update_anims.draw_bone s w h anchors bone = inr tt.
Proof.
  intros Hw Hh (_ & _ & Hl) Ha (bd & -> & _). unfold spine_update_anims.draw_bone.
  destruct (find_anchor_ok bd "from" anchors Ha) as (fa & -> & Hfa).
  destruct (find_anchor_ok bd "to" anchors Ha) as (ta & -> & Hta).
  cbn [bind].
  destruct fa as [a |]; [| reflexivity].
  destruct ta as [b |]; [| reflexivity].
  destruct (Hfa a eq_refl) as (da & ax & ay & -> & Hax & Hay & _).
  destruct (Hta b eq_refl) as (db & bx & by_ & -> & Hbx & Hby & _).
  destruct (truthy (VDict da) && truthy (VDict db)); [| reflexivity].
  run_step.
  rewrite Hax. run_step. rewrite Hw. run_step.
  rewrite Hay. run_step. rewrite Hh. run_step.
  rewrite Hbx. run_step. rewrite Hw. run_step.
  rewrite Hby. run_step. rewrite Hh. run_step.
  rewrite Hl. reflexivity.
Qed.

(** X23. Refine reaches the model whenever its collaborators work (the
    imaging library on the texts it is handed) and the anchors are drawable
    (objects with float coordinates inside the image, an id, a type that is
    not a list or an object, and a label, or else an id, that is a text):
    the overlay and the prompt do not raise, and the result is the one the
    merge gives for the model's decoded answer. *)
Theorem refine_reaches_the_model (h : host) (s : studio)
  (path anchors_json key text : string) (anchors : list value) (data : value) :
  imports s = None ->
  spine_refine.get_api_key h = inr (Some key) -> key <> ""%string ->
  os_path_exists h path = true ->
  json_loads s anchors_json = Loaded (VList anchors) -> anchors <> [] ->
  Forall drawable_anchor anchors ->
  overlay_ready s path -> drawing_works s -> make_client s key = None ->
  (forall lines,
     mapM (spine_refine.anchor_line s) anchors = inr lines ->
     generate_refinement s (join_lines lines) = inr (Some text)) ->
  json_loads s (py_strip text) = Loaded data ->
  spine_refine.refine_anchors_full h s path anchors_json
  = spine_refine.refine_anchors (responding data) path (Loaded (VList anchors)).
Proof.
  intros Hi Hk Hne He Hj Ha Hd (w & hh & r & fs & fw & fh & fr & ff
                                & Hp & Hw & Hh & Hr & Hf) Hdraw Hc Hg Hl.
  unfold spine_refine.refine_anchors_full, spine_refine.refine_anchors_run,
    spine_refine.refine_anchors.
  rewrite Hi, Hk. cbn [attempt bind ret].
  apply String.eqb_neq in Hne. rewrite Hne, He, Hj. cbn [negb].
  rewrite (truthy_list anchors Ha). cbn [negb responding has_key api_key
                                           image_exists response].
  unfold spine_refine.consult. rewrite Hp. cbn [bind ret py_iter].
  rewrite (forM_ok (draw_anchor s w hh r fs) anchors).
  2:{ eapply Forall_impl; [| exact Hd]. intros a.
      apply (draw_anchor_ok s w hh r fs fw fh fr ff a Hw Hh Hr Hf Hdraw). }
  cbn [bind]. rewrite Hc. cbn [attempt bind ret].
  destruct (mapM_ok (spine_refine.anchor_line s) anchors) as (lines & Hlines).
  { eapply Forall_impl; [| exact Hd]. intros a. apply refine_anchor_line_ok. }
  rewrite Hlines. cbn [bind]. rewrite (Hg lines Hlines).
  unfold response_text. cbn [bind ret]. rewrite Hl.
  reflexivity.
Qed.

(** X24. Regenerate reaches the model whenever its collaborators work (the
    imaging library on the texts it is handed), the anchors are drawable
    (float coordinates inside the image, an id, a type that is not a list
    or an object, and a label, or else an id, that is a text) and every
    bone has an id, a [from] and a [to]: the overlay, the bone loop and the
    prompt do not raise, and the result is the one the sanitation gives for
    the model's decoded answer. *)
Theorem regenerate_reaches_the_model (h : host) (s : studio)
  (path anchors_json bones_json key text : string) (anchors bones : list value)
  (data : value) :
  imports s = None ->
  spine_update_anims.get_api_key h = Some key -> key <> ""%string ->
  os_path_exists h path = true ->
  json_loads s anchors_json = Loaded (VList anchors) -> anchors <> [] ->
  json_loads s bones_json = Loaded (VList bones) ->
  Forall drawable_anchor anchors -> Forall complete_bone bones ->
  overlay_ready s path -> drawing_works s -> make_client s key = None ->
  (forall lines bone_lines,
     mapM (spine_update_anims.anchor_line s) anchors = inr lines ->
     mapM (spine_update_anims.bone_line s) bones = inr bone_lines ->
     generate_animations s (join_lines lines) (join_lines bone_lines)
     = inr (Some text)) ->
  json_loads s (py_strip text) = Loaded data ->
  spine_update_anims.update_animations_full h s path anchors_json bones_json
  = spine_update_anims.update_animations (responding data) path
      (Loaded (VList anchors)) (Loaded (VList bones)).
Proof.
  intros Hi Hk Hne He Hj Ha Hjb Hd Hb (w & hh & r & fs & fw & fh & fr & ff
                                       & Hp & Hw & Hh & Hr & Hf) Hdraw Hc Hg Hl.
  unfold spine_update_anims.update_animations_full,
    spine_update_anims.update_animations_run,
    spine_update_anims.update_animations.
  rewrite Hi, Hk. cbn [attempt bind ret].
  apply String.eqb_neq in Hne. rewrite Hne, He, Hj, Hjb. cbn [negb].
  rewrite (truthy_list anchors Ha). cbn [negb responding has_key api_key
                                           image_exists response].
  unfold spine_update_anims.consult. rewrite Hp. cbn [bind ret py_iter].
  rewrite (forM_ok (draw_anchor s w hh r fs) anchors).
  2:{ eapply Forall_impl; [| exact Hd]. intros a.
      apply (draw_anchor_ok s w hh r fs fw fh fr ff a Hw Hh Hr Hf Hdraw). }
  cbn [bind].
  rewrite (forM_ok _ bones).
  2:{ eapply Forall_impl; [| exact Hb]. intros b Hcb. cbn [bind ret].
      apply (draw_bone_ok s w hh fw fh anchors b Hw Hh Hdraw Hd Hcb). }
  cbn [bind]. rewrite Hc. cbn [attempt bind ret].
  destruct (mapM_ok (spine_update_anims.anchor_line s) anchors) as (lines & Hlines).
  { eapply Forall_impl; [| exact Hd]. intros a. apply regen_anchor_line_ok. }
  destruct (mapM_ok (spine_update_anims.bone_line s) bones) as (blines & Hblines).
  { eapply Forall_impl; [| exact Hb]. intros b. apply bone_line_ok. }
  rewrite Hlines. cbn [bind]. rewrite Hblines. cbn [bind].
  rewrite (Hg lines blines Hlines Hblines).
  unfold response_text. cbn [bind ret]. rewrite Hl.
  reflexivity.
Qed.

End ReachingTheModel.

Lemma supplied_anchors_are_drawable :
  Forall drawable_anchor
    [VDict [("id", VStr "hip"); ("label", VStr "Hip"); ("x", VFloat 0.5);
            ("y", VFloat 0.6); ("type", VStr "root")];
     VDict [("id", VStr "head"); ("label", VStr "Head"); ("x", VFloat 0.5);
            ("y", VFloat 0.1); ("type", VStr "tip")]].
Proof.
  apply Forall_cons; [| apply Forall_cons; [| apply Forall_nil]].
  - eexists _, _, _. repeat split; try reflexivity. eexists. reflexivity.
  - eexists _, _, _. repeat split; try reflexivity. eexists. reflexivity.
Qed.

Lemma example_studio_is_ready :
  overlay_ready example_studio "img.png" /\
  drawing_works example_studio.
Proof.
  split.
  - exists 800, 600, 9, 12, 800%float, 600%float, 9%float, 12%float.
    repeat split; vm_compute; reflexivity.
  - repeat split; intros; reflexivity.
Qed.

Lemma refine_reaches_the_model_witness :
  @spine_refine.refine_anchors_full example_runtime example_host example_studio
    "img.png" "anchors"
  = @spine_refine.refine_anchors example_runtime (responding stranger_response)
      "img.png" (Loaded supplied_anchors).
Proof.
  apply (@refine_reaches_the_model example_runtime example_host example_studio
           "img.png" "anchors" "other" "refinement"
           [VDict [("id", VStr "hip"); ("label", VStr "Hip"); ("x", VFloat 0.5);
                   ("y", VFloat 0.6); ("type", VStr "root")];
            VDict [("id", VStr "head"); ("label", VStr "Head"); ("x", VFloat 0.5);
                   ("y", VFloat 0.1); ("type", VStr "tip")]]
           stranger_response);
    try reflexivity; try discriminate;
    try exact supplied_anchors_are_drawable;
    try exact (proj1 example_studio_is_ready);
    try exact (proj2 example_studio_is_ready).
Defined.

Lemma regenerate_reaches_the_model_witness :
  @spine_update_anims.update_animations_full example_runtime example_host
    example_studio "img.png" "anchors" "bones"
  = @spine_update_anims.update_animations example_runtime
      (responding example_regeneration) "img.png"
      (Loaded supplied_anchors) (Loaded example_bones).
Proof.
  apply (@regenerate_reaches_the_model example_runtime example_host example_studio
           "img.png" "anchors" "bones" "AIza-key" "animations"
           [VDict [("id", VStr "hip"); ("label", VStr "Hip"); ("x", VFloat 0.5);
                   ("y", VFloat 0.6); ("type", VStr "root")];
            VDict [("id", VStr "head"); ("label", VStr "Head"); ("x", VFloat 0.5);
                   ("y", VFloat 0.1); ("type", VStr "tip")]]
           [VDict [("id", VStr "spine"); ("from", VStr "hip"); ("to", VStr "head");
                   ("parent", VNone)];
            VDict [("id", VStr "ghost"); ("from", VStr "hip"); ("to", VStr "tail");
                   ("parent", VStr "spine")]]
           example_regeneration);
    try reflexivity; try discriminate;
    try exact supplied_anchors_are_drawable;
    try exact (proj1 example_studio_is_ready);
    try exact (proj2 example_studio_is_ready).
  repeat constructor; eexists; repeat split; reflexivity.
Defined.

(** ** Detect, then an overlay *)

Section DetectThenOverlay.

Context {RT : Runtime}.




End DetectThenOverlay.


(** Detect accepts an anchor named by a number, and returns it as it is:
    the second condition is not met, the marker has no text. *)
Example detect_returns_a_numbered_anchor :
  py_getitem (@spine_analyze.analyze_image example_runtime
                (responding numbered_analysis) "img.png") "anchors"
  = inr (VList [VDict [("id", VInt 7); ("x", VFloat 0.5); ("y", VFloat 0.5);
                       ("type", VStr "joint")]]) /\
  marker_text (VDict [("id", VInt 7); ("x", VFloat 0.5); ("y", VFloat 0.5);
                      ("type", VStr "joint")])
  = inr (VInt 7).
Proof. split; vm_compute; reflexivity. Qed.

(** ** Refine: applied corrections, flags, and its own vault file *)

Lemma lookup_correction_In (corrections : list value) (aid c : value) :
  lookup_correction corrections aid = Some c -> In c corrections.
Proof.
  unfold lookup_correction.
  assert (H : forall l init,
             fold_left (fun found c0 => if has_id aid c0 then Some c0 else found)
                       l init = Some c ->
             init = Some c \/ In c l).
  { induction l as [| x r IH]; simpl; intros init Hf; [auto |].
    destruct (IH _ Hf) as [Hi | Hi]; [| auto].
    destruct (has_id aid x); [injection Hi as <-; auto | auto]. }
  intros Hf. destruct (H _ _ Hf) as [Hi | Hi]; [discriminate | assumption].
Qed.

Section RefineCorrections.

Context {RT : Runtime}.

Import spine_refine.

Lemma new_coordinate_inside (c orig : value) (axis : string) (f n : float) :
  new_coordinate c orig axis = inr n ->
  py_getitem c axis = inr (VFloat f) -> in_range 0 1 f ->
  (n =? f)%float = true.
Proof.
  unfold new_coordinate. intros H Hg Hr.
  bind_as H o Eo. rewrite (py_get_present _ _ _ _ Hg) in H.
  simpl in H. unfold ret in H. injection H as <-.
  apply clamp_unit_inside. assumption.
Qed.

Lemma rounds_corrections_applied (cmap : list (value * value))
  (corrections originals : list value) (rounds : list round) :
  reads cmap corrections ->
  mapM (round_of cmap) originals = inr rounds ->
  Forall2 (correction_applied corrections) originals (map appended rounds).
Proof.
  intros Hreads. revert rounds.
  induction originals as [| orig rest IH]; simpl; intros rounds H.
  - injection H as <-. constructor.
  - bind_as H r Er. bind_as H rs Ers. unfold ret in H. injection H as <-.
    simpl. constructor; [| apply IH; assumption].
    intros c axis f Hc Haxis Hg Hr.
    destruct (RefineFacts.round_of_corrected cmap corrections orig c r Hreads Er Hc)
      as (aid & nx & ny & dist & flag & _ & Enx & Eny & _ & _ & ->).
    destruct Haxis as [-> | ->]; simpl.
    + exists nx. split; [reflexivity |].
      apply (new_coordinate_inside c orig "x" f nx Enx Hg Hr).
    + exists ny. split; [reflexivity |].
      apply (new_coordinate_inside c orig "y" f ny Eny Hg Hr).
Qed.

(** X26. Refine places a corrected anchor where the model said: a float
    coordinate of the correction between 0.0 and 1.0 is returned as the same
    number. *)
Theorem refine_applies_corrections_inside (w : world) (path : string) (aj : loads) :
  is_success (refine_anchors w path aj) ->
  exists data originals corrections outs,
    aj = Loaded (VList originals) /\
    response w = inr (Loaded data) /\
    py_getitem data "anchors" = inr (VList corrections) /\
    py_getitem (refine_anchors w path aj) "anchors" = inr (VList outs) /\
    Forall2 (correction_applied corrections) originals outs.
Proof.
  intros Hs.
  destruct (RefineFacts.refine_success w path aj Hs)
    as (anchors & data & -> & Ta & Hr & Hm).
  destruct (RefineFacts.merge_success anchors data _ Ta Hm Hs)
    as (originals & corrections & cmap & rounds & -> & Ec & Hreads & Hrounds & Hres).
  exists data, originals, corrections, (map appended rounds).
  split; [reflexivity |]. split; [assumption |]. split; [assumption |].
  split; [rewrite Hres; reflexivity |].
  apply (rounds_corrections_applied cmap corrections originals rounds Hreads Hrounds).
Qed.

Lemma rounds_flags_agree (cmap : list (value * value))
  (corrections originals : list value) (rounds : list round) :
  reads cmap corrections ->
  (forall c, In c corrections -> py_in "corrected" c = inr false) ->
  mapM (round_of cmap) originals = inr rounds ->
  List.length (filter counted rounds)
  = List.length (filter flagged_true (map appended rounds)).
Proof.
  intros Hreads Hsilent. revert rounds.
  induction originals as [| orig rest IH]; simpl; intros rounds H.
  - injection H as <-. reflexivity.
  - bind_as H r Er. bind_as H rs Ers. unfold ret in H. injection H as <-.
    specialize (IH rs Ers). simpl.
    assert (Hr : counted r = flagged_true (appended r)).
    { destruct (correction_for corrections orig) as [c |] eqn:Ec.
      - destruct (RefineFacts.round_of_corrected cmap corrections orig c r
                    Hreads Er Ec)
          as (aid & nx & ny & dist & flag & _ & _ & _ & _ & Hflag & ->).
        assert (Hin : In c corrections).
        { unfold correction_for in Ec.
          destruct (py_getitem orig "id") as [e | id]; [discriminate |].
          apply (lookup_correction_In corrections id c Ec). }
        pose proof (Hsilent c Hin) as Hc.
        destruct c as [| | | | | | d]; simpl in Hc; try discriminate.
        unfold ret, dict_mem in Hc. unfold model_flag. simpl in Hflag |- *.
        destruct (dict_get "corrected" d); [discriminate |].
        unfold ret in Hflag. injection Hflag as <-. simpl.
        unfold flagged_true. simpl.
        destruct (0.005 <? dist)%float; reflexivity.
      - destruct (RefineFacts.round_of_kept cmap corrections orig r Hreads Er Ec)
          as (aid & ox & oy & _ & _ & _ & ->).
        reflexivity. }
    rewrite <- Hr. destruct (counted r); simpl; rewrite IH; reflexivity.
Qed.

(** X27. When no correction of the response carries a [corrected] key, the
    flags and the count of a success result of Refine agree:
    [corrected_count] is the number of returned anchors whose flag is
    [True]. *)
Theorem silent_corrections_are_counted_as_flagged (w : world) (path : string)
  (aj : loads) (data : value) (corrections : list value) :
  is_success (refine_anchors w path aj) ->
  response w = inr (Loaded data) ->
  py_getitem data "anchors" = inr (VList corrections) ->
  (forall c, In c corrections -> py_in "corrected" c = inr false) ->
  exists outs,
    py_getitem (refine_anchors w path aj) "anchors" = inr (VList outs) /\
    py_getitem (refine_anchors w path aj) "corrected_count"
    = inr (VInt (Z.of_nat (List.length (filter flagged_true outs)))).
Proof.
  intros Hs Hr Ec Hsilent.
  destruct (RefineFacts.refine_success w path aj Hs)
    as (anchors & data' & -> & Ta & Hr' & Hm).
  rewrite Hr in Hr'. injection Hr' as <-.
  destruct (RefineFacts.merge_success anchors data _ Ta Hm Hs)
    as (originals & corrections' & cmap & rounds & -> & Ec' & Hreads & Hrounds & Hres).
  rewrite Ec in Ec'. injection Ec' as <-.
  exists (map appended rounds).
  rewrite Hres. simpl. split; [reflexivity |].
  rewrite (rounds_flags_agree cmap corrections originals rounds
             Hreads Hsilent Hrounds).
  reflexivity.
Qed.

(** X28. Refine takes the key from the vault file beside its script when
    that file exists and can be read: the key is the text of the file
    between its leading and trailing white space, and the environment is not
    consulted. *)
Theorem refine_vault_key_is_the_trimmed_text (h : host) (vault_path text : string) :
  script_vault h = inr vault_path ->
  path_exists h vault_path = inr true ->
  path_read_text h vault_path = inr text ->
  exists pre key post,
    get_api_key h = inr (Some key) /\
    text = (pre ++ key ++ post)%string /\
    all_space pre /\ all_space post /\ trimmed key.
Proof.
  intros Hp He Hr.
  destruct (py_strip_spec text) as (pre & post & Ht & Hpre & Hpost & Htr).
  exists pre, (py_strip text), post.
  unfold get_api_key. rewrite Hp. simpl. rewrite He. simpl. rewrite Hr. simpl.
  repeat split; try assumption; apply Htr.
Qed.

End RefineCorrections.

Lemma refine_applies_corrections_inside_witness :
  let result :=
    @spine_refine.refine_anchors example_runtime
      (responding scenario_response) "img.png" (Loaded scenario_two_anchors) in
  is_success result /\
  exists data originals corrections outs,
    Loaded scenario_two_anchors = Loaded (VList originals) /\
    response (responding scenario_response) = inr (Loaded data) /\
    py_getitem data "anchors" = inr (VList corrections) /\
    py_getitem result "anchors" = inr (VList outs) /\
    Forall2 (correction_applied corrections) originals outs.
Proof.
  split; [reflexivity |].
  apply (@refine_applies_corrections_inside example_runtime
           (responding scenario_response) "img.png" (Loaded scenario_two_anchors)).
  reflexivity.
Defined.

Lemma silent_corrections_are_counted_as_flagged_witness :
  let result :=
    @spine_refine.refine_anchors example_runtime
      (responding silent_response) "img.png" (Loaded scenario_two_anchors) in
  exists outs,
    py_getitem result "anchors" = inr (VList outs) /\
    py_getitem result "corrected_count"
    = inr (VInt (Z.of_nat (List.length (filter flagged_true outs)))).
Proof.
  apply (@silent_corrections_are_counted_as_flagged example_runtime
           (responding silent_response) "img.png" (Loaded scenario_two_anchors)
           silent_response
           [VDict [("id", VStr "a"); ("x", VFloat 0.12); ("y", VFloat 0.10)]]).
  - reflexivity.
  - reflexivity.
  - reflexivity.
  - intros c [<- | []]. reflexivity.
Defined.

Lemma refine_vault_key_is_the_trimmed_text_witness :
  exists pre key post,
    spine_refine.get_api_key script_vault_host = inr (Some key) /\
    ("AIza-key" ++ String (ascii_of_nat 10) "")%string = (pre ++ key ++ post)%string /\
    all_space pre /\ all_space post /\ trimmed key.
Proof.
  apply (refine_vault_key_is_the_trimmed_text script_vault_host
           "/srv/spine/vault/gemini_key.txt").
  - reflexivity.
  - reflexivity.
  - reflexivity.
Defined.
